(** * Allocation tiers, product overrides and progress: a shallow embedding

    The development follows three components of the administration console:

    - [AllocationOverview]   (progress of an allocation, listing of tiers),
    - [AllocationTiers]      (customer source selection, tier creation,
                              tier deletion, tier listing),
    - [TierProductOverrides] (the per-tier product override editor).

    React state is modelled by explicit state passing, the row store behind
    the [supabase] client by a record of tables, and every call to the store
    by a step of a small state monad that may fail. *)

From Stdlib Require Import ZArith QArith Qround List Sorted Permutation Lia.
From stdpp Require Import gmap strings list fin_maps.

Local Open Scope Z_scope.

(** ** JavaScript numbers

    A [number] is an IEEE 754 double.  The embedding keeps the special values
    the source can produce (NaN, the two infinities, the negative zero) and
    computes finite values exactly, as rationals in lowest terms: rounding and
    overflow are not modelled.  [Fin 0] is the positive zero. *)

Module JS.

Inductive number :=
  | NaN
  | PInf
  | NInf
  | NZero
  | Fin (q : Q).

Definition of_Z (z : Z) : number := Fin (inject_Z z).

Definition is_nan (x : number) : bool :=
  match x with NaN => true | _ => false end.

Definition is_inf (x : number) : bool :=
  match x with PInf | NInf => true | _ => false end.

Definition to_Q (x : number) : Q :=
  match x with Fin q => q | _ => 0%Q end.

Definition is_zero (x : number) : bool :=
  match x with
  | NZero => true
  | Fin q => Qeq_bool q 0
  | _ => false
  end.

(** The sign bit; a NaN never reaches the places where it is read. *)
Definition sign_bit (x : number) : bool :=
  match x with
  | NInf | NZero => true
  | Fin q => (Qnum q <? 0)%Z
  | _ => false
  end.

Definition signed_zero (s : bool) : number := if s then NZero else Fin 0.
Definition signed_inf (s : bool) : number := if s then NInf else PInf.

(** A finite result [q]; [s] is the sign given to a zero result. *)
Definition finite (s : bool) (q : Q) : number :=
  if Qeq_bool q 0 then signed_zero s else Fin (Qred q).

Definition neg (x : number) : number :=
  match x with
  | NaN => NaN
  | PInf => NInf
  | NInf => PInf
  | NZero => Fin 0
  | Fin q => finite true (- q)
  end.

(** [a + b]: a zero sum is the positive zero unless both operands are the
    negative zero (round to nearest). *)
Definition add (a b : number) : number :=
  match a, b with
  | NaN, _ | _, NaN => NaN
  | PInf, NInf | NInf, PInf => NaN
  | PInf, _ | _, PInf => PInf
  | NInf, _ | _, NInf => NInf
  | NZero, NZero => NZero
  | NZero, Fin q | Fin q, NZero => finite false q
  | Fin p, Fin q => finite false (p + q)
  end.

(** [a - b] *)
Definition sub (a b : number) : number := add a (neg b).

(** [a * b] *)
Definition mul (a b : number) : number :=
  let s := xorb (sign_bit a) (sign_bit b) in
  if is_nan a || is_nan b then NaN
  else if is_inf a then (if is_zero b then NaN else signed_inf s)
  else if is_inf b then (if is_zero a then NaN else signed_inf s)
  else finite s (to_Q a * to_Q b).

(** [a / b]: a zero divisor gives an infinity, or NaN for [0 / 0]. *)
Definition div (a b : number) : number :=
  let s := xorb (sign_bit a) (sign_bit b) in
  if is_nan a || is_nan b then NaN
  else if is_inf a then (if is_inf b then NaN else signed_inf s)
  else if is_inf b then signed_zero s
  else if is_zero b then (if is_zero a then NaN else signed_inf s)
  else finite s (to_Q a / to_Q b).

(** [Math.ceil]: values in (-1, 0) go to the negative zero. *)
Definition ceil (x : number) : number :=
  match x with
  | Fin q => finite (Qnum q <? 0)%Z (inject_Z (Qceiling q))
  | _ => x
  end.

(** [a < b] as [Math.max] and [Math.min] order their arguments: the negative
    zero is below the positive zero. Neither argument is a NaN. *)
Definition below (a b : number) : bool :=
  match a, b with
  | NaN, _ | _, NaN => false
  | _, NInf | PInf, _ => false
  | NInf, _ | _, PInf => true
  | NZero, NZero => false
  | NZero, Fin q => Qle_bool 0 q
  | Fin p, NZero => negb (Qle_bool 0 p)
  | Fin p, Fin q => negb (Qle_bool q p)
  end.

(** [Math.max(a, b)] and [Math.min(a, b)]: NaN if either argument is. *)
Definition max (a b : number) : number :=
  if is_nan a || is_nan b then NaN else if below a b then b else a.

Definition min (a b : number) : number :=
  if is_nan a || is_nan b then NaN else if below b a then b else a.

(** A number that is neither NaN nor an infinity. *)
Definition is_finite (x : number) : Prop :=
  match x with
  | NZero | Fin _ => True
  | _ => False
  end.

End JS.

Abbreviation number := JS.number.

(** ** The row store

    The relations the console reads and writes, one record per row.  A table
    is the list of its rows in insertion order. *)

Inductive CustomerSourceId := query | tag | group | club | search.

#[global] Instance CustomerSourceId_eq_dec : EqDecision CustomerSourceId.
Proof. solve_decision. Defined.

Inductive DiscountType := percentage | fixed.

Record Requirements := {
  cartMin : option number;
  cartMax : option number;
  minAmount : option number
}.

Record Discounts := {
  discount_type : option DiscountType;
  discount_amount : option number
}.

Record Shipping := {
  shipping_method : option string;
  shipping_type : option DiscountType;
  shipping_amount : option number
}.

Module AllocationTier.
Record t := {
  id : string;
  allocation_id : string;
  name : string;
  level : Z;
  access_start : string;
  access_end : string;
  customer_count : Z
}.
End AllocationTier.

Module TierOverrides.
Record t := {
  tier_id : string;
  requirements : option Requirements;
  discounts : option Discounts;
  shipping : option Shipping;
  has_product_overrides : bool
}.
End TierOverrides.

Module TierProductOverride.
Record t := {
  tier_id : string;
  product_id : string;
  override_price : option number;
  min_purchase : option number;
  max_purchase : option number;
  allow_wish_requests : bool;
  wish_request_min : option number;
  wish_request_max : option number
}.
End TierProductOverride.

Module AllocationProduct.
Record t := {
  id : string;
  allocation_id : string;
  product_id : string;
  override_price : option number;
  min_purchase : option number;
  max_purchase : option number;
  allow_wish_requests : bool;
  wish_request_min : option number;
  wish_request_max : option number
}.
End AllocationProduct.

Module CustomerTier.
Record t := {
  allocation_id : string;
  tier_id : string;
  customer_id : string;
  source_type : CustomerSourceId;
  source_id : string;
  created_at : string
}.
End CustomerTier.

Module Store.

Record t := {
  allocation_tiers : list AllocationTier.t;
  tier_overrides : list TierOverrides.t;
  tier_product_overrides : list TierProductOverride.t;
  allocation_products : list AllocationProduct.t;
  customer_tiers : list CustomerTier.t;
  (** rows of [allocation_tiers] inserted so far: the store names a new row
      from it *)
  next_id : nat
}.

Definition with_tier_overrides (rows : list TierOverrides.t) (s : t) : t :=
  {| allocation_tiers := allocation_tiers s;
     tier_overrides := rows;
     tier_product_overrides := tier_product_overrides s;
     allocation_products := allocation_products s;
     customer_tiers := customer_tiers s;
     next_id := next_id s |}.

Definition with_tier_product_overrides (rows : list TierProductOverride.t) (s : t) : t :=
  {| allocation_tiers := allocation_tiers s;
     tier_overrides := tier_overrides s;
     tier_product_overrides := rows;
     allocation_products := allocation_products s;
     customer_tiers := customer_tiers s;
     next_id := next_id s |}.

Definition with_customer_tiers (rows : list CustomerTier.t) (s : t) : t :=
  {| allocation_tiers := allocation_tiers s;
     tier_overrides := tier_overrides s;
     tier_product_overrides := tier_product_overrides s;
     allocation_products := allocation_products s;
     customer_tiers := rows;
     next_id := next_id s |}.

(** [.order(column, { ascending: true })]: the rows by ascending key.  Rows
    of equal key are taken in table order here; that is the choice of this
    store, not of the query, which fixes no more than [orders] says. *)
Fixpoint insert_by {A} (key : A -> Z) (x : A) (rows : list A) : list A :=
  match rows with
  | [] => [x]
  | y :: rest => if (key x <? key y)%Z then x :: y :: rest
                 else y :: insert_by key x rest
  end.

Definition order_by {A} (key : A -> Z) (rows : list A) : list A :=
  foldl (fun sorted x => insert_by key x sorted) [] rows.

(** The order of the rows a sort by [key] gives. *)
Definition ascending {A} (key : A -> Z) (a b : A) : Prop := (key a <= key b)%Z.

(** [.from('allocation_tiers').select(...).eq('allocation_id', allocationId)
    .order('level', { ascending: true })] *)
Definition select_tiers (allocationId : string) (s : t) : list AllocationTier.t :=
  order_by AllocationTier.level
    (filter (fun r => AllocationTier.allocation_id r = allocationId) (allocation_tiers s)).

(** What a query with the one sort key fixes of its answer: it holds the
    rows selected, by ascending key.  The order of the rows of one key is the
    store's. *)
Definition orders {A} (key : A -> Z) (rows answer : list A) : Prop :=
  answer ≡ₚ rows /\ Sorted Z.le (map key answer).

(** The answers the query of [select_tiers] admits. *)
Definition may_select_tiers (allocationId : string) (s : t)
    (answer : list AllocationTier.t) : Prop :=
  orders AllocationTier.level
    (filter (fun r => AllocationTier.allocation_id r = allocationId) (allocation_tiers s))
    answer.

(** [.maybeSingle()]: no row is [null], one row is that row, more rows are an
    error. *)
Definition maybeSingle {A} (rows : list A) : option (option A) :=
  match rows with
  | [] => Some None
  | [x] => Some (Some x)
  | _ => None
  end.

(** Modelled from the spec: the referential cleanup of the persistence layer,
    whose schema is not among the sources.  Deleting a tier row removes,
    transitively, its override bundle, its product overrides and its customer
    assignment rows, in the one request. *)
Definition delete_tier (tierId : string) (s : t) : t :=
  {| allocation_tiers :=
       filter (fun r => AllocationTier.id r ≠ tierId) (allocation_tiers s);
     tier_overrides :=
       filter (fun r => TierOverrides.tier_id r ≠ tierId) (tier_overrides s);
     tier_product_overrides :=
       filter (fun r => TierProductOverride.tier_id r ≠ tierId) (tier_product_overrides s);
     allocation_products := allocation_products s;
     customer_tiers :=
       filter (fun r => CustomerTier.tier_id r ≠ tierId) (customer_tiers s);
     next_id := next_id s |}.

(** Modelled from the spec: the key of [tier_overrides], whose schema is
    not among the sources; a tier has no bundle or one, so that
    [.upsert({ tier_id, has_product_overrides })] meets the row of the tier,
    if any.  That row has the given column updated; a tier without a row
    gets one, its other columns null. *)
Definition upsert_has_product_overrides (tierId : string) (flag : bool)
    (rows : list TierOverrides.t) : list TierOverrides.t :=
  if existsb (fun r => bool_decide (TierOverrides.tier_id r = tierId)) rows
  then map (fun r =>
              if bool_decide (TierOverrides.tier_id r = tierId)
              then {| TierOverrides.tier_id := TierOverrides.tier_id r;
                      TierOverrides.requirements := TierOverrides.requirements r;
                      TierOverrides.discounts := TierOverrides.discounts r;
                      TierOverrides.shipping := TierOverrides.shipping r;
                      TierOverrides.has_product_overrides := flag |}
              else r) rows
  else rows ++ [ {| TierOverrides.tier_id := tierId;
                    TierOverrides.requirements := None;
                    TierOverrides.discounts := None;
                    TierOverrides.shipping := None;
                    TierOverrides.has_product_overrides := flag |} ].

End Store.

(** ** The client

    A request to the store answers with data or with an error, and changes
    nothing when it answers with an error.  Which requests fail is not up to
    the console: the world carries the answers still to come ([true]: the
    next request fails; no entry left: it succeeds).  [console] collects what
    [console.error] is given.

    A handler of a component with state [S] is a computation [M S A]: it
    reads and sets the component state, sends requests, and may throw. *)

Module Client.

Inductive error :=
  | Error (message : string)
  | PostgrestError
  | RangeError.

Record world := {
  db : Store.t;
  faults : list bool;
  console : list error
}.

Definition M (S A : Type) : Type := S -> world -> S * world * (error + A).

Definition ret {S A} (a : A) : M S A := fun st w => (st, w, inr a).

Definition bind {S A B} (m : M S A) (k : A -> M S B) : M S B :=
  fun st w => match m st w with
              | (st', w', inl e) => (st', w', inl e)
              | (st', w', inr a) => k a st' w'
              end.

Definition throw {S A} (e : error) : M S A := fun st w => (st, w, inl e).

(** [try { m } catch (error) { handler }] *)
Definition try_catch {S A} (m : M S A) (handler : error -> M S A) : M S A :=
  fun st w => match m st w with
              | (st', w', inl e) => handler e st' w'
              | (st', w', inr a) => (st', w', inr a)
              end.

(** [try { m } finally { final }], for a [final] that does not throw *)
Definition try_finally {S A} (m : M S A) (final : S -> S) : M S A :=
  fun st w => match m st w with
              | (st', w', r) => (final st', w', r)
              end.

(** The state as the handler's closure has it. *)
Definition get {S} : M S S := fun st w => (st, w, inr st).

(** [setX(...)] *)
Definition set {S} (f : S -> S) : M S unit := fun st w => (f st, w, inr tt).

Definition console_error {S} (e : error) : M S unit :=
  fun st w =>
    (st, {| db := db w; faults := faults w; console := console w ++ [e] |}, inr tt).

(** The [{ data, error }] a request resolves to. *)
Inductive response (A : Type) :=
  | Data (data : A)
  | Failed (e : error).
Arguments Data {A} data.
Arguments Failed {A} e.

Definition request {S A} (op : Store.t -> Store.t * response A) : M S (response A) :=
  fun st w =>
    match faults w with
    | true :: rest =>
        (st, {| db := db w; faults := rest; console := console w |},
         inr (Failed PostgrestError))
    | _ =>
        let '(s, r) := op (db w) in
        (st, {| db := s; faults := tail (faults w); console := console w |}, inr r)
    end.

(** [if (error) throw error] *)
Definition or_throw {S A} (r : response A) : M S A :=
  match r with
  | Data a => ret a
  | Failed e => throw e
  end.

(** [data || fallback] *)
Definition data_or {A} (fallback : A) (r : response A) : A :=
  match r with
  | Data a => a
  | Failed _ => fallback
  end.

(** [await Promise.all(l.map(async x => f x))], each [f x] one request *)
Fixpoint mapM {S A B} (f : A -> M S B) (l : list A) : M S (list B) :=
  match l with
  | [] => ret []
  | x :: rest => bind (f x) (fun y => bind (mapM f rest) (fun ys => ret (y :: ys)))
  end.

Definition read {A} (q : Store.t -> A) : Store.t -> Store.t * response A :=
  fun s => (s, Data (q s)).

Definition write (f : Store.t -> Store.t) : Store.t -> Store.t * response unit :=
  fun s => (f s, Data tt).

(** What a handler leaves behind. *)
Definition state_after {S A} (m : M S A) (st : S) (w : world) : S := (m st w).1.1.
Definition world_after {S A} (m : M S A) (st : S) (w : world) : world := (m st w).1.2.
Definition db_after {S A} (m : M S A) (st : S) (w : world) : Store.t :=
  db (world_after m st w).

(** Whatever the store answers, the handler takes the store from a state to
    one related to it by [R]. *)
Definition preserves {S A} (R : relation Store.t) (m : M S A) : Prop :=
  forall st w, R (db w) (db_after m st w).

(** The next [n] requests are answered without an error. *)
Definition answered (n : nat) (w : world) : bool :=
  forallb negb (take n (faults w)).

End Client.

Notation "'let*' x ':=' m 'in' k" := (Client.bind m (fun x => k))
  (at level 10, x pattern, m at level 100, k at level 200).

(** JavaScript truthiness of a string, and of a number that is an integer or
    NaN (as [parseInt] gives; [None] is NaN) *)
Definition truthy (s : string) : bool := negb (String.eqb s "").

Definition truthy_int (n : option Z) : bool :=
  match n with
  | Some z => negb (z =? 0)%Z
  | None => false
  end.

Inductive AllocationType := tier_type | individual_type.

(** The columns of an allocation row the console reads; the dates are the
    epoch milliseconds that [new Date(...).getTime()] gives for them. *)
Module Allocation.
Record t := {
  id : string;
  allocation_type : AllocationType;
  start_date : Z;
  end_date : Z
}.
End Allocation.

(** ** AllocationOverview: progress of an allocation *)

Module Overview.

Import Allocation.

(** [1000 * 60 * 60 * 24] *)
Definition day_ms : number :=
  JS.mul (JS.mul (JS.mul (JS.of_Z 1000) (JS.of_Z 60)) (JS.of_Z 60)) (JS.of_Z 24).

(** The time values a [Date] can hold: at most 8.64e15 milliseconds either
    side of the epoch. *)
Definition is_time (t : Z) : Prop := Z.abs t <= 8640000000000000.

(** The integers up to 2^53, which a double holds exactly. *)
Definition exact (z : Z) : Prop := Z.abs z <= 9007199254740992.

(** [now] is the reading of [new Date().getTime()]. *)
Definition daysRemaining (allocation : Allocation.t) (now : Z) : number :=
  JS.ceil (JS.div (JS.sub (JS.of_Z (end_date allocation)) (JS.of_Z now)) day_ms).

Definition daysTotal (allocation : Allocation.t) : number :=
  JS.ceil (JS.div (JS.sub (JS.of_Z (end_date allocation))
                          (JS.of_Z (start_date allocation))) day_ms).

Definition progress (allocation : Allocation.t) (now : Z) : number :=
  JS.min (JS.of_Z 100)
    (JS.max (JS.of_Z 0)
       (JS.mul (JS.div (JS.sub (daysTotal allocation) (daysRemaining allocation now))
                       (daysTotal allocation))
               (JS.of_Z 100))).

(** The progress as the contract states it:
    [clamp((daysTotal - daysRemaining) / daysTotal * 100, 0, 100)] with
    [daysTotal = ceil((end - start) / day)] and
    [daysRemaining = ceil((end - now) / day)], and 100 for a window of zero
    days. *)
Definition clamp (x lo hi : Q) : Q :=
  if Qle_bool x lo then lo else if Qle_bool hi x then hi else x.

Definition days (from to : Z) : Z :=
  Qceiling (inject_Z (to - from) / inject_Z 86400000).

Definition computeProgress (allocation : Allocation.t) (now : Z) : Q :=
  let total := days (start_date allocation) (end_date allocation) in
  let remaining := days now (end_date allocation) in
  if (total =? 0)%Z then 100%Q
  else clamp (inject_Z (total - remaining) / inject_Z total * 100) 0 100.

(** Midnight UTC of a day given by its number of days since 1970-01-01. *)
Definition utc_day (d : Z) : Z := d * 86400000.

(** 2024-01-01 is day 19723 of the epoch. *)
Definition jan_2024 (day_of_month : Z) : Z := utc_day (19723 + (day_of_month - 1)).

Record State := {
  tiers : list AllocationTier.t;
  loading : bool
}.

Definition setTiers (v : list AllocationTier.t) (st : State) : State :=
  {| tiers := v; loading := loading st |}.

Definition setLoading (v : bool) (st : State) : State :=
  {| tiers := tiers st; loading := v |}.

Definition fetchTiers (allocation : Allocation.t) : Client.M State unit :=
  let* _ :=
    match allocation_type allocation with
    | tier_type =>
        Client.try_catch
          (let* tiersResponse :=
             Client.request (Client.read (Store.select_tiers (Allocation.id allocation))) in
           let* data := Client.or_throw tiersResponse in
           Client.set (setTiers data))
          (fun error => Client.console_error error)
    | individual_type => Client.ret tt
    end in
  Client.set (setLoading false).

(** An allocation of type tier with the given window. *)
Definition window (from to : Z) : Allocation.t :=
  {| Allocation.id := "a1"; allocation_type := tier_type;
     start_date := from; end_date := to |}.

End Overview.

(** ** AllocationTiers *)

Module Tiers.
Import Client.

Module Item.
Record t := {
  id : string;
  name : string;
  count : option Z
}.
End Item.

Record SelectedSource := {
  sourceId : CustomerSourceId;
  items : list Item.t
}.

(** Mock data mapping for selected items *)
Definition MOCK_ITEM_DATA : list (string * (string * option Z)) :=
  [ ("q1", ("High Value Customers", Some 150));
    ("q2", ("Recent Purchasers", Some 75));
    ("q3", ("Club Members", Some 200));
    ("t1", ("VIP", Some 150));
    ("t2", ("Collector", Some 75));
    ("t3", ("Early Access", Some 200));
    ("g1", ("West Coast", Some 500));
    ("g2", ("East Coast", Some 300));
    ("g3", ("Trade", Some 100));
    ("c1", ("Reserve Club", Some 250));
    ("c2", ("Reds Only", Some 175));
    ("c3", ("Mixed Club", Some 300));
    ("cust1", ("John Doe", None));
    ("cust2", ("Jane Smith", None));
    ("cust3", ("Bob Wilson", None)) ]%string.

(** [MOCK_ITEM_DATA[id]], for the ids the source lists offer *)
Definition mock_item (id : string) : option (string * option Z) :=
  snd <$> List.find (fun entry => bool_decide (fst entry = id)) MOCK_ITEM_DATA.

(** The names the index [MOCK_ITEM_DATA[id]] answers to besides the keys of
    the table: the members an object literal inherits from
    [Object.prototype].  [mock_item] is the index for every other id. *)
Definition inherited : list string :=
  [ "constructor"; "hasOwnProperty"; "isPrototypeOf"; "propertyIsEnumerable";
    "toLocaleString"; "toString"; "valueOf"; "__proto__";
    "__defineGetter__"; "__defineSetter__"; "__lookupGetter__"; "__lookupSetter__" ]%string.

(** An id that is no such name. *)
Definition plain (id : string) : Prop := id ∉ inherited.

Record FormOverrides := {
  form_requirements : option Requirements;
  form_discounts : option Discounts;
  form_shipping : option Shipping;
  form_products : option bool
}.

Record TierFormData := {
  name : string;
  (** [parseInt] of the level input; [None] is NaN *)
  level : option Z;
  accessStart : string;
  accessEnd : string;
  overrides : FormOverrides
}.

Module TierData.
Record t := {
  id : string;
  name : string;
  level : Z;
  access_start : string;
  access_end : string;
  customer_count : Z;
  overrides : option TierOverrides.t
}.
End TierData.

Record State := {
  showTierForm : bool;
  selectedSource : CustomerSourceId;
  selectedItems : list string;
  selectedSources : list SelectedSource;
  tiers : list TierData.t;
  loading : bool;
  formData : TierFormData
}.

Definition emptyForm : TierFormData :=
  {| name := ""; level := Some 1; accessStart := ""; accessEnd := "";
     overrides := {| form_requirements := None; form_discounts := None;
                     form_shipping := None; form_products := None |} |}.

(** The state the component is mounted with. *)
Definition initialState : State :=
  {| showTierForm := false; selectedSource := query; selectedItems := [];
     selectedSources := []; tiers := []; loading := true; formData := emptyForm |}.

Definition setShowTierForm (v : bool) (st : State) : State :=
  {| showTierForm := v; selectedSource := selectedSource st;
     selectedItems := selectedItems st; selectedSources := selectedSources st;
     tiers := tiers st; loading := loading st; formData := formData st |}.

Definition setSelectedSource (v : CustomerSourceId) (st : State) : State :=
  {| showTierForm := showTierForm st; selectedSource := v;
     selectedItems := selectedItems st; selectedSources := selectedSources st;
     tiers := tiers st; loading := loading st; formData := formData st |}.

Definition setSelectedItems (v : list string) (st : State) : State :=
  {| showTierForm := showTierForm st; selectedSource := selectedSource st;
     selectedItems := v; selectedSources := selectedSources st;
     tiers := tiers st; loading := loading st; formData := formData st |}.

Definition setSelectedSources (v : list SelectedSource) (st : State) : State :=
  {| showTierForm := showTierForm st; selectedSource := selectedSource st;
     selectedItems := selectedItems st; selectedSources := v;
     tiers := tiers st; loading := loading st; formData := formData st |}.

Definition setTiers (v : list TierData.t) (st : State) : State :=
  {| showTierForm := showTierForm st; selectedSource := selectedSource st;
     selectedItems := selectedItems st; selectedSources := selectedSources st;
     tiers := v; loading := loading st; formData := formData st |}.

Definition setLoading (v : bool) (st : State) : State :=
  {| showTierForm := showTierForm st; selectedSource := selectedSource st;
     selectedItems := selectedItems st; selectedSources := selectedSources st;
     tiers := tiers st; loading := v; formData := formData st |}.

Definition setFormData (v : TierFormData) (st : State) : State :=
  {| showTierForm := showTierForm st; selectedSource := selectedSource st;
     selectedItems := selectedItems st; selectedSources := selectedSources st;
     tiers := tiers st; loading := loading st; formData := v |}.

(** *** Customer source selection *)

Definition handleSourceChange (source : CustomerSourceId) (st : State) : State :=
  setSelectedItems [] (setSelectedSource source st).

(** [prev.findIndex(s => s.sourceId === currentSource)]; [None] is -1 *)
Fixpoint findIndex (currentSource : CustomerSourceId) (prev : list SelectedSource)
  : option nat :=
  match prev with
  | [] => None
  | s :: rest => if bool_decide (sourceId s = currentSource) then Some 0%nat
                 else S <$> findIndex currentSource rest
  end.

(** The items of [newItems] the mock data knows, with their data *)
Definition selectedSourceItems (newItems : list string) : list Item.t :=
  omap (fun itemId =>
          match mock_item itemId with
          | Some (name, count) =>
              Some {| Item.id := itemId; Item.name := name; Item.count := count |}
          | None => None
          end) newItems.

Definition handleItemSelect (id : string) (st : State) : State :=
  let prev := selectedItems st in
  let newItems :=
    if bool_decide (id ∈ prev)
    then filter (fun i => i ≠ id) prev
    else prev ++ [id] in
  let currentSource := selectedSource st in
  let sources := selectedSources st in
  let newSources :=
    if (length newItems =? 0)%nat
    then filter (fun s => sourceId s ≠ currentSource) sources
    else
      let entry := {| sourceId := currentSource; items := selectedSourceItems newItems |} in
      match findIndex currentSource sources with
      | None => sources ++ [entry]
      | Some sourceIndex => <[sourceIndex := entry]> sources
      end in
  setSelectedItems newItems (setSelectedSources newSources st).

Definition removeSource (source : CustomerSourceId) (st : State) : State :=
  let st' :=
    setSelectedSources
      (filter (fun s => sourceId s ≠ source) (selectedSources st))
      st in
  if bool_decide (source = selectedSource st) then setSelectedItems [] st' else st'.

(** [item.count || 1] *)
Definition count_or_1 (item : Item.t) : Z :=
  match Item.count item with
  | Some c => if (c =? 0)%Z then 1 else c
  | None => 1
  end.

Definition totalCustomers (sources : list SelectedSource) : Z :=
  foldl (fun total source =>
           total + foldl (fun sum item => sum + count_or_1 item) 0 (items source))
        0 sources.

(** The operations of the source selector before the tier is created. *)
Inductive Selection :=
  | Switch (source : CustomerSourceId)
  | Select (id : string)
  | Remove (source : CustomerSourceId).

Definition select_step (st : State) (op : Selection) : State :=
  match op with
  | Switch source => handleSourceChange source st
  | Select id => handleItemSelect id st
  | Remove source => removeSource source st
  end.

Definition select_run (st : State) (ops : list Selection) : State :=
  foldl select_step st ops.

(** The entry of a kind in the summary of selected sources. *)
Definition entries_of (kind : CustomerSourceId) (sources : list SelectedSource)
  : list SelectedSource :=
  filter (fun s => sourceId s = kind) sources.

(** The operations of [ops] select plain ids only. *)
Definition selects_plain (ops : list Selection) : Prop :=
  forall id, Select id ∈ ops -> plain id.

(** No operation of [ops], run from [st], selects an item while [kind] is
    the active source or removes the entry of [kind]. *)
Fixpoint quiet (kind : CustomerSourceId) (st : State) (ops : list Selection) : bool :=
  match ops with
  | [] => true
  | op :: rest =>
      match op with
      | Switch _ => true
      | Select _ => bool_decide (selectedSource st ≠ kind)
      | Remove source => bool_decide (source ≠ kind)
      end && quiet kind (select_step st op) rest
  end.

Section Handlers.

(** The id the store gives the n-th tier row. *)
Variable uuid : nat -> string.
(** [new Date(s).toISOString()]; [None] when the date is invalid and the call
    throws a RangeError. *)
Variable toISOString : string -> option string.
(** [new Date().toISOString()] *)
Variable now : string.

Variable allocation : Allocation.t.

Definition select_overrides (tierId : string) (s : Store.t)
  : Store.t * response (option TierOverrides.t) :=
  (s, match Store.maybeSingle
              (filter (fun r => TierOverrides.tier_id r = tierId)
                 (Store.tier_overrides s)) with
      | Some row => Data row
      | None => Failed PostgrestError
      end).

Definition with_overrides (tier : AllocationTier.t) (overrides : option TierOverrides.t)
  : TierData.t :=
  {| TierData.id := AllocationTier.id tier;
     TierData.name := AllocationTier.name tier;
     TierData.level := AllocationTier.level tier;
     TierData.access_start := AllocationTier.access_start tier;
     TierData.access_end := AllocationTier.access_end tier;
     TierData.customer_count := AllocationTier.customer_count tier;
     TierData.overrides := overrides |}.

(** Fetch existing tiers *)
Definition fetchTiers : M State unit :=
  try_finally
    (try_catch
       (let* _ := set (setLoading true) in
        let* tiersResponse := request (read (Store.select_tiers (Allocation.id allocation))) in
        let* tiersData := or_throw tiersResponse in
        let* tiersWithOverrides :=
          mapM (fun tier =>
                  let* overridesResponse :=
                    request (select_overrides (AllocationTier.id tier)) in
                  ret (with_overrides tier (data_or None overridesResponse)))
               tiersData in
        set (setTiers tiersWithOverrides))
       (fun error => console_error error))
    (setLoading false).

Definition insert_tier (row : nat -> AllocationTier.t) (s : Store.t)
  : Store.t * response AllocationTier.t :=
  let tier := row (Store.next_id s) in
  ({| Store.allocation_tiers := Store.allocation_tiers s ++ [tier];
      Store.tier_overrides := Store.tier_overrides s;
      Store.tier_product_overrides := Store.tier_product_overrides s;
      Store.allocation_products := Store.allocation_products s;
      Store.customer_tiers := Store.customer_tiers s;
      Store.next_id := S (Store.next_id s) |}, Data tier).

Definition present {A} (field : option A) : nat :=
  match field with
  | Some _ => 1
  | None => 0
  end.

(** [Object.keys(formData.overrides).length] *)
Definition keys (o : FormOverrides) : nat :=
  present (form_requirements o) + present (form_discounts o)
  + present (form_shipping o) + present (form_products o).

Definition customerAssignments (tierId : string) (sources : list SelectedSource)
  : list CustomerTier.t :=
  flat_map (fun source =>
              map (fun item =>
                     {| CustomerTier.allocation_id := Allocation.id allocation;
                        CustomerTier.tier_id := tierId;
                        CustomerTier.customer_id := Item.id item;
                        CustomerTier.source_type := sourceId source;
                        CustomerTier.source_id := Item.id item;
                        CustomerTier.created_at := now |})
                  (items source))
           sources.

Definition date_iso (s : string) : M State string :=
  match toISOString s with
  | Some iso => ret iso
  | None => throw RangeError
  end.

Definition handleSubmit : M State unit :=
  let* st := get in
  let formData := formData st in
  let selectedSources := selectedSources st in
  try_catch
    ((* Validate required fields *)
     let* _ :=
       if negb (truthy (name formData)) || negb (truthy_int (level formData))
          || negb (truthy (accessStart formData)) || negb (truthy (accessEnd formData))
       then throw (Error "Please fill in all required fields")
       else ret tt in
     (* Create tier *)
     let* access_start := date_iso (accessStart formData) in
     let* access_end := date_iso (accessEnd formData) in
     let* tierResponse :=
       request (insert_tier (fun n =>
         {| AllocationTier.id := uuid n;
            AllocationTier.allocation_id := Allocation.id allocation;
            AllocationTier.name := name formData;
            AllocationTier.level := default 0 (level formData);
            AllocationTier.access_start := access_start;
            AllocationTier.access_end := access_end;
            AllocationTier.customer_count := totalCustomers selectedSources |})) in
     let* tier := or_throw tierResponse in
     (* Create tier overrides if any *)
     let* _ :=
       if (0 <? keys (overrides formData))%nat then
         let* overridesResponse :=
           request (write (fun s =>
             Store.with_tier_overrides
               (Store.tier_overrides s ++
                  [ {| TierOverrides.tier_id := AllocationTier.id tier;
                       TierOverrides.requirements := form_requirements (overrides formData);
                       TierOverrides.discounts := form_discounts (overrides formData);
                       TierOverrides.shipping := form_shipping (overrides formData);
                       TierOverrides.has_product_overrides :=
                         default false (form_products (overrides formData)) |} ]) s)) in
         or_throw overridesResponse
       else ret tt in
     (* Create customer assignments *)
     let* _ :=
       if (0 <? length selectedSources)%nat then
         let* assignmentResponse :=
           request (write (fun s =>
             Store.with_customer_tiers
               (Store.customer_tiers s
                  ++ customerAssignments (AllocationTier.id tier) selectedSources) s)) in
         or_throw assignmentResponse
       else ret tt in
     (* After successful creation, refresh the tiers list *)
     let* _ := fetchTiers in
     (* Reset form and close *)
     let* _ := set (setFormData emptyForm) in
     let* _ := set (setSelectedSources []) in
     let* _ := set (setSelectedItems []) in
     set (setShowTierForm false))
    (fun error => console_error error).

Definition deleteTier (tierId : string) : M State unit :=
  try_catch
    (let* deleteResponse := request (write (Store.delete_tier tierId)) in
     let* _ := or_throw deleteResponse in
     fetchTiers)
    (fun error => console_error error).

End Handlers.

(** The summary shows, for the active source, exactly the items of the
    working list. *)
Definition in_sync (st : State) : Prop :=
  entries_of (selectedSource st) (selectedSources st)
  = match selectedItems st with
    | [] => []
    | newItems =>
        [ {| sourceId := selectedSource st; items := selectedSourceItems newItems |} ]
    end.

(** An item as the mock data has it. *)
Definition from_mock (item : Item.t) : Prop :=
  mock_item (Item.id item) = Some (Item.name item, Item.count item).

Definition all_from_mock (sources : list SelectedSource) : Prop :=
  Forall (fun source => Forall from_mock (items source)) sources.

(** The number of items in the summary. *)
Definition selected_count (sources : list SelectedSource) : nat :=
  sum_list_with (fun source => length (items source)) sources.

(** [setExpandedTiers(prev => ...)] of [toggleTierExpanded] *)
Definition toggleTierExpanded (tierId : string) (prev : gset string) : gset string :=
  if bool_decide (tierId ∈ prev) then prev ∖ {[tierId]} else prev ∪ {[tierId]}.

End Tiers.

(** ** TierProductOverrides *)

Module Editor.
Import Client.

Record ProductOverride := {
  productId : string;
  overridePrice : option number;
  minPurchase : option number;
  maxPurchase : option number;
  allowWishRequests : bool;
  wishRequestMin : option number;
  wishRequestMax : option number
}.

Record Props := {
  allocation : Allocation.t;
  tierId : option string;
  initialOverrides : gmap string ProductOverride;
  (** whether the parent gave an [onSave] *)
  onSave : bool
}.

(** The callbacks of the parent. *)
Inductive Callback :=
  | OnSave (overrides : gmap string ProductOverride)
  | OnClose.

Record State := {
  products : list AllocationProduct.t;
  overrides : gmap string ProductOverride;
  loading : bool;
  (** the callbacks called so far *)
  called : list Callback
}.

Definition initialState (props : Props) : State :=
  {| products := []; overrides := initialOverrides props; loading := true; called := [] |}.

Definition setProducts (v : list AllocationProduct.t) (st : State) : State :=
  {| products := v; overrides := overrides st; loading := loading st; called := called st |}.

Definition setOverrides (v : gmap string ProductOverride) (st : State) : State :=
  {| products := products st; overrides := v; loading := loading st; called := called st |}.

Definition setLoading (v : bool) (st : State) : State :=
  {| products := products st; overrides := overrides st; loading := v; called := called st |}.

Definition call (c : Callback) (st : State) : State :=
  {| products := products st; overrides := overrides st; loading := loading st;
     called := called st ++ [c] |}.

(** [if (tierId)]: the tier id when it is given and not empty *)
Definition given (tierId : option string) : option string :=
  match tierId with
  | Some id => if truthy id then Some id else None
  | None => None
  end.

Definition of_row (override : TierProductOverride.t) : ProductOverride :=
  {| productId := TierProductOverride.product_id override;
     overridePrice := TierProductOverride.override_price override;
     minPurchase := TierProductOverride.min_purchase override;
     maxPurchase := TierProductOverride.max_purchase override;
     allowWishRequests := TierProductOverride.allow_wish_requests override;
     wishRequestMin := TierProductOverride.wish_request_min override;
     wishRequestMax := TierProductOverride.wish_request_max override |}.

Definition to_row (tierId : string) (override : ProductOverride) : TierProductOverride.t :=
  {| TierProductOverride.tier_id := tierId;
     TierProductOverride.product_id := productId override;
     TierProductOverride.override_price := overridePrice override;
     TierProductOverride.min_purchase := minPurchase override;
     TierProductOverride.max_purchase := maxPurchase override;
     TierProductOverride.allow_wish_requests := allowWishRequests override;
     TierProductOverride.wish_request_min := wishRequestMin override;
     TierProductOverride.wish_request_max := wishRequestMax override |}.

(** Convert existing overrides to state format *)
Definition overridesMap (existingOverrides : list TierProductOverride.t)
  : gmap string ProductOverride :=
  foldl (fun m override => <[TierProductOverride.product_id override := of_row override]> m)
        ∅ existingOverrides.

(** [.from('tier_product_overrides').select('*').eq('tier_id', tierId)] *)
Definition select_product_overrides (tierId : string) (s : Store.t)
  : list TierProductOverride.t :=
  filter (fun r => TierProductOverride.tier_id r = tierId) (Store.tier_product_overrides s).

Definition fetchProducts (props : Props) : M State unit :=
  try_finally
    (try_catch
       ((* Fetch allocation products *)
        let* productsResponse :=
          request (read (fun s =>
            filter (fun r => AllocationProduct.allocation_id r = Allocation.id (allocation props))
                   (Store.allocation_products s))) in
        let* allocationProducts := or_throw productsResponse in
        let* _ := set (setProducts allocationProducts) in
        (* If editing an existing tier, fetch its overrides *)
        match given (tierId props) with
        | Some tierId =>
            let* overridesResponse := request (read (select_product_overrides tierId)) in
            let* existingOverrides := or_throw overridesResponse in
            set (setOverrides (overridesMap existingOverrides))
        | None => ret tt
        end)
       (fun error => console_error error))
    (setLoading false).

(** The field and the value [handleOverrideChange] is given. *)
Inductive FieldValue :=
  | productId_ (v : string)
  | overridePrice_ (v : option number)
  | minPurchase_ (v : option number)
  | maxPurchase_ (v : option number)
  | allowWishRequests_ (v : bool)
  | wishRequestMin_ (v : option number)
  | wishRequestMax_ (v : option number).

(** [{ ...o, [field]: value }] *)
Definition with_field (fv : FieldValue) (o : ProductOverride) : ProductOverride :=
  match fv with
  | productId_ v =>
      {| productId := v; overridePrice := overridePrice o; minPurchase := minPurchase o;
         maxPurchase := maxPurchase o; allowWishRequests := allowWishRequests o;
         wishRequestMin := wishRequestMin o; wishRequestMax := wishRequestMax o |}
  | overridePrice_ v =>
      {| productId := productId o; overridePrice := v; minPurchase := minPurchase o;
         maxPurchase := maxPurchase o; allowWishRequests := allowWishRequests o;
         wishRequestMin := wishRequestMin o; wishRequestMax := wishRequestMax o |}
  | minPurchase_ v =>
      {| productId := productId o; overridePrice := overridePrice o; minPurchase := v;
         maxPurchase := maxPurchase o; allowWishRequests := allowWishRequests o;
         wishRequestMin := wishRequestMin o; wishRequestMax := wishRequestMax o |}
  | maxPurchase_ v =>
      {| productId := productId o; overridePrice := overridePrice o;
         minPurchase := minPurchase o; maxPurchase := v;
         allowWishRequests := allowWishRequests o;
         wishRequestMin := wishRequestMin o; wishRequestMax := wishRequestMax o |}
  | allowWishRequests_ v =>
      {| productId := productId o; overridePrice := overridePrice o;
         minPurchase := minPurchase o; maxPurchase := maxPurchase o;
         allowWishRequests := v;
         wishRequestMin := wishRequestMin o; wishRequestMax := wishRequestMax o |}
  | wishRequestMin_ v =>
      {| productId := productId o; overridePrice := overridePrice o;
         minPurchase := minPurchase o; maxPurchase := maxPurchase o;
         allowWishRequests := allowWishRequests o;
         wishRequestMin := v; wishRequestMax := wishRequestMax o |}
  | wishRequestMax_ v =>
      {| productId := productId o; overridePrice := overridePrice o;
         minPurchase := minPurchase o; maxPurchase := maxPurchase o;
         allowWishRequests := allowWishRequests o;
         wishRequestMin := wishRequestMin o; wishRequestMax := v |}
  end.

(** [{ productId, allowWishRequests: false }] *)
Definition blank (productId : string) : ProductOverride :=
  {| productId := productId; overridePrice := None; minPurchase := None;
     maxPurchase := None; allowWishRequests := false;
     wishRequestMin := None; wishRequestMax := None |}.

Definition handleOverrideChange (productId : string) (fv : FieldValue) (st : State) : State :=
  let prev := overrides st in
  setOverrides
    (<[productId := with_field fv (default (blank productId) (prev !! productId))]> prev)
    st.

(** [value ?? fallback] *)
Definition nullish {A} (value : option A) (fallback : A) : A :=
  match value with
  | Some v => v
  | None => fallback
  end.

(** [overrides[product.id]?.allowWishRequests ?? product.allow_wish_requests],
    the state of the wish request checkbox of a product *)
Definition wishRequests (overrides : gmap string ProductOverride)
    (product : AllocationProduct.t) : bool :=
  nullish (allowWishRequests <$> overrides !! AllocationProduct.id product)
          (AllocationProduct.allow_wish_requests product).

(** Every override is filed under its own product id, as it is when the
    overrides are loaded from the store and changed field by field. *)
Definition keys_agree (overrides : gmap string ProductOverride) : Prop :=
  map_Forall (fun key override => productId override = key) overrides.

(** [Object.values(overrides)] *)
Definition values (overrides : gmap string ProductOverride) : list ProductOverride :=
  (map_to_list overrides).*2.

Definition handleSubmit (props : Props) : M State unit :=
  let* st := get in
  let overrides := overrides st in
  if onSave props then
    (* Creation mode - return overrides to parent *)
    set (call (OnSave overrides))
  else
    match given (tierId props) with
    | Some tierId =>
        (* Edit mode - save to database *)
        try_catch
          ((* First, delete any existing overrides *)
           let* _ :=
             request (write (fun s =>
               Store.with_tier_product_overrides
                 (filter (fun r => TierProductOverride.tier_id r ≠ tierId)
                         (Store.tier_product_overrides s)) s)) in
           (* Insert new overrides *)
           let overridesToInsert := map (to_row tierId) (values overrides) in
           let* insertResponse :=
             request (write (fun s =>
               Store.with_tier_product_overrides
                 (Store.tier_product_overrides s ++ overridesToInsert) s)) in
           let* _ := or_throw insertResponse in
           (* Update tier_overrides to indicate product overrides exist *)
           let* _ :=
             request (write (fun s =>
               Store.with_tier_overrides
                 (Store.upsert_has_product_overrides tierId true (Store.tier_overrides s))
                 s)) in
           set (call OnClose))
          (fun error => console_error error)
    | None => ret tt
    end.

End Editor.

(** ** The operations of the console on the store *)

Module Console.

Inductive Operation :=
  | ListTiers (allocation : Allocation.t) (st : Tiers.State)
  | CreateTier (uuid : nat -> string) (toISOString : string -> option string)
      (now : string) (allocation : Allocation.t) (st : Tiers.State)
  | DeleteTier (allocation : Allocation.t) (tierId : string) (st : Tiers.State)
  | ShowOverview (allocation : Allocation.t) (st : Overview.State)
  | OpenEditor (props : Editor.Props) (st : Editor.State)
  | SaveOverrides (props : Editor.Props) (st : Editor.State).

Definition perform (op : Operation) (w : Client.world) : Client.world :=
  match op with
  | ListTiers allocation st => Client.world_after (Tiers.fetchTiers allocation) st w
  | CreateTier uuid toISOString now allocation st =>
      Client.world_after (Tiers.handleSubmit uuid toISOString now allocation) st w
  | DeleteTier allocation tierId st =>
      Client.world_after (Tiers.deleteTier allocation tierId) st w
  | ShowOverview allocation st => Client.world_after (Overview.fetchTiers allocation) st w
  | OpenEditor props st => Client.world_after (Editor.fetchProducts props) st w
  | SaveOverrides props st => Client.world_after (Editor.handleSubmit props) st w
  end.

(** The rows of [tier_overrides] that satisfy [P] are still there, as they
    were. *)
Definition keeps (P : TierOverrides.t -> Prop) : relation Store.t :=
  fun s s' =>
    forall row, row ∈ Store.tier_overrides s -> P row -> row ∈ Store.tier_overrides s'.

(** The operation deletes the tier [tierId]. *)
Definition deletes (op : Operation) (tierId : string) : Prop :=
  match op with
  | DeleteTier _ deleted _ => deleted = tierId
  | _ => False
  end.

End Console.

(** ** The contract

    What the specification states where the code is to be compared with it. *)

Module Contract.

(** [toggle]: select if absent, deselect if present. *)
Definition toggle (id : string) (l : list string) : list string :=
  if bool_decide (id ∈ l) then filter (fun i => i ≠ id) l else l ++ [id].

(** The selection before commit: each kind accumulates a list of its own. *)
Record Lists := {
  active : CustomerSourceId;
  list_of : CustomerSourceId -> list string
}.

Definition none : Lists := {| active := query; list_of := fun _ => [] |}.

(** Selecting an item toggles it in the list of the active kind; switching
    the active kind clears no list.  Removing a source, of which the contract
    says nothing, clears the list of that source, as it does in the code. *)
Definition step (c : Lists) (op : Tiers.Selection) : Lists :=
  match op with
  | Tiers.Switch source => {| active := source; list_of := list_of c |}
  | Tiers.Select id =>
      {| active := active c;
         list_of := fun kind => if bool_decide (kind = active c)
                                then toggle id (list_of c kind)
                                else list_of c kind |}
  | Tiers.Remove source =>
      {| active := active c;
         list_of := fun kind => if bool_decide (kind = source) then [] else list_of c kind |}
  end.

Definition run (c : Lists) (ops : list Tiers.Selection) : Lists := foldl step c ops.

(** The ids the summary of the component shows for a kind. *)
Definition shown (kind : CustomerSourceId) (st : Tiers.State) : list string :=
  map Tiers.Item.id
      (flat_map Tiers.items (Tiers.entries_of kind (Tiers.selectedSources st))).

(** [resolve(base, override)]: the override when it is defined, the base
    otherwise. *)
Definition resolve {V} (base : V) (override : option V) : V :=
  match override with
  | Some v => v
  | None => base
  end.

(** The override of [allowWishRequests] that a sequence of changes of one
    product sets: the value of the last change of that field, and none when
    no change is of that field. *)
Definition wish_override (changes : list Editor.FieldValue) : option bool :=
  foldl (fun set fv => match fv with
                       | Editor.allowWishRequests_ v => Some v
                       | _ => set
                       end) None changes.

End Contract.

(** ** Sample data *)

Module Sample.

Definition store : Store.t :=
  {| Store.allocation_tiers := []; Store.tier_overrides := [];
     Store.tier_product_overrides := []; Store.allocation_products := [];
     Store.customer_tiers := []; Store.next_id := 0 |}.

(** A world in which every request is answered. *)
Definition world (s : Store.t) : Client.world :=
  {| Client.db := s; Client.faults := []; Client.console := [] |}.

Definition allocation : Allocation.t :=
  {| Allocation.id := "a1"; Allocation.allocation_type := tier_type;
     Allocation.start_date := 1704067200000; Allocation.end_date := 1704931200000 |}.

Definition uuid (n : nat) : string :=
  match n with
  | 0%nat => "tier-1"
  | 1%nat => "tier-2"
  | _ => "tier-n"
  end.

(** Every string but the empty one reads as a date. *)
Definition toISOString (s : string) : option string :=
  if truthy s then Some s else None.

Definition now : string := "2024-01-01T00:00:00.000Z".

Definition form (name : string) (level : Z) : Tiers.TierFormData :=
  {| Tiers.name := name; Tiers.level := Some level;
     Tiers.accessStart := "2024-01-01T00:00"; Tiers.accessEnd := "2024-02-01T00:00";
     Tiers.overrides := Tiers.overrides Tiers.emptyForm |}.

Definition handleSubmit : Client.M Tiers.State unit :=
  Tiers.handleSubmit uuid toISOString now allocation.

Definition override (productId : string) (wish : bool) : Editor.ProductOverride :=
  {| Editor.productId := productId; Editor.overridePrice := Some (JS.of_Z 10);
     Editor.minPurchase := None; Editor.maxPurchase := None;
     Editor.allowWishRequests := wish;
     Editor.wishRequestMin := None; Editor.wishRequestMax := None |}.

Definition product (id : string) (wish : bool) : AllocationProduct.t :=
  {| AllocationProduct.id := id; AllocationProduct.allocation_id := "a1";
     AllocationProduct.product_id := "sku-1"; AllocationProduct.override_price := None;
     AllocationProduct.min_purchase := None; AllocationProduct.max_purchase := None;
     AllocationProduct.allow_wish_requests := wish;
     AllocationProduct.wish_request_min := None;
     AllocationProduct.wish_request_max := None |}.

(** A form that overrides the purchase requirements. *)
Definition form_with_requirements (name : string) (level : Z) : Tiers.TierFormData :=
  {| Tiers.name := name; Tiers.level := Some level;
     Tiers.accessStart := "2024-01-01T00:00"; Tiers.accessEnd := "2024-02-01T00:00";
     Tiers.overrides :=
       {| Tiers.form_requirements :=
            Some {| cartMin := Some (JS.of_Z 6); cartMax := None; minAmount := None |};
          Tiers.form_discounts := None; Tiers.form_shipping := None;
          Tiers.form_products := None |} |}.

(** A world whose store answers or refuses the requests to come as [fs]
    tells. *)
Definition world_with (fs : list bool) (s : Store.t) : Client.world :=
  {| Client.db := s; Client.faults := fs; Client.console := [] |}.

(** The editor of an existing tier. *)
Definition editing (tierId : string) : Editor.Props :=
  {| Editor.allocation := allocation; Editor.tierId := Some tierId;
     Editor.initialOverrides := ∅; Editor.onSave := false |}.

End Sample.

(** ** Parts of the store *)

Module Frame.

(** The part [f] of the store is as it was. *)
Definition same {B} (f : Store.t -> B) : relation Store.t :=
  fun s s' => f s' = f s.

End Frame.

(** * Theorems *)

(** ** Finite numbers *)

Module JSFacts.
Import JS.

Lemma finite_is_finite s q : is_finite (finite s q).
Proof. unfold finite, signed_zero. destruct (Qeq_bool q 0), s; exact I. Qed.

Lemma neg_is_finite x : is_finite x -> is_finite (neg x).
Proof. destruct x; simpl; try tauto. intros _. apply finite_is_finite. Qed.

Lemma add_is_finite x y : is_finite x -> is_finite y -> is_finite (add x y).
Proof.
  destruct x, y; simpl; try tauto; intros _ _; apply finite_is_finite.
Qed.

Lemma sub_is_finite x y : is_finite x -> is_finite y -> is_finite (sub x y).
Proof. intros Hx Hy. apply add_is_finite; [assumption | now apply neg_is_finite]. Qed.

Lemma mul_is_finite x y : is_finite x -> is_finite y -> is_finite (mul x y).
Proof.
  destruct x, y; simpl; try tauto; intros _ _; apply finite_is_finite.
Qed.

Lemma div_is_finite x y :
  is_finite x -> is_finite y -> is_zero y = false -> is_finite (div x y).
Proof.
  destruct x, y; simpl; try tauto; try discriminate; intros _ _ Hy; unfold div; simpl;
    rewrite Hy; apply finite_is_finite.
Qed.

Lemma ceil_is_finite x : is_finite x -> is_finite (ceil x).
Proof. destruct x; simpl; try tauto. intros _. apply finite_is_finite. Qed.

(** [Math.min(100, Math.max(0, x))] of a finite [x] is a finite number
    between 0 and 100. *)
Lemma clamp_percentage x :
  is_finite x ->
  exists q, min (of_Z 100) (max (of_Z 0) x) = Fin q /\ (0 <= q <= 100)%Q.
Proof.
  destruct x as [| | | |q]; simpl; try tauto; intros _.
  - exists 0%Q. split; [reflexivity | split; discriminate].
  - unfold max, min, of_Z; simpl.
    change (inject_Z 0) with 0%Q. change (inject_Z 100) with 100%Q.
    destruct (Qle_bool q 0) eqn:Hq0; simpl.
    + exists 0%Q. split; [reflexivity | split; discriminate].
    + assert (0 < q)%Q as Hpos.
      { apply Qnot_le_lt. intros Hle. apply Qle_bool_iff in Hle. congruence. }
      destruct (Qle_bool 100 q) eqn:Hq100; simpl.
      * exists 100%Q. split; [reflexivity | split; discriminate].
      * exists q. split; [reflexivity |]. split; [now apply Qlt_le_weak |].
        apply Qlt_le_weak, Qnot_le_lt. intros Hle. apply Qle_bool_iff in Hle. congruence.
Qed.

(** *** The value of a finite number *)

Lemma to_Q_finite s q : (to_Q (finite s q) == q)%Q.
Proof.
  unfold finite. destruct (Qeq_bool q 0) eqn:Hq.
  - apply Qeq_bool_iff in Hq. destruct s; simpl; symmetry; exact Hq.
  - simpl. apply Qred_correct.
Qed.

Lemma to_Q_neg x : is_finite x -> (to_Q (neg x) == - to_Q x)%Q.
Proof.
  destruct x; simpl; try tauto; intros _; [reflexivity | apply to_Q_finite].
Qed.

Lemma to_Q_add x y :
  is_finite x -> is_finite y -> (to_Q (add x y) == to_Q x + to_Q y)%Q.
Proof.
  destruct x, y; simpl; try tauto; intros _ _; rewrite ?to_Q_finite;
    try reflexivity; [now rewrite Qplus_0_l | now rewrite Qplus_0_r].
Qed.

Lemma to_Q_sub x y :
  is_finite x -> is_finite y -> (to_Q (sub x y) == to_Q x - to_Q y)%Q.
Proof.
  intros Hx Hy. unfold sub.
  rewrite to_Q_add, to_Q_neg by auto using neg_is_finite. reflexivity.
Qed.

Lemma to_Q_mul x y :
  is_finite x -> is_finite y -> (to_Q (mul x y) == to_Q x * to_Q y)%Q.
Proof.
  intros Hx Hy. destruct x, y; try contradiction;
    unfold mul; cbn [is_nan is_inf orb]; apply to_Q_finite.
Qed.

Lemma to_Q_div x y :
  is_finite x -> is_finite y -> is_zero y = false ->
  (to_Q (div x y) == to_Q x / to_Q y)%Q.
Proof.
  intros Hx Hy Hnz. destruct x, y; try contradiction;
    unfold div; cbn [is_nan is_inf orb]; rewrite Hnz; apply to_Q_finite.
Qed.

Lemma to_Q_ceil x : is_finite x -> (to_Q (ceil x) == inject_Z (Qceiling (to_Q x)))%Q.
Proof. destruct x; simpl; try tauto; intros _; [reflexivity | apply to_Q_finite]. Qed.

Lemma is_zero_to_Q x : is_finite x -> is_zero x = Qeq_bool (to_Q x) 0.
Proof. destruct x; simpl; try tauto; reflexivity. Qed.

Lemma clamp_comp (x y lo hi : Q) :
  (x == y)%Q -> (Overview.clamp x lo hi == Overview.clamp y lo hi)%Q.
Proof.
  intros Hxy. unfold Overview.clamp.
  rewrite (Qleb_comp x y Hxy lo lo (Qeq_refl lo)), (Qleb_comp hi hi (Qeq_refl hi) x y Hxy).
  destruct (Qle_bool y lo), (Qle_bool hi y); try reflexivity. exact Hxy.
Qed.

(** [Math.min(100, Math.max(0, x))] of a finite [x] is the clamp of its
    value. *)
Lemma clamp_value x :
  is_finite x ->
  exists q, min (of_Z 100) (max (of_Z 0) x) = Fin q
            /\ (q == Overview.clamp (to_Q x) 0 100)%Q.
Proof.
  destruct x as [| | | |q]; simpl; try tauto; intros _.
  - exists 0%Q. split; reflexivity.
  - unfold max, min, of_Z, Overview.clamp; simpl.
    change (inject_Z 0) with 0%Q. change (inject_Z 100) with 100%Q.
    destruct (Qle_bool q 0) eqn:Hq0; simpl.
    + exists 0%Q. split; reflexivity.
    + destruct (Qle_bool 100 q) eqn:Hq100; simpl; eexists; split; reflexivity.
Qed.

(** The difference of a timestamp with itself is the positive zero. *)
Lemma sub_self z : sub (of_Z z) (of_Z z) = Fin 0.
Proof.
  unfold sub, of_Z, neg, finite.
  destruct (Qeq_bool (- inject_Z z) 0) eqn:Hz; simpl.
  - unfold finite.
    assert (Qeq_bool (inject_Z z) 0 = true) as ->; [| reflexivity].
    apply Qeq_bool_iff. apply Qeq_bool_iff in Hz.
    rewrite <- (Qopp_involutive (inject_Z z)), Hz. reflexivity.
  - unfold finite.
    assert (Qeq_bool (inject_Z z + Qred (- inject_Z z)) 0 = true) as ->; [| reflexivity].
    apply Qeq_bool_iff. rewrite Qred_correct. apply Qplus_opp_r.
Qed.

End JSFacts.

(** ** AllocationOverview: the progress bar *)

Module OverviewFacts.
Import Overview.

Example day_ms_value : day_ms = JS.of_Z 86400000.
Proof. reflexivity. Qed.

(** The worked example of the progress bar: a ten day window, five days in. *)
Example progress_half_way :
  progress (window (jan_2024 1) (jan_2024 11)) (jan_2024 6)
  = JS.of_Z 50.
Proof. vm_compute. reflexivity. Qed.

Lemma daysTotal_is_finite allocation : JS.is_finite (daysTotal allocation).
Proof.
  unfold daysTotal. apply JSFacts.ceil_is_finite, JSFacts.div_is_finite;
    [apply JSFacts.sub_is_finite; exact I | exact I | reflexivity].
Qed.

Lemma daysRemaining_is_finite allocation now :
  JS.is_finite (daysRemaining allocation now).
Proof.
  unfold daysRemaining. apply JSFacts.ceil_is_finite, JSFacts.div_is_finite;
    [apply JSFacts.sub_is_finite; exact I | exact I | reflexivity].
Qed.

(** Whenever the window has a number of days other than zero, the bar shows
    a percentage between 0 and 100. *)
Lemma progress_in_range allocation now :
  JS.is_zero (daysTotal allocation) = false ->
  exists q, progress allocation now = JS.Fin q /\ (0 <= q <= 100)%Q.
Proof.
  intros Hnz. unfold progress. apply JSFacts.clamp_percentage.
  apply JSFacts.mul_is_finite; [| exact I].
  apply JSFacts.div_is_finite; [| apply daysTotal_is_finite | exact Hnz].
  apply JSFacts.sub_is_finite; [apply daysTotal_is_finite | apply daysRemaining_is_finite].
Qed.

(** *** The contract and the code *)

Lemma days_value (from to : Z) :
  (JS.to_Q (JS.ceil (JS.div (JS.sub (JS.of_Z to) (JS.of_Z from)) day_ms))
   == inject_Z (days from to))%Q.
Proof.
  assert (JS.is_finite (JS.sub (JS.of_Z to) (JS.of_Z from))) as Hsub
    by (apply JSFacts.sub_is_finite; exact I).
  rewrite JSFacts.to_Q_ceil
    by (apply JSFacts.div_is_finite; [exact Hsub | exact I | reflexivity]).
  unfold days. apply inject_Z_injective. apply Qceiling_comp.
  rewrite JSFacts.to_Q_div by (try exact Hsub; try exact I; reflexivity).
  rewrite JSFacts.to_Q_sub by exact I. simpl JS.to_Q.
  unfold Z.sub. rewrite inject_Z_plus, inject_Z_opp. reflexivity.
Qed.

(** For a window of a number of days other than zero the code computes the
    percentage of the contract. *)
Lemma progress_refines_contract allocation now :
  days (Allocation.start_date allocation) (Allocation.end_date allocation) <> 0 ->
  exists q, progress allocation now = JS.Fin q /\ (q == computeProgress allocation now)%Q.
Proof.
  intros Hdays.
  pose proof (days_value (Allocation.start_date allocation) (Allocation.end_date allocation))
    as Htotal.
  pose proof (days_value now (Allocation.end_date allocation)) as Hremaining.
  fold (daysTotal allocation) in Htotal. fold (daysRemaining allocation now) in Hremaining.
  pose proof (daysTotal_is_finite allocation) as Hft.
  pose proof (daysRemaining_is_finite allocation now) as Hfr.
  assert (JS.is_zero (daysTotal allocation) = false) as Hnz.
  { rewrite JSFacts.is_zero_to_Q by exact Hft.
    destruct (Qeq_bool (JS.to_Q (daysTotal allocation)) 0) eqn:Hz; [| reflexivity].
    apply Qeq_bool_iff in Hz. rewrite Htotal in Hz.
    change 0%Q with (inject_Z 0) in Hz.
    apply (proj1 (inject_Z_injective _ _)) in Hz. contradiction. }
  assert (JS.is_finite (JS.sub (daysTotal allocation) (daysRemaining allocation now))) as Hfs
    by now apply JSFacts.sub_is_finite.
  assert (JS.is_finite (JS.div (JS.sub (daysTotal allocation) (daysRemaining allocation now))
                               (daysTotal allocation))) as Hfd
    by now apply JSFacts.div_is_finite.
  unfold progress.
  destruct (JSFacts.clamp_value _ (JSFacts.mul_is_finite _ (JS.of_Z 100) Hfd I))
    as (q & -> & Hq).
  exists q. split; [reflexivity |]. rewrite Hq. unfold computeProgress.
  destruct (Z.eqb_spec
              (days (Allocation.start_date allocation) (Allocation.end_date allocation)) 0)
    as [Hzero|_]; [contradiction |].
  apply JSFacts.clamp_comp.
  rewrite JSFacts.to_Q_mul, JSFacts.to_Q_div, JSFacts.to_Q_sub by (try assumption; exact I).
  rewrite Htotal, Hremaining. simpl JS.to_Q.
  unfold Z.sub. rewrite inject_Z_plus, inject_Z_opp. reflexivity.
Qed.

Lemma zero_length_days z : JS.ceil (JS.div (JS.sub (JS.of_Z z) (JS.of_Z z)) day_ms) = JS.Fin 0.
Proof. rewrite JSFacts.sub_self. reflexivity. Qed.

(** C1 (the code departs from it): a window whose start and end coincide has
    zero days in total; the contract gives it the progress 100, and the code,
    at that very instant, [0 / 0]: the clamp lets the NaN through.  One day
    earlier the code shows 0 for the same window, again not 100. *)
Theorem progress_zero_length_window (t : Z) :
  daysTotal (window t t) = JS.Fin 0
  /\ computeProgress (window t t) t = 100%Q
  /\ progress (window t t) t = JS.NaN
  /\ progress (window (jan_2024 1) (jan_2024 1)) (jan_2024 1 - 86400000) = JS.of_Z 0.
Proof.
  assert (daysTotal (window t t) = JS.Fin 0) as Htotal by apply zero_length_days.
  split; [exact Htotal |].
  split; [unfold computeProgress, days; simpl; rewrite Z.sub_diag; reflexivity |].
  split; [| vm_compute; reflexivity].
  unfold progress. rewrite Htotal.
  assert (daysRemaining (window t t) t = JS.Fin 0) as -> by apply zero_length_days.
  reflexivity.
Qed.

End OverviewFacts.

(** ** The client: requests and what handlers preserve *)

Module ClientFacts.
Import Client.

Lemma answered_S (n : nat) (w : world) :
  answered (S n) w = true ->
  answered 1 w = true
  /\ answered n {| db := db w; faults := tail (faults w); console := console w |} = true.
Proof.
  unfold answered. destruct (faults w) as [|[] rest]; simpl; try discriminate; auto.
  intros _. now rewrite take_nil.
Qed.

(** An answered request applies its operation to the store. *)
Lemma request_answered {S A} (op : Store.t -> Store.t * response A) (st : S) (w : world) :
  answered 1 w = true ->
  request op st w
  = (st, {| db := (op (db w)).1; faults := tail (faults w); console := console w |},
     inr (op (db w)).2).
Proof.
  unfold answered, request.
  destruct (faults w) as [|[] rest]; simpl; try discriminate; intros _;
    destruct (op (db w)); reflexivity.
Qed.

Lemma bind_request_answered {S A B} (op : Store.t -> Store.t * response A)
    (k : response A -> M S B) (st : S) (w : world) :
  answered 1 w = true ->
  bind (request op) k st w
  = k (op (db w)).2 st
      {| db := (op (db w)).1; faults := tail (faults w); console := console w |}.
Proof. intros H. unfold bind. now rewrite request_answered. Qed.

(** A refused request changes nothing in the store. *)
Lemma request_db {S A} (op : Store.t -> Store.t * response A) (st : S) (w : world) :
  db_after (request op) st w = db w \/ db_after (request op) st w = (op (db w)).1.
Proof.
  unfold db_after, world_after, request.
  destruct (faults w) as [|[] rest]; simpl; auto; destruct (op (db w)); auto.
Qed.

Lemma bind_ret {S A B} (a : A) (k : A -> M S B) (st : S) (w : world) :
  bind (ret a) k st w = k a st w.
Proof. reflexivity. Qed.

Lemma bind_get {S B} (k : S -> M S B) (st : S) (w : world) :
  bind get k st w = k st st w.
Proof. reflexivity. Qed.

Lemma bind_set {S B} (f : S -> S) (k : unit -> M S B) (st : S) (w : world) :
  bind (set f) k st w = k tt (f st) w.
Proof. reflexivity. Qed.

Lemma bind_bind {S A B C} (m : M S A) (f : A -> M S B) (k : B -> M S C)
    (st : S) (w : world) :
  bind (bind m f) k st w = bind m (fun a => bind (f a) k) st w.
Proof. unfold bind. destruct (m st w) as [[st' w'] [e|a]]; reflexivity. Qed.

Section Preserves.
Context {S : Type} (R : relation Store.t) `{!PreOrder R}.

Lemma preserves_ret {A} (a : A) : preserves R (ret (S:=S) a).
Proof. intros st w. reflexivity. Qed.

Lemma preserves_throw {A} (e : error) : preserves R (throw (S:=S) (A:=A) e).
Proof. intros st w. reflexivity. Qed.

Lemma preserves_get : preserves R (get (S:=S)).
Proof. intros st w. reflexivity. Qed.

Lemma preserves_set (f : S -> S) : preserves R (set f).
Proof. intros st w. reflexivity. Qed.

Lemma preserves_console_error (e : error) : preserves R (console_error (S:=S) e).
Proof. intros st w. reflexivity. Qed.

Lemma preserves_or_throw {A} (r : response A) : preserves R (or_throw (S:=S) r).
Proof. destruct r; [apply preserves_ret | apply preserves_throw]. Qed.

Lemma preserves_bind {A B} (m : M S A) (k : A -> M S B) :
  preserves R m -> (forall a, preserves R (k a)) -> preserves R (bind m k).
Proof.
  intros Hm Hk st w. specialize (Hm st w).
  unfold db_after, world_after, bind in *.
  destruct (m st w) as [[st' w'] [e|a]]; simpl in *; [exact Hm |].
  etransitivity; [exact Hm | apply Hk].
Qed.

Lemma preserves_try_catch {A} (m : M S A) (handler : error -> M S A) :
  preserves R m -> (forall e, preserves R (handler e)) -> preserves R (try_catch m handler).
Proof.
  intros Hm Hh st w. specialize (Hm st w).
  unfold db_after, world_after, try_catch in *.
  destruct (m st w) as [[st' w'] [e|a]]; simpl in *; [| exact Hm].
  etransitivity; [exact Hm | apply Hh].
Qed.

Lemma preserves_try_finally {A} (m : M S A) (final : S -> S) :
  preserves R m -> preserves R (try_finally m final).
Proof.
  intros Hm st w. specialize (Hm st w).
  unfold db_after, world_after, try_finally in *.
  destruct (m st w) as [[st' w'] r]; exact Hm.
Qed.

Lemma preserves_request {A} (op : Store.t -> Store.t * response A) :
  (forall s, R s (op s).1) -> preserves R (request (S:=S) op).
Proof.
  intros Hop st w. destruct (request_db op st w) as [-> | ->]; [reflexivity | apply Hop].
Qed.

Lemma preserves_read {A} (q : Store.t -> A) : preserves R (request (S:=S) (read q)).
Proof. apply preserves_request. intros s. reflexivity. Qed.

Lemma preserves_mapM {A B} (f : A -> M S B) (l : list A) :
  (forall x, preserves R (f x)) -> preserves R (mapM f l).
Proof.
  intros Hf. induction l as [|x l IH]; simpl; [apply preserves_ret |].
  apply preserves_bind; [apply Hf |]. intros y.
  apply preserves_bind; [exact IH |]. intros ys. apply preserves_ret.
Qed.

End Preserves.

End ClientFacts.

(** Takes a handler apart along its binds and handlers. *)
Ltac preserves_step :=
  lazymatch goal with
  | |- Client.preserves ?R (Client.bind _ _) =>
      apply (ClientFacts.preserves_bind R); [| intros ?]
  | |- Client.preserves ?R (Client.try_catch _ _) =>
      apply (ClientFacts.preserves_try_catch R); [| intros ?]
  | |- Client.preserves ?R (Client.try_finally _ _) =>
      apply (ClientFacts.preserves_try_finally R)
  | |- Client.preserves ?R (Client.mapM _ _) =>
      apply (ClientFacts.preserves_mapM R); intros ?
  | |- Client.preserves ?R (Client.ret _) => apply (ClientFacts.preserves_ret R)
  | |- Client.preserves ?R (Client.throw _) => apply (ClientFacts.preserves_throw R)
  | |- Client.preserves ?R Client.get => apply (ClientFacts.preserves_get R)
  | |- Client.preserves ?R (Client.set _) => apply (ClientFacts.preserves_set R)
  | |- Client.preserves ?R (Client.console_error _) =>
      apply (ClientFacts.preserves_console_error R)
  | |- Client.preserves ?R (Client.or_throw _) => apply (ClientFacts.preserves_or_throw R)
  | |- Client.preserves ?R (Client.request (Client.read _)) =>
      apply (ClientFacts.preserves_read R)
  | |- Client.preserves ?R (if ?c then _ else _) => destruct c
  | |- Client.preserves ?R (match ?c with Some _ => _ | None => _ end) => destruct c
  end.

(** ** The row store: ordering *)

Module StoreFacts.
Import Store.

Section OrderBy.
Context {A : Type} (key : A -> Z).

#[local] Abbreviation ascending := (Store.ascending key).

Lemma insert_by_perm (x : A) (rows : list A) : insert_by key x rows ≡ₚ x :: rows.
Proof.
  induction rows as [|y rows IH]; simpl; [reflexivity |].
  destruct (key x <? key y); [reflexivity |].
  rewrite IH. apply Permutation_swap.
Qed.

Lemma insert_by_HdRel (a x : A) (rows : list A) :
  ascending a x -> HdRel ascending a rows -> HdRel ascending a (insert_by key x rows).
Proof.
  intros Hax Hrows. destruct rows as [|y rows]; simpl; [now constructor |].
  destruct (key x <? key y); constructor; [exact Hax |].
  now inversion Hrows.
Qed.

Lemma insert_by_sorted (x : A) (rows : list A) :
  Sorted ascending rows -> Sorted ascending (insert_by key x rows).
Proof.
  induction rows as [|y rows IH]; simpl; intros Hsorted.
  - repeat constructor.
  - destruct (key x <? key y) eqn:Hlt.
    + constructor; [exact Hsorted |]. constructor. unfold Store.ascending.
      apply Z.ltb_lt in Hlt. lia.
    + inversion Hsorted as [|? ? Hrest Hhd]; subst.
      constructor; [now apply IH |].
      apply insert_by_HdRel; [| exact Hhd]. unfold Store.ascending.
      apply Z.ltb_ge in Hlt. exact Hlt.
Qed.

Lemma foldl_insert_by_perm (rows sorted : list A) :
  foldl (fun sorted x => insert_by key x sorted) sorted rows ≡ₚ sorted ++ rows.
Proof.
  revert sorted. induction rows as [|x rows IH]; intros sorted; simpl.
  - now rewrite app_nil_r.
  - rewrite IH, insert_by_perm. simpl. apply Permutation_middle.
Qed.

Lemma foldl_insert_by_sorted (rows sorted : list A) :
  Sorted ascending sorted ->
  Sorted ascending (foldl (fun sorted x => insert_by key x sorted) sorted rows).
Proof.
  revert sorted. induction rows as [|x rows IH]; intros sorted Hsorted; simpl;
    [exact Hsorted |].
  apply IH, insert_by_sorted, Hsorted.
Qed.

Lemma order_by_perm (rows : list A) : order_by key rows ≡ₚ rows.
Proof. unfold order_by. now rewrite foldl_insert_by_perm. Qed.

Lemma order_by_sorted (rows : list A) : Sorted ascending (order_by key rows).
Proof. apply foldl_insert_by_sorted. constructor. Qed.

Lemma sorted_keys (rows : list A) : Sorted ascending rows -> Sorted Z.le (map key rows).
Proof.
  induction 1 as [|x rows Hsorted IH Hhd]; simpl; constructor; [exact IH |].
  destruct Hhd; simpl; constructor. assumption.
Qed.

End OrderBy.

(** The tiers of an allocation come by ascending level, and they are its
    tier rows. *)
Lemma select_tiers_sorted (allocationId : string) (s : Store.t) :
  Sorted Z.le (map AllocationTier.level (select_tiers allocationId s)).
Proof. apply sorted_keys, order_by_sorted. Qed.

Lemma select_tiers_perm (allocationId : string) (s : Store.t) :
  select_tiers allocationId s
  ≡ₚ filter (fun r => AllocationTier.allocation_id r = allocationId) (allocation_tiers s).
Proof. apply order_by_perm. Qed.

(** *** What the query fixes of the order *)

Lemma select_tiers_admitted (allocationId : string) (s : Store.t) :
  may_select_tiers allocationId s (select_tiers allocationId s).
Proof. split; [apply select_tiers_perm | apply select_tiers_sorted]. Qed.

Lemma strictly_sorted (l : list Z) : Sorted Z.le l -> NoDup l -> StronglySorted Z.lt l.
Proof.
  intros Hsorted Hnodup.
  apply Sorted_StronglySorted in Hsorted; [| intros x y z; apply Z.le_trans].
  induction Hsorted as [|x l Hsorted IH Hall]; [constructor |].
  apply NoDup_cons in Hnodup as [Hfresh Hnodup].
  constructor; [now apply IH |].
  rewrite Forall_forall in *. intros y Hy.
  assert (x ≠ y) by (intros ->; now apply Hfresh).
  specialize (Hall y Hy). lia.
Qed.

Lemma strictly_sorted_unique {A} (key : A -> Z) (l1 l2 : list A) :
  l1 ≡ₚ l2 ->
  StronglySorted Z.lt (map key l1) -> StronglySorted Z.lt (map key l2) ->
  l1 = l2.
Proof.
  revert l2. induction l1 as [|x l1 IH]; intros l2 Hperm Hs1 Hs2.
  - now apply Permutation_nil_l.
  - destruct l2 as [|y l2]; [now apply Permutation_nil_r in Hperm |].
    simpl in Hs1, Hs2. apply StronglySorted_inv in Hs1 as [Hs1 Hx].
    apply StronglySorted_inv in Hs2 as [Hs2 Hy].
    rewrite Forall_forall in Hx, Hy.
    assert (x = y) as <-.
    { assert (x ∈ y :: l2) as Hxin by (rewrite <- Hperm; apply list_elem_of_here).
      assert (y ∈ x :: l1) as Hyin by (rewrite Hperm; apply list_elem_of_here).
      apply elem_of_cons in Hxin as [Heq | Hxin]; [exact Heq |].
      apply elem_of_cons in Hyin as [Heq | Hyin]; [now symmetry |].
      assert (key y < key x) by (apply Hy, list_elem_of_fmap; eauto).
      assert (key x < key y) by (apply Hx, list_elem_of_fmap; eauto).
      lia. }
    f_equal. apply IH; [now apply Permutation_cons_inv in Hperm | exact Hs1 | exact Hs2].
Qed.

(** Rows of pairwise distinct keys have one order by ascending key. *)
Lemma orders_unique {A} (key : A -> Z) (rows answer answer' : list A) :
  NoDup (map key rows) -> orders key rows answer -> orders key rows answer' ->
  answer = answer'.
Proof.
  intros Hnodup [Hperm Hsorted] [Hperm' Hsorted'].
  apply (strictly_sorted_unique key); [now rewrite Hperm, Hperm' | |];
    apply strictly_sorted; try assumption.
  - now rewrite Hperm.
  - now rewrite Hperm'.
Qed.

Lemma swapped {A B} (key : A -> Z) (f : A -> B) (rows l1 l2 l3 : list A) (a b : A) :
  f a ≠ f b -> key a = key b ->
  orders key rows (l1 ++ a :: l2 ++ b :: l3) ->
  orders key rows (l1 ++ b :: l2 ++ a :: l3)
  /\ map f (l1 ++ b :: l2 ++ a :: l3) ≠ map f (l1 ++ a :: l2 ++ b :: l3).
Proof.
  intros Hne Hkey [Hperm Hsorted]. split; [split |].
  - rewrite <- Hperm. apply Permutation_app_head.
    rewrite <- !Permutation_middle. apply Permutation_swap.
  - rewrite map_app in *. simpl in *. rewrite map_app in *. simpl in *.
    now rewrite Hkey in *.
  - rewrite !map_app. simpl. intros Heq. apply app_inv_head in Heq. congruence.
Qed.

(** Two rows of one key can come in either order. *)
Lemma orders_either {A B} (key : A -> Z) (f : A -> B) (rows answer : list A) (a b : A) :
  orders key rows answer -> a ∈ rows -> b ∈ rows -> f a ≠ f b -> key a = key b ->
  exists answer', orders key rows answer' /\ map f answer' ≠ map f answer.
Proof.
  intros Horders Ha Hb Hne Hkey.
  assert (a ∈ answer) as Hain by (rewrite (proj1 Horders); exact Ha).
  assert (b ∈ answer) as Hbin by (rewrite (proj1 Horders); exact Hb).
  apply list_elem_of_split in Hain as (l1 & l2 & ->).
  apply elem_of_app in Hbin as [Hbin | Hbin].
  - apply list_elem_of_split in Hbin as (l0 & l1' & ->).
    rewrite <- app_assoc in Horders. rewrite <- app_comm_cons in Horders.
    destruct (swapped key f rows l0 l1' l2 b a) as [Hswapped Hdiffers];
      [congruence | congruence | exact Horders |].
    exists (l0 ++ a :: l1' ++ b :: l2). split; [exact Hswapped |].
    rewrite <- app_assoc, <- app_comm_cons. exact Hdiffers.
  - apply elem_of_cons in Hbin as [Heq | Hbin]; [congruence |].
    apply list_elem_of_split in Hbin as (l2' & l3 & ->).
    destruct (swapped key f rows l1 l2' l3 a b Hne Hkey Horders) as [Hswapped Hdiffers].
    eauto.
Qed.

End StoreFacts.

(** ** AllocationTiers: the customer source selection *)

Module SelectionFacts.
Import Tiers.

Lemma entries_of_other_removed (kind other : CustomerSourceId) (l : list SelectedSource) :
  other ≠ kind ->
  entries_of kind (filter (fun s => sourceId s ≠ other) l) = entries_of kind l.
Proof.
  intros Hne. unfold entries_of. induction l as [|s l IH]; [reflexivity |].
  rewrite !filter_cons. destruct (decide (sourceId s ≠ other)) as [Hs|Hs].
  - rewrite filter_cons. destruct (decide (sourceId s = kind)); congruence.
  - destruct (decide (sourceId s = kind)) as [Hk|Hk]; [| exact IH].
    exfalso. apply Hs. congruence.
Qed.

Lemma entries_of_removed (kind : CustomerSourceId) (l : list SelectedSource) :
  entries_of kind (filter (fun s => sourceId s ≠ kind) l) = [].
Proof.
  unfold entries_of. induction l as [|s l IH]; [reflexivity |].
  rewrite filter_cons. destruct (decide (sourceId s ≠ kind)) as [Hs|Hs]; [| exact IH].
  rewrite filter_cons. destruct (decide (sourceId s = kind)); [contradiction | exact IH].
Qed.

Lemma findIndex_None (kind : CustomerSourceId) (l : list SelectedSource) :
  findIndex kind l = None -> entries_of kind l = [].
Proof.
  unfold entries_of. induction l as [|s l IH]; [reflexivity |]. simpl.
  case_bool_decide as Hs; [discriminate |].
  destruct (findIndex kind l); [discriminate |]. intros _.
  rewrite filter_cons. destruct (decide (sourceId s = kind)); [contradiction | auto].
Qed.

(** Writing an entry of another kind over an entry of that kind leaves the
    entries of [kind] alone. *)
Lemma entries_of_other_replaced (kind other : CustomerSourceId)
    (l : list SelectedSource) (i : nat) (entry : SelectedSource) :
  other ≠ kind -> sourceId entry = other -> findIndex other l = Some i ->
  entries_of kind (<[i := entry]> l) = entries_of kind l.
Proof.
  intros Hne Hentry. unfold entries_of. revert i.
  induction l as [|s l IH]; intros i; [discriminate |]. simpl.
  case_bool_decide as Hs.
  - intros [= <-]. simpl. rewrite !filter_cons.
    destruct (decide (sourceId entry = kind)), (decide (sourceId s = kind)); congruence.
  - destruct (findIndex other l) as [j|] eqn:Hj; [| discriminate].
    intros [= <-]. simpl. rewrite !filter_cons.
    destruct (decide (sourceId s = kind)); rewrite (IH j); auto.
Qed.

Lemma entries_of_absent (kind : CustomerSourceId) (l : list SelectedSource) :
  kind ∉ map sourceId l -> entries_of kind l = [].
Proof.
  unfold entries_of. induction l as [|s l IH]; [reflexivity |]. simpl.
  intros Hnotin. apply not_elem_of_cons in Hnotin as [Hne Hnotin].
  rewrite filter_cons. destruct (decide (sourceId s = kind)); [congruence | auto].
Qed.

(** With one entry per kind, writing an entry over the entry of its kind
    leaves it the only entry of the kind. *)
Lemma entries_of_replaced (kind : CustomerSourceId) (l : list SelectedSource)
    (i : nat) (entry : SelectedSource) :
  NoDup (map sourceId l) -> sourceId entry = kind -> findIndex kind l = Some i ->
  entries_of kind (<[i := entry]> l) = [entry].
Proof.
  intros Hnodup Hentry. revert i Hnodup.
  induction l as [|s l IH]; intros i Hnodup; [discriminate |]. simpl in *.
  apply NoDup_cons in Hnodup as [Hs_fresh Hnodup].
  case_bool_decide as Hs.
  - intros [= <-]. simpl. unfold entries_of. rewrite filter_cons.
    destruct (decide (sourceId entry = kind)); [| contradiction]. f_equal.
    apply entries_of_absent. congruence.
  - destruct (findIndex kind l) as [j|] eqn:Hj; [| discriminate].
    intros [= <-]. simpl. unfold entries_of. rewrite filter_cons.
    destruct (decide (sourceId s = kind)); [contradiction |]. now apply IH.
Qed.

(** *** One entry per kind *)

Lemma findIndex_lookup (kind : CustomerSourceId) (l : list SelectedSource) (i : nat) :
  findIndex kind l = Some i -> exists s, l !! i = Some s /\ sourceId s = kind.
Proof.
  revert i. induction l as [|s l IH]; intros i; [discriminate |]. simpl.
  case_bool_decide as Hs.
  - intros [= <-]. eauto.
  - destruct (findIndex kind l) as [j|]; [| discriminate]. intros [= <-]. simpl. eauto.
Qed.

Lemma kinds_replaced (l : list SelectedSource) (i : nat) (s entry : SelectedSource) :
  l !! i = Some s -> sourceId entry = sourceId s ->
  map sourceId (<[i := entry]> l) = map sourceId l.
Proof.
  revert i. induction l as [|x l IH]; intros [|i]; simpl; try discriminate.
  - intros [= ->] ->. reflexivity.
  - intros Hi He. f_equal. eauto.
Qed.

Lemma kinds_filtered (P : SelectedSource -> Prop) `{!forall s, Decision (P s)}
    (l : list SelectedSource) :
  NoDup (map sourceId l) -> NoDup (map sourceId (filter P l)).
Proof.
  induction l as [|s l IH]; [auto |]. simpl. intros Hnodup.
  apply NoDup_cons in Hnodup as [Hfresh Hnodup].
  rewrite filter_cons. destruct (decide (P s)); [| auto]. simpl.
  apply NoDup_cons. split; [| auto].
  intros Hin. apply Hfresh. apply list_elem_of_fmap in Hin as (x & -> & Hx).
  apply list_elem_of_fmap. exists x. split; [reflexivity |].
  apply list_elem_of_filter in Hx. tauto.
Qed.

(** Every operation of the selector keeps at most one entry per kind. *)
Lemma select_step_one_entry_per_kind (st : State) (op : Selection) :
  NoDup (map sourceId (selectedSources st)) ->
  NoDup (map sourceId (selectedSources (select_step st op))).
Proof.
  intros Hnodup. destruct op as [source|id|source]; simpl.
  - exact Hnodup.
  - unfold handleItemSelect. simpl.
    destruct (length _ =? 0)%nat; [now apply kinds_filtered |].
    destruct (findIndex (selectedSource st) (selectedSources st)) as [i|] eqn:Hi.
    + destruct (findIndex_lookup _ _ _ Hi) as (s & Hs & Hkind).
      rewrite (kinds_replaced _ _ s); [exact Hnodup | exact Hs | simpl; congruence].
    + rewrite map_app. simpl. apply NoDup_app. split; [exact Hnodup |].
      split; [| apply NoDup_singleton].
      intros kind Hin Hkind. apply list_elem_of_singleton in Hkind as ->.
      apply list_elem_of_fmap in Hin as (s & Hs & Hin).
      pose proof (findIndex_None _ _ Hi) as Hnone. unfold entries_of in Hnone.
      apply (filter_nil_not_elem_of _ _ s Hnone); [simpl; congruence | exact Hin].
  - unfold removeSource. case_bool_decide; simpl; now apply kinds_filtered.
Qed.

Lemma select_run_one_entry_per_kind (ops : list Selection) (st : State) :
  NoDup (map sourceId (selectedSources st)) ->
  NoDup (map sourceId (selectedSources (select_run st ops))).
Proof.
  revert st. induction ops as [|op ops IH]; intros st Hnodup; [exact Hnodup |].
  apply IH, select_step_one_entry_per_kind, Hnodup.
Qed.

(** *** What an operation changes *)

Lemma handleItemSelect_other_kind (kind : CustomerSourceId) (id : string) (st : State) :
  selectedSource st ≠ kind ->
  entries_of kind (selectedSources (handleItemSelect id st))
  = entries_of kind (selectedSources st).
Proof.
  intros Hne. unfold handleItemSelect. simpl.
  destruct (length _ =? 0)%nat; [now apply entries_of_other_removed |].
  destruct (findIndex (selectedSource st) (selectedSources st)) as [i|] eqn:Hi.
  - now apply (entries_of_other_replaced kind (selectedSource st)).
  - unfold entries_of. rewrite filter_app, filter_cons. simpl.
    destruct (decide (selectedSource st = kind)); [contradiction |].
    rewrite filter_nil. apply app_nil_r.
Qed.

Lemma handleItemSelect_active_kind (id : string) (st : State) :
  NoDup (map sourceId (selectedSources st)) ->
  entries_of (selectedSource st) (selectedSources (handleItemSelect id st))
  = match selectedItems (handleItemSelect id st) with
    | [] => []
    | newItems =>
        [ {| sourceId := selectedSource st; items := selectedSourceItems newItems |} ]
    end.
Proof.
  intros Hnodup. unfold handleItemSelect. simpl.
  destruct (if bool_decide (id ∈ selectedItems st) then _ else _) as [|x newItems];
    [apply entries_of_removed |]. simpl.
  destruct (findIndex (selectedSource st) (selectedSources st)) as [i|] eqn:Hi.
  - now apply entries_of_replaced.
  - unfold entries_of. rewrite filter_app, filter_cons. simpl.
    destruct (decide (selectedSource st = selectedSource st)); [| contradiction].
    rewrite filter_nil. fold (entries_of (selectedSource st) (selectedSources st)).
    now rewrite (findIndex_None _ _ Hi).
Qed.

Lemma select_step_quiet (kind : CustomerSourceId) (st : State) (op : Selection) :
  quiet kind st [op] = true ->
  entries_of kind (selectedSources (select_step st op))
  = entries_of kind (selectedSources st).
Proof.
  destruct op as [source|id|source]; simpl; rewrite ?andb_true_r; intros Hq.
  - reflexivity.
  - apply bool_decide_eq_true in Hq. now apply handleItemSelect_other_kind.
  - apply bool_decide_eq_true in Hq. unfold removeSource.
    case_bool_decide; simpl; now apply entries_of_other_removed.
Qed.

Lemma select_run_quiet (kind : CustomerSourceId) (ops : list Selection) (st : State) :
  quiet kind st ops = true ->
  entries_of kind (selectedSources (select_run st ops))
  = entries_of kind (selectedSources st).
Proof.
  revert st. induction ops as [|op ops IH]; intros st Hq; [reflexivity |].
  simpl in Hq. apply andb_true_iff in Hq as [Hop Hrest].
  change (select_run st (op :: ops)) with (select_run (select_step st op) ops).
  rewrite (IH _ Hrest). apply select_step_quiet. simpl. now rewrite Hop.
Qed.

(** C3 (the code departs from it): switching the active kind clears no
    entry of the summary, but it empties the working list, so that the summary
    and the working list are out of step; the first item selected after the
    switch then sets the entry of the active kind to that item alone, in
    place of the entry the kind had, while the entries of the other kinds
    stay.  The contract has the item join the list the kind had.  On the run
    q1, to the tags, back to the queries, q2, the summary shows q2 for the
    queries, where the contract has q1 and q2. *)
Theorem selection_lost_on_return (kind : CustomerSourceId) (id : string) (st : State) :
  NoDup (map sourceId (selectedSources st)) ->
  let returned := handleSourceChange kind st in
  let selected := handleItemSelect id returned in
  selectedSources returned = selectedSources st
  /\ selectedItems returned = []
  /\ entries_of kind (selectedSources selected)
     = [ {| sourceId := kind; items := selectedSourceItems [id] |} ]
  /\ (forall other, other ≠ kind ->
        entries_of other (selectedSources selected) = entries_of other (selectedSources st))
  /\ (forall c, Contract.list_of (Contract.run c [Switch kind; Select id]) kind
                = Contract.toggle id (Contract.list_of c kind))
  /\ Contract.shown query
       (select_run initialState [Select "q1"; Switch tag; Switch query; Select "q2"])
     = ["q2"]
  /\ Contract.list_of
       (Contract.run Contract.none [Select "q1"; Switch tag; Switch query; Select "q2"])
       query
     = ["q1"; "q2"].
Proof.
  intros Hnodup returned selected.
  split; [reflexivity |]. split; [reflexivity |]. split.
  - pose proof (handleItemSelect_active_kind id returned Hnodup) as Hentry.
    fold selected in Hentry.
    assert (selectedItems selected = [id]) as Hitems.
    { subst selected returned. reflexivity. }
    rewrite Hitems in Hentry. exact Hentry.
  - split; [| split; [| split; vm_compute; reflexivity]].
    + intros other Hother. subst selected.
      now rewrite handleItemSelect_other_kind by (simpl; congruence).
    + intros c. unfold Contract.run. cbn [foldl Contract.step Contract.list_of Contract.active].
      now rewrite bool_decide_eq_true_2.
Qed.

Lemma selection_lost_on_return_witness :
  let st := select_run initialState [Select "q1"; Switch tag] in
  Contract.shown query st = ["q1"]
  /\ Contract.shown query (handleItemSelect "q2" (handleSourceChange query st)) = ["q2"].
Proof.
  intros st. split; [reflexivity |].
  assert (NoDup (map sourceId (selectedSources st))) as Hnodup.
  { apply (bool_decide_unpack _). vm_compute. exact I. }
  destruct (selection_lost_on_return query "q2" st Hnodup) as (_ & _ & Hentry & _).
  unfold Contract.shown. rewrite Hentry. reflexivity.
Defined.

End SelectionFacts.

(** ** AllocationTiers: listing, creating and deleting tiers *)

Module TiersFacts.
Import Client Tiers.

Section Handlers.
Variable uuid : nat -> string.
Variable toISOString : string -> option string.
Variable now : string.
Variable allocation : Allocation.t.

#[local] Abbreviation fetchTiers := (Tiers.fetchTiers allocation).
#[local] Abbreviation handleSubmit := (Tiers.handleSubmit uuid toISOString now allocation).
#[local] Abbreviation deleteTier := (Tiers.deleteTier allocation).

(** Listing the tiers writes nothing. *)
Lemma fetchTiers_reads : preserves eq fetchTiers.
Proof.
  unfold Tiers.fetchTiers. repeat preserves_step.
  apply (ClientFacts.preserves_request eq). intros s. reflexivity.
Qed.

(** The override bundles are attached to the tiers in the order of the tiers,
    whatever the store answers for each. *)
Lemma attach_overrides (tiersData : list AllocationTier.t) (st : State) (w : world) :
  exists bundles w',
    mapM (fun tier =>
            let* overridesResponse := request (select_overrides (AllocationTier.id tier)) in
            ret (with_overrides tier (data_or None overridesResponse)))
         tiersData st w
    = (st, w', inr (zip_with with_overrides tiersData bundles))
    /\ length bundles = length tiersData.
Proof.
  revert w. induction tiersData as [|tier rest IH]; intros w; simpl.
  - exists [], w. split; reflexivity.
  - unfold bind at 1. unfold bind at 1.
    destruct (request (select_overrides (AllocationTier.id tier)) st w)
      as [[st1 w1] [e|r]] eqn:Hreq.
    + unfold request in Hreq. destruct (faults w) as [|[] ?]; discriminate.
    + assert (st1 = st) as ->.
      { unfold request in Hreq. destruct (faults w) as [|[] ?]; simpl in Hreq; congruence. }
      simpl. destruct (IH w1) as (bundles & w' & Hrest & Hlen).
      exists (data_or None r :: bundles), w'. unfold bind at 1. rewrite Hrest. simpl.
      split; [reflexivity | now rewrite Hlen].
Qed.

Lemma with_overrides_ids (tiersData : list AllocationTier.t) (bundles : list (option TierOverrides.t)) :
  length bundles = length tiersData ->
  map TierData.id (zip_with with_overrides tiersData bundles) = map AllocationTier.id tiersData
  /\ map TierData.level (zip_with with_overrides tiersData bundles)
     = map AllocationTier.level tiersData.
Proof.
  revert bundles. induction tiersData as [|tier rest IH]; intros [|b bundles]; simpl;
    try discriminate; [auto |].
  intros [= Hlen]. destruct (IH bundles Hlen) as [-> ->]. auto.
Qed.

(** When the store answers the select of the tiers, the component shows the
    rows it answered, in their order. *)
Lemma fetchTiers_answered (st : State) (w : world) :
  answered 1 w = true ->
  exists bundles w',
    fetchTiers st w
    = (setLoading false
         (setTiers
            (zip_with with_overrides
               (Store.select_tiers (Allocation.id allocation) (db w)) bundles)
            (setLoading true st)), w', inr tt)
    /\ length bundles = length (Store.select_tiers (Allocation.id allocation) (db w)).
Proof.
  intros Hanswered. unfold Tiers.fetchTiers, try_finally, try_catch.
  rewrite ClientFacts.bind_set, ClientFacts.bind_request_answered by exact Hanswered.
  unfold read. cbn [fst snd or_throw]. rewrite ClientFacts.bind_ret.
  unfold bind at 1.
  match goal with
  | |- context [mapM ?f ?l ?s ?w'] =>
      destruct (attach_overrides l s w') as (bundles & w'' & -> & Hlen)
  end.
  exists bundles, w''. split; [reflexivity | exact Hlen].
Qed.

Lemma fetchTiers_shows (st : State) (w : world) :
  answered 1 w = true ->
  map TierData.id (tiers (state_after fetchTiers st w))
  = map AllocationTier.id (Store.select_tiers (Allocation.id allocation) (db w))
  /\ map TierData.level (tiers (state_after fetchTiers st w))
     = map AllocationTier.level (Store.select_tiers (Allocation.id allocation) (db w)).
Proof.
  intros Hanswered. unfold state_after.
  destruct (fetchTiers_answered st w Hanswered) as (bundles & w' & -> & Hlen).
  simpl. now apply with_overrides_ids.
Qed.

Lemma overview_fetchTiers_answered (ost : Overview.State) (w : world) :
  Allocation.allocation_type allocation = tier_type ->
  answered 1 w = true ->
  Overview.fetchTiers allocation ost w
  = (Overview.setLoading false
       (Overview.setTiers (Store.select_tiers (Allocation.id allocation) (db w)) ost),
     {| db := db w; faults := tail (faults w); console := console w |}, inr tt).
Proof.
  intros Htype Hanswered. unfold Overview.fetchTiers. rewrite Htype.
  unfold bind at 1. unfold try_catch.
  rewrite (ClientFacts.bind_request_answered
             (read (Store.select_tiers (Allocation.id allocation)))) by exact Hanswered.
  reflexivity.
Qed.


(** C8: a submission with the name, the level, the start or the end of the
    access window missing sends no request and leaves the store and the
    component as they were; the validation error is what it logs. *)
Theorem handleSubmit_missing_fields (st : State) (w : world) :
  name (formData st) = ""
  \/ truthy_int (level (formData st)) = false
  \/ accessStart (formData st) = ""
  \/ accessEnd (formData st) = "" ->
  handleSubmit st w
  = (st,
     {| db := db w; faults := faults w;
        console := console w ++ [Error "Please fill in all required fields"] |},
     inr tt).
Proof.
  intros Hmissing. unfold Tiers.handleSubmit. rewrite ClientFacts.bind_get.
  unfold try_catch.
  assert (negb (truthy (name (formData st))) || negb (truthy_int (level (formData st)))
          || negb (truthy (accessStart (formData st)))
          || negb (truthy (accessEnd (formData st))) = true) as ->.
  { destruct Hmissing as [-> | [-> | [-> | ->]]]; simpl;
      rewrite ?orb_true_r; reflexivity. }
  reflexivity.
Qed.

(** The submission of a complete form, with the requests it sends answered. *)
Lemma handleSubmit_db (st : State) (w : world) (access_start access_end : string) :
  truthy (name (formData st)) = true ->
  truthy_int (level (formData st)) = true ->
  truthy (accessStart (formData st)) = true ->
  truthy (accessEnd (formData st)) = true ->
  toISOString (accessStart (formData st)) = Some access_start ->
  toISOString (accessEnd (formData st)) = Some access_end ->
  answered 3 w = true ->
  Store.customer_tiers (db_after handleSubmit st w)
  = Store.customer_tiers (db w)
    ++ customerAssignments now allocation (uuid (Store.next_id (db w))) (selectedSources st).
Proof.
  intros Hname Hlevel Hstart Hend Hiso_start Hiso_end Hanswered.
  apply ClientFacts.answered_S in Hanswered as [H1 Hanswered].
  apply ClientFacts.answered_S in Hanswered as [H2 Hanswered].
  apply ClientFacts.answered_S in Hanswered as [H3 _].
  unfold answered in H2, H3. simpl in H2, H3.
  unfold db_after, world_after, Tiers.handleSubmit. rewrite ClientFacts.bind_get.
  unfold try_catch. rewrite Hname, Hlevel, Hstart, Hend. simpl negb. simpl orb.
  cbv beta iota. rewrite ClientFacts.bind_ret.
  unfold date_iso. rewrite Hiso_start, Hiso_end. cbv beta iota.
  rewrite !ClientFacts.bind_ret.
  rewrite ClientFacts.bind_request_answered by exact H1.
  unfold insert_tier. cbn [fst snd or_throw AllocationTier.id].
  rewrite ClientFacts.bind_ret.
  assert (forall (k : M State unit) st1 w1,
             k = (let* _ := Tiers.fetchTiers allocation in
                  let* _ := set (setFormData emptyForm) in
                  let* _ := set (setSelectedSources []) in
                  let* _ := set (setSelectedItems []) in
                  set (setShowTierForm false)) ->
             db (let (p, r) := k st1 w1 in
                 let (st', w') := p in
                 match r with
                 | inl e => console_error e st' w'
                 | inr a => (st', w', inr a)
                 end).1.2 = db w1) as Hrest.
  { intros k st1 w1 ->. unfold bind at 1.
    pose proof (fetchTiers_reads st1 w1) as Hdb. unfold db_after, world_after in Hdb.
    destruct (Tiers.fetchTiers allocation st1 w1) as [[st' w'] [e|[]]]; simpl in Hdb;
      rewrite Hdb; reflexivity. }
  destruct (0 <? keys (overrides (formData st)))%nat.
  - rewrite ClientFacts.bind_bind.
    rewrite ClientFacts.bind_request_answered by (unfold answered; simpl; assumption).
    unfold write at 1. cbn [fst snd or_throw]. rewrite ClientFacts.bind_ret.
    destruct (0 <? length (selectedSources st))%nat eqn:Hsources.
    + rewrite ClientFacts.bind_bind.
      rewrite ClientFacts.bind_request_answered by (unfold answered; simpl; assumption).
      unfold write at 1. cbn [fst snd or_throw]. rewrite ClientFacts.bind_ret.
      rewrite Hrest by reflexivity. reflexivity.
    + rewrite ClientFacts.bind_ret. rewrite Hrest by reflexivity. simpl.
      destruct (selectedSources st); [| discriminate]. simpl. now rewrite app_nil_r.
  - rewrite ClientFacts.bind_ret.
    destruct (0 <? length (selectedSources st))%nat eqn:Hsources.
    + rewrite ClientFacts.bind_bind.
      rewrite ClientFacts.bind_request_answered by (unfold answered; simpl; assumption).
      unfold write at 1. cbn [fst snd or_throw]. rewrite ClientFacts.bind_ret.
      rewrite Hrest by reflexivity. reflexivity.
    + rewrite ClientFacts.bind_ret. rewrite Hrest by reflexivity. simpl.
      destruct (selectedSources st); [| discriminate]. simpl. now rewrite app_nil_r.
Qed.

Lemma customerAssignments_length (tierId : string) (sources : list SelectedSource) :
  length (customerAssignments now allocation tierId sources)
  = sum_list_with (fun source => length (items source)) sources.
Proof.
  induction sources as [|source sources IH]; [reflexivity |]. simpl.
  now rewrite length_app, length_map, IH.
Qed.

Lemma customerAssignments_rows (tierId : string) (sources : list SelectedSource) :
  Forall (fun row =>
            CustomerTier.customer_id row = CustomerTier.source_id row
            /\ CustomerTier.tier_id row = tierId
            /\ exists source item,
                 source ∈ sources /\ item ∈ items source
                 /\ CustomerTier.source_type row = sourceId source
                 /\ CustomerTier.source_id row = Item.id item)
         (customerAssignments now allocation tierId sources).
Proof.
  apply Forall_forall. intros row Hrow.
  apply list_elem_of_In, in_flat_map in Hrow as (source & Hsource & Hrow).
  apply in_map_iff in Hrow as (item & <- & Hitem). simpl.
  split; [reflexivity |]. split; [reflexivity |].
  exists source, item. rewrite !list_elem_of_In. auto.
Qed.

(** C4 (amended): a complete form, submitted with its requests answered,
    adds to the customer assignments one row for every selected item of
    every selected source, in the order of the summary: the row carries the
    kind of the source and, both as source id and as customer id, the id of
    the item.  No selection is expanded into the customers it denotes. *)
Theorem assignments_per_selected_item (st : State) (w : world)
    (access_start access_end : string) :
  truthy (name (formData st)) = true ->
  truthy_int (level (formData st)) = true ->
  truthy (accessStart (formData st)) = true ->
  truthy (accessEnd (formData st)) = true ->
  toISOString (accessStart (formData st)) = Some access_start ->
  toISOString (accessEnd (formData st)) = Some access_end ->
  answered 3 w = true ->
  let tierId := uuid (Store.next_id (db w)) in
  let rows := customerAssignments now allocation tierId (selectedSources st) in
  Store.customer_tiers (db_after handleSubmit st w) = Store.customer_tiers (db w) ++ rows
  /\ length rows = sum_list_with (fun source => length (items source)) (selectedSources st)
  /\ Forall (fun row =>
               CustomerTier.customer_id row = CustomerTier.source_id row
               /\ CustomerTier.tier_id row = tierId
               /\ exists source item,
                    source ∈ selectedSources st /\ item ∈ items source
                    /\ CustomerTier.source_type row = sourceId source
                    /\ CustomerTier.source_id row = Item.id item)
            rows.
Proof.
  intros Hname Hlevel Hstart Hend Hiso_start Hiso_end Hanswered tierId rows.
  split; [now apply (handleSubmit_db st w access_start access_end) |].
  split; [apply customerAssignments_length | apply customerAssignments_rows].
Qed.

(** Deleting a tier, when the store answers the request, leaves the store as
    the one delete leaves it. *)
Lemma deleteTier_db (tierId : string) (st : State) (w : world) :
  answered 1 w = true ->
  db_after (deleteTier tierId) st w = Store.delete_tier tierId (db w).
Proof.
  intros Hanswered. unfold db_after, world_after, Tiers.deleteTier, try_catch.
  rewrite ClientFacts.bind_request_answered by exact Hanswered.
  unfold write. cbn [fst snd or_throw]. rewrite ClientFacts.bind_ret.
  match goal with
  | |- context [Tiers.fetchTiers allocation ?s ?w1] =>
      pose proof (fetchTiers_reads s w1) as Hdb; unfold db_after, world_after in Hdb;
      destruct (Tiers.fetchTiers allocation s w1) as [[st' w'] [e|[]]]
  end; simpl in *; now rewrite <- Hdb.
Qed.

End Handlers.

(** C4, as stated, fails: the tag t1 denotes 150 customers, and creating a
    tier from it stores a single assignment row, whose customer id is the id
    of the tag. *)
Lemma tag_assignment_is_one_row :
  let st := setFormData (Sample.form "Gold" 1)
              (select_run initialState [Switch tag; Select "t1"]) in
  totalCustomers (selectedSources st) = 150
  /\ Store.customer_tiers (db_after Sample.handleSubmit st (Sample.world Sample.store))
     = [ {| CustomerTier.allocation_id := "a1";
            CustomerTier.tier_id := "tier-1";
            CustomerTier.customer_id := "t1";
            CustomerTier.source_type := tag;
            CustomerTier.source_id := "t1";
            CustomerTier.created_at := Sample.now |} ].
Proof. split; vm_compute; reflexivity. Qed.

Lemma assignments_per_selected_item_witness :
  let st := setFormData (Sample.form "Gold" 1)
              (select_run initialState [Select "q1"; Switch tag; Select "t1"; Select "t2"]) in
  let w := Sample.world Sample.store in
  map CustomerTier.customer_id
      (Store.customer_tiers (db_after Sample.handleSubmit st w))
  = ["q1"; "t1"; "t2"].
Proof.
  intros st w.
  pose proof (assignments_per_selected_item Sample.uuid Sample.toISOString Sample.now
                Sample.allocation st w "2024-01-01T00:00" "2024-02-01T00:00"
                eq_refl eq_refl eq_refl eq_refl eq_refl eq_refl eq_refl) as [Hrows _].
  unfold Sample.handleSubmit. rewrite Hrows. reflexivity.
Defined.

Lemma handleSubmit_missing_fields_witness :
  let st := setFormData (Sample.form "" 1) initialState in
  let w := Sample.world Sample.store in
  db_after Sample.handleSubmit st w = Sample.store
  /\ state_after Sample.handleSubmit st w = st.
Proof.
  intros st w. unfold db_after, world_after, state_after, Sample.handleSubmit.
  rewrite (handleSubmit_missing_fields Sample.uuid Sample.toISOString Sample.now
             Sample.allocation st w (or_introl eq_refl)).
  split; reflexivity.
Defined.


End TiersFacts.

(** ** TierProductOverrides: the editor *)

Module EditorFacts.
Import Client Editor.

(** *** Lists of rows *)

Lemma filter_filter_excluded {A} (P Q : A -> Prop)
    `{!forall x, Decision (P x)} `{!forall x, Decision (Q x)} (l : list A) :
  (forall x, P x -> ~ Q x) -> filter P (filter Q l) = [].
Proof.
  intros Hex. induction l as [|x l IH]; [reflexivity |].
  rewrite (filter_cons Q). destruct (decide (Q x)) as [Hq|Hq]; [| exact IH].
  rewrite filter_cons. destruct (decide (P x)) as [Hp|Hp]; [| exact IH].
  destruct (Hex x Hp Hq).
Qed.

Lemma filter_filter_implied {A} (P Q : A -> Prop)
    `{!forall x, Decision (P x)} `{!forall x, Decision (Q x)} (l : list A) :
  (forall x, P x -> Q x) -> filter P (filter Q l) = filter P l.
Proof.
  intros Himp. induction l as [|x l IH]; [reflexivity |].
  rewrite (filter_cons Q), (filter_cons P).
  destruct (decide (Q x)) as [Hq|Hq].
  - rewrite filter_cons. destruct (decide (P x)); now rewrite IH.
  - destruct (decide (P x)) as [Hp|Hp]; [destruct (Hq (Himp x Hp)) | exact IH].
Qed.

Lemma filter_all {A} (P : A -> Prop) `{!forall x, Decision (P x)} (l : list A) :
  Forall P l -> filter P l = l.
Proof.
  induction 1 as [|x l Hx Hl IH]; [reflexivity |].
  rewrite filter_cons. destruct (decide (P x)); [now rewrite IH | contradiction].
Qed.

Lemma filter_holds {A} (P : A -> Prop) `{!forall x, Decision (P x)} (l : list A) :
  Forall P (filter P l).
Proof. apply Forall_forall. intros x Hx. apply list_elem_of_filter in Hx. tauto. Qed.

(** *** Rows and overrides *)

Lemma of_row_to_row (tierId : string) (override : ProductOverride) :
  of_row (to_row tierId override) = override.
Proof. destruct override; reflexivity. Qed.

Lemma to_row_tier (tierId : string) (l : list ProductOverride) :
  Forall (fun r => TierProductOverride.tier_id r = tierId) (map (to_row tierId) l).
Proof. apply Forall_forall. intros r Hr. apply list_elem_of_fmap in Hr as (o & -> & _). reflexivity. Qed.

Lemma overridesMap_fold (tierId : string) (l : list (string * ProductOverride))
    (acc : gmap string ProductOverride) :
  Forall (fun p => productId p.2 = p.1) l ->
  foldl (fun m override => <[TierProductOverride.product_id override := of_row override]> m)
        acc (map (to_row tierId) l.*2)
  = foldr (fun p m => <[p.1 := p.2]> m) acc (reverse l).
Proof.
  intros Hkeys. revert acc. induction Hkeys as [|[k o] l Hk Hl IH]; intros acc;
    [reflexivity |].
  rewrite reverse_cons, foldr_snoc. simpl in *. rewrite IH.
  now rewrite of_row_to_row, Hk.
Qed.

(** Loading what was saved gives back the overrides as they were. *)
Lemma overridesMap_rows (tierId : string) (overrides : gmap string ProductOverride) :
  keys_agree overrides ->
  overridesMap (map (to_row tierId) (values overrides)) = overrides.
Proof.
  intros Hkeys. unfold overridesMap, values.
  rewrite overridesMap_fold.
  - change (list_to_map (reverse (map_to_list overrides)) = overrides).
    rewrite <- (list_to_map_to_list overrides) at 2.
    apply list_to_map_proper; [| apply reverse_Permutation].
    rewrite fmap_reverse, reverse_Permutation. apply NoDup_fst_map_to_list.
  - apply map_Forall_to_list in Hkeys. eapply Forall_impl; [exact Hkeys |].
    intros [k o] Hko. exact Hko.
Qed.

(** *** Saving *)

(** What a save in edit mode leaves in [tier_product_overrides], when the
    store answers its delete and its insert. *)
Lemma handleSubmit_product_overrides (props : Props) (tierId : string)
    (st : State) (w : world) :
  onSave props = false ->
  given (Editor.tierId props) = Some tierId ->
  answered 2 w = true ->
  Store.tier_product_overrides (db_after (handleSubmit props) st w)
  = filter (fun r => TierProductOverride.tier_id r ≠ tierId)
           (Store.tier_product_overrides (db w))
    ++ map (to_row tierId) (values (overrides st)).
Proof.
  intros Hmode Hgiven Hanswered.
  apply ClientFacts.answered_S in Hanswered as [H1 Hanswered].
  apply ClientFacts.answered_S in Hanswered as [H2 _].
  unfold answered in H2. simpl in H2.
  unfold db_after, world_after, handleSubmit. rewrite ClientFacts.bind_get.
  rewrite Hmode, Hgiven. cbv beta iota. unfold try_catch.
  rewrite ClientFacts.bind_request_answered by exact H1.
  unfold write at 1. cbn [fst snd]. cbv beta zeta.
  rewrite ClientFacts.bind_request_answered by (unfold answered; simpl; assumption).
  unfold write at 1. cbn [fst snd or_throw]. rewrite ClientFacts.bind_ret.
  unfold bind, request, write. simpl.
  destruct (tail (tail (faults w))) as [|[] rest]; reflexivity.
Qed.

Lemma select_saved (tierId : string) (rows : list TierProductOverride.t)
    (saved : list ProductOverride) :
  filter (fun r => TierProductOverride.tier_id r = tierId)
         (filter (fun r => TierProductOverride.tier_id r ≠ tierId) rows
            ++ map (to_row tierId) saved)
  = map (to_row tierId) saved.
Proof.
  rewrite filter_app, filter_filter_excluded by (intros r Heq Hne; exact (Hne Heq)).
  simpl. apply filter_all, to_row_tier.
Qed.

Lemma select_other_saved (tierId other : string) (rows : list TierProductOverride.t)
    (saved : list ProductOverride) :
  other ≠ tierId ->
  filter (fun r => TierProductOverride.tier_id r = other)
         (filter (fun r => TierProductOverride.tier_id r ≠ tierId) rows
            ++ map (to_row tierId) saved)
  = filter (fun r => TierProductOverride.tier_id r = other) rows.
Proof.
  intros Hother.
  rewrite filter_app, filter_filter_implied by (intros r Heq; congruence).
  rewrite <- (app_nil_r (filter _ rows)) at 2. f_equal.
  rewrite <- (filter_all _ _ (to_row_tier tierId saved)).
  apply filter_filter_excluded. intros r Heq Htier. congruence.
Qed.

(** The round trip through the handlers when the store answers every
    request: one override is saved, then none, and the editor opened next has
    no override. *)
Example save_one_then_none :
  let props := Sample.editing "tier-1" in
  let one := setOverrides {[ "p1" := Sample.override "p1" true ]} (initialState props) in
  let w1 := world_after (handleSubmit props) one (Sample.world Sample.store) in
  let w2 := world_after (handleSubmit props) (initialState props) w1 in
  overrides (state_after (fetchProducts props) one w1) = {[ "p1" := Sample.override "p1" true ]}
  /\ overrides (state_after (fetchProducts props) one w2) = ∅
  /\ console (world_after (fetchProducts props) one w2) = [].
Proof. repeat split; vm_compute; reflexivity. Qed.

(** *** The wish request checkbox *)

(** The flag a record ends with after changes of its product. *)
#[local] Abbreviation flag_after :=
  (foldl (fun (flag : bool) fv => match fv with
                                  | allowWishRequests_ v => v
                                  | _ => flag
                                  end)).

#[local] Abbreviation change_all product :=
  (foldl (fun st fv => handleOverrideChange (AllocationProduct.id product) fv st)).

Lemma flag_after_resolve (changes : list FieldValue) (flag : bool) (set : option bool) :
  flag_after (Contract.resolve flag set) changes
  = Contract.resolve flag
      (foldl (fun set fv => match fv with
                            | allowWishRequests_ v => Some v
                            | _ => set
                            end) set changes).
Proof.
  revert set. induction changes as [|fv changes IH]; intros set; [reflexivity |].
  simpl. rewrite <- IH. destruct fv; reflexivity.
Qed.

Lemma changed_record (product : AllocationProduct.t) (changes : list FieldValue)
    (st : State) (o : ProductOverride) :
  overrides st !! AllocationProduct.id product = Some o ->
  exists o',
    overrides (change_all product st changes) !! AllocationProduct.id product = Some o'
    /\ allowWishRequests o' = flag_after (allowWishRequests o) changes.
Proof.
  revert st o. induction changes as [|fv changes IH]; intros st o Ho; [eauto |].
  simpl. destruct (IH (handleOverrideChange (AllocationProduct.id product) fv st)
                      (with_field fv o)) as (o' & Ho' & Hflag).
  { unfold handleOverrideChange. simpl. now rewrite lookup_insert_eq, Ho. }
  exists o'. split; [exact Ho' |]. rewrite Hflag. destruct fv; reflexivity.
Qed.

(** C5 (the code departs from it): the checkbox of a product without a
    record shows the default of the product, as the contract has it.  But
    the record that the first change of the product creates carries
    [allowWishRequests] false, so that after any changes the checkbox
    resolves against false, not against the default of the product: when
    none of the changes is of [allowWishRequests], it shows false whatever
    the default, where the contract has the default. *)
Theorem wish_requests_fall_to_false (product : AllocationProduct.t)
    (changes : list FieldValue) (st : State) :
  overrides st !! AllocationProduct.id product = None ->
  changes ≠ [] ->
  let changed := change_all product st changes in
  wishRequests (overrides st) product
  = Contract.resolve (AllocationProduct.allow_wish_requests product) None
  /\ wishRequests (overrides changed) product
     = Contract.resolve false (Contract.wish_override changes)
  /\ (Contract.wish_override changes = None ->
        wishRequests (overrides changed) product = false)
  /\ (Contract.wish_override changes = None ->
        AllocationProduct.allow_wish_requests product = true ->
        wishRequests (overrides changed) product
        ≠ Contract.resolve (AllocationProduct.allow_wish_requests product)
            (Contract.wish_override changes)).
Proof.
  intros Hnone Hchanges changed.
  assert (wishRequests (overrides changed) product
          = Contract.resolve false (Contract.wish_override changes)) as Hshown.
  { destruct changes as [|fv changes]; [contradiction |]. subst changed. simpl.
    destruct (changed_record product changes
                (handleOverrideChange (AllocationProduct.id product) fv st)
                (with_field fv (blank (AllocationProduct.id product))))
      as (o' & Ho' & Hflag).
    { unfold handleOverrideChange. simpl. now rewrite lookup_insert_eq, Hnone. }
    unfold wishRequests. rewrite Ho'. simpl. rewrite Hflag.
    unfold Contract.wish_override. simpl.
    rewrite <- (flag_after_resolve changes false).
    destruct fv; reflexivity. }
  split; [unfold wishRequests; now rewrite Hnone |].
  split; [exact Hshown |]. split.
  - intros Hunset. now rewrite Hshown, Hunset.
  - intros Hunset Hdefault. rewrite Hshown, Hunset, Hdefault. discriminate.
Qed.

Lemma wish_requests_fall_to_false_witness :
  let st := initialState (Sample.editing "tier-1") in
  let changed := handleOverrideChange "p1" (overridePrice_ (Some (JS.of_Z 10))) st in
  wishRequests (overrides st) (Sample.product "p1" true) = true
  /\ wishRequests (overrides changed) (Sample.product "p1" true) = false.
Proof.
  intros st changed. split; [reflexivity |].
  assert ([overridePrice_ (Some (JS.of_Z 10))] ≠ []) as Hchanges by discriminate.
  exact (proj1 (proj2 (proj2
           (wish_requests_fall_to_false (Sample.product "p1" true)
              [overridePrice_ (Some (JS.of_Z 10))] st (lookup_empty _) Hchanges)))
           eq_refl).
Defined.

(** C10, as stated, fails: the first change of a product without an override
    can be the wish request checkbox itself, and ticking it creates the
    record with [allowWishRequests] true. *)
Lemma first_change_can_set_wish_requests :
  let st := initialState (Sample.editing "tier-1") in
  overrides st !! "p1" = None
  /\ allowWishRequests
       <$> overrides (handleOverrideChange "p1" (allowWishRequests_ true) st) !! "p1"
     = Some true.
Proof. split; vm_compute; reflexivity. Qed.

(** C10 (amended): the first change of any field other than
    [allowWishRequests] of a product without an override creates the
    override with [allowWishRequests] false, so that the checkbox of the
    product shows false whatever the default of the product; the first change
    of [allowWishRequests] itself creates it with the value given. *)
Theorem first_change_creates_override (productId : string) (fv : FieldValue) (st : State) :
  overrides st !! productId = None ->
  overrides (handleOverrideChange productId fv st) !! productId
  = Some (with_field fv (blank productId))
  /\ ((forall v, fv ≠ allowWishRequests_ v) ->
        allowWishRequests (with_field fv (blank productId)) = false
        /\ forall product,
             AllocationProduct.id product = productId ->
             wishRequests (overrides (handleOverrideChange productId fv st)) product = false)
  /\ (forall v, fv = allowWishRequests_ v ->
        allowWishRequests (with_field fv (blank productId)) = v).
Proof.
  intros Hnone.
  assert (overrides (handleOverrideChange productId fv st) !! productId
          = Some (with_field fv (blank productId))) as Hrecord.
  { unfold handleOverrideChange. simpl. now rewrite lookup_insert_eq, Hnone. }
  split; [exact Hrecord |]. split.
  - intros Hfield.
    assert (allowWishRequests (with_field fv (blank productId)) = false) as Hfalse.
    { destruct fv; try reflexivity. destruct (Hfield v eq_refl). }
    split; [exact Hfalse |]. intros product <-.
    unfold wishRequests. rewrite Hrecord. exact Hfalse.
  - intros v ->. reflexivity.
Qed.

Lemma first_change_creates_override_witness :
  let st := initialState (Sample.editing "tier-1") in
  wishRequests (overrides (handleOverrideChange "p1" (overridePrice_ (Some (JS.of_Z 10))) st))
               (Sample.product "p1" true)
  = false.
Proof.
  intros st.
  assert (forall v, overridePrice_ (Some (JS.of_Z 10)) ≠ allowWishRequests_ v) as Hfield
    by (intros v; discriminate).
  exact (proj2 (proj1 (proj2
           (first_change_creates_override "p1" (overridePrice_ (Some (JS.of_Z 10))) st
              (lookup_empty _))) Hfield)
         (Sample.product "p1" true) eq_refl).
Defined.

End EditorFacts.

(** ** The store across the operations of the console *)

Module ConsoleFacts.
Import Client Console.

#[local] Instance keeps_preorder (P : TierOverrides.t -> Prop) : PreOrder (keeps P).
Proof.
  split.
  - intros store row Hrow _. exact Hrow.
  - intros s1 s2 s3 H12 H23 row Hrow HP. apply H23; [apply H12 |]; assumption.
Qed.

Lemma preserves_weaken {S A} (R R' : relation Store.t) (m : M S A) :
  (forall s s', R s s' -> R' s s') -> preserves R m -> preserves R' m.
Proof. intros Hweak Hm st w. apply Hweak, Hm. Qed.

Lemma reads_keeps {S A} (P : TierOverrides.t -> Prop) (m : M S A) :
  preserves eq m -> preserves (keeps P) m.
Proof. apply preserves_weaken. intros s s' <-. reflexivity. Qed.

Lemma overview_fetchTiers_reads (allocation : Allocation.t) :
  preserves eq (Overview.fetchTiers allocation).
Proof.
  unfold Overview.fetchTiers. destruct (Allocation.allocation_type allocation);
    repeat preserves_step.
Qed.

Lemma fetchProducts_reads (props : Editor.Props) : preserves eq (Editor.fetchProducts props).
Proof. unfold Editor.fetchProducts. repeat preserves_step. Qed.

(** Creating a tier adds rows, and touches none that is there. *)
Lemma create_keeps (P : TierOverrides.t -> Prop) uuid toISOString now allocation :
  preserves (keeps P) (Tiers.handleSubmit uuid toISOString now allocation).
Proof.
  unfold Tiers.handleSubmit, Tiers.date_iso. repeat preserves_step.
  - apply (ClientFacts.preserves_request (keeps P)). intros store row Hrow _. exact Hrow.
  - apply (ClientFacts.preserves_request (keeps P)). intros store row Hrow _. simpl.
    apply elem_of_app. now left.
  - apply (ClientFacts.preserves_request (keeps P)). intros store row Hrow _. exact Hrow.
  - apply reads_keeps, TiersFacts.fetchTiers_reads.
Qed.

(** Deleting a tier takes away the rows of that tier only. *)
Lemma delete_keeps allocation (tierId : string) :
  preserves (keeps (fun row => TierOverrides.tier_id row ≠ tierId))
            (Tiers.deleteTier allocation tierId).
Proof.
  unfold Tiers.deleteTier. repeat preserves_step.
  - apply (ClientFacts.preserves_request (keeps _)). intros store row Hrow Hne. simpl.
    apply list_elem_of_filter. auto.
  - apply reads_keeps, TiersFacts.fetchTiers_reads.
Qed.

Lemma upsert_keeps (tierId : string) (rows : list TierOverrides.t) (row : TierOverrides.t) :
  row ∈ rows -> TierOverrides.has_product_overrides row = true ->
  row ∈ Store.upsert_has_product_overrides tierId true rows.
Proof.
  intros Hrow Hflag. unfold Store.upsert_has_product_overrides.
  destruct (existsb _ rows); [| apply elem_of_app; now left].
  apply list_elem_of_fmap. exists row. split; [| exact Hrow].
  case_bool_decide; [| reflexivity]. destruct row; simpl in *. now rewrite Hflag.
Qed.

Lemma upsert_sets (tierId : string) (rows : list TierOverrides.t) :
  (exists row, row ∈ Store.upsert_has_product_overrides tierId true rows
               /\ TierOverrides.tier_id row = tierId)
  /\ (forall row, row ∈ Store.upsert_has_product_overrides tierId true rows ->
                  TierOverrides.tier_id row = tierId ->
                  TierOverrides.has_product_overrides row = true).
Proof.
  unfold Store.upsert_has_product_overrides.
  destruct (existsb _ rows) eqn:Hexists.
  - split.
    + apply existsb_exists in Hexists as (row & Hrow & Htier).
      apply bool_decide_eq_true in Htier.
      eexists. split.
      * apply list_elem_of_fmap. eexists. split; [reflexivity |].
        apply list_elem_of_In. exact Hrow.
      * rewrite bool_decide_eq_true_2 by exact Htier. exact Htier.
    + intros row Hrow Htier. apply list_elem_of_fmap in Hrow as (old & -> & _).
      case_bool_decide as Hold; [reflexivity |]. contradiction.
  - split.
    + eexists. split; [apply elem_of_app; right; apply list_elem_of_singleton; reflexivity |].
      reflexivity.
    + intros row Hrow Htier. apply elem_of_app in Hrow as [Hrow | Hrow].
      * assert (existsb (fun r => bool_decide (TierOverrides.tier_id r = tierId)) rows = true)
          as Hfound; [| congruence].
        apply existsb_exists. exists row. split; [now apply list_elem_of_In |].
        now apply bool_decide_eq_true.
      * apply list_elem_of_singleton in Hrow as ->. reflexivity.
Qed.

(** A save touches no row whose flag is set. *)
Lemma save_keeps (props : Editor.Props) :
  preserves (keeps (fun row => TierOverrides.has_product_overrides row = true))
            (Editor.handleSubmit props).
Proof.
  unfold Editor.handleSubmit. repeat preserves_step.
  - apply (ClientFacts.preserves_request (keeps _)). intros store row Hrow _. exact Hrow.
  - apply (ClientFacts.preserves_request (keeps _)). intros store row Hrow _. exact Hrow.
  - apply (ClientFacts.preserves_request (keeps _)). intros store row Hrow Hflag. simpl.
    now apply upsert_keeps.
Qed.

(** What a save in edit mode leaves in [tier_overrides], when the store
    answers its three requests. *)
Lemma save_tier_overrides (props : Editor.Props) (tierId : string)
    (st : Editor.State) (w : world) :
  Editor.onSave props = false ->
  Editor.given (Editor.tierId props) = Some tierId ->
  answered 3 w = true ->
  Store.tier_overrides (db_after (Editor.handleSubmit props) st w)
  = Store.upsert_has_product_overrides tierId true (Store.tier_overrides (db w)).
Proof.
  intros Hmode Hgiven Hanswered.
  apply ClientFacts.answered_S in Hanswered as [H1 Hanswered].
  apply ClientFacts.answered_S in Hanswered as [H2 Hanswered].
  apply ClientFacts.answered_S in Hanswered as [H3 _].
  unfold answered in H2, H3. simpl in H2, H3.
  unfold db_after, world_after, Editor.handleSubmit. rewrite ClientFacts.bind_get.
  rewrite Hmode, Hgiven. cbv beta iota. unfold try_catch.
  rewrite ClientFacts.bind_request_answered by exact H1.
  unfold write at 1. cbn [fst snd]. cbv beta zeta.
  rewrite ClientFacts.bind_request_answered by (unfold answered; simpl; assumption).
  unfold write at 1. cbn [fst snd or_throw]. rewrite ClientFacts.bind_ret.
  rewrite ClientFacts.bind_request_answered by (unfold answered; simpl; assumption).
  reflexivity.
Qed.

(** The handler inspects the answer of the insert only.  When the store
    refuses the upsert, the editor closes all the same, logs nothing, and the
    tier is left without the flag; when it refuses the delete, the rows
    saved are added to the rows that were there. *)
Example save_with_a_refused_request :
  let props := Sample.editing "tier-1" in
  let one := Editor.setOverrides {[ "p1" := Sample.override "p1" true ]}
               (Editor.initialState props) in
  let refused_upsert :=
    {| db := Sample.store; faults := [false; false; true]; console := [] |} in
  let saved := world_after (Editor.handleSubmit props) one (Sample.world Sample.store) in
  let refused_delete := {| db := db saved; faults := [true]; console := [] |} in
  Editor.called (state_after (Editor.handleSubmit props) one refused_upsert)
  = [Editor.OnClose]
  /\ console (world_after (Editor.handleSubmit props) one refused_upsert) = []
  /\ Store.tier_overrides (db_after (Editor.handleSubmit props) one refused_upsert) = []
  /\ length (Store.tier_product_overrides (db saved)) = 1%nat
  /\ length (Store.tier_product_overrides
               (db_after (Editor.handleSubmit props) one refused_delete)) = 2%nat.
Proof. repeat split; vm_compute; reflexivity. Qed.

(** Opening the editor of a tier, when the store answers, loads the product
    overrides of the tier and logs nothing. *)
Lemma fetchProducts_run (props : Editor.Props) (tierId : string)
    (st : Editor.State) (w : world) :
  Editor.given (Editor.tierId props) = Some tierId ->
  answered 2 w = true ->
  Editor.fetchProducts props st w
  = (Editor.setLoading false
       (Editor.setOverrides
          (Editor.overridesMap (Editor.select_product_overrides tierId (db w)))
          (Editor.setProducts
             (filter (fun r => AllocationProduct.allocation_id r
                               = Allocation.id (Editor.allocation props))
                     (Store.allocation_products (db w))) st)),
     {| db := db w; faults := tail (tail (faults w)); console := console w |}, inr tt).
Proof.
  intros Hgiven Hanswered.
  apply ClientFacts.answered_S in Hanswered as [H1 Hanswered].
  apply ClientFacts.answered_S in Hanswered as [H2 _].
  unfold answered in H2. simpl in H2.
  unfold Editor.fetchProducts, try_finally, try_catch.
  rewrite ClientFacts.bind_request_answered by exact H1.
  unfold read at 1. cbn [fst snd or_throw].
  rewrite ClientFacts.bind_ret, ClientFacts.bind_set, Hgiven. cbv beta iota.
  rewrite ClientFacts.bind_request_answered by (unfold answered; simpl; assumption).
  reflexivity.
Qed.

Lemma fetchProducts_answered (props : Editor.Props) (tierId : string)
    (st : Editor.State) (w : world) :
  Editor.given (Editor.tierId props) = Some tierId ->
  answered 2 w = true ->
  Editor.overrides (state_after (Editor.fetchProducts props) st w)
  = Editor.overridesMap (Editor.select_product_overrides tierId (db w))
  /\ console (world_after (Editor.fetchProducts props) st w) = console w.
Proof.
  intros Hgiven Hanswered. unfold state_after, world_after.
  rewrite (fetchProducts_run props tierId st w Hgiven Hanswered). split; reflexivity.
Qed.

(** C2: when the store answers the delete, no tier row, no override bundle,
    no product override and no customer assignment of the tier is left, and
    an editor opened on the deleted id loads an empty mapping and logs no
    error. *)
Theorem deleteTier_cascade (allocation : Allocation.t) (tierId : string)
    (st : Tiers.State) (w : world) :
  answered 1 w = true ->
  let s' := db_after (Tiers.deleteTier allocation tierId) st w in
  Forall (fun r => AllocationTier.id r ≠ tierId) (Store.allocation_tiers s')
  /\ Forall (fun r => TierOverrides.tier_id r ≠ tierId) (Store.tier_overrides s')
  /\ Forall (fun r => TierProductOverride.tier_id r ≠ tierId) (Store.tier_product_overrides s')
  /\ Forall (fun r => CustomerTier.tier_id r ≠ tierId) (Store.customer_tiers s')
  /\ (forall props est w',
        Editor.given (Editor.tierId props) = Some tierId ->
        db w' = s' -> answered 2 w' = true ->
        Editor.overrides (state_after (Editor.fetchProducts props) est w') = ∅
        /\ console (world_after (Editor.fetchProducts props) est w') = console w').
Proof.
  intros Hanswered s'. subst s'.
  rewrite (TiersFacts.deleteTier_db allocation tierId st w Hanswered).
  unfold Store.delete_tier. simpl.
  repeat (split; [apply EditorFacts.filter_holds |]).
  intros props est w' Hgiven Hdb Hanswered'.
  destruct (fetchProducts_answered props tierId est w' Hgiven Hanswered') as [-> ->].
  split; [| reflexivity].
  unfold Editor.select_product_overrides. rewrite Hdb. simpl.
  rewrite EditorFacts.filter_filter_excluded by (intros r Heq Hne; exact (Hne Heq)).
  reflexivity.
Qed.

Lemma deleteTier_cascade_witness :
  let created :=
    world_after Sample.handleSubmit
      (Tiers.setFormData (Sample.form "Gold" 1)
         (Tiers.select_run Tiers.initialState [Tiers.Select "q1"]))
      (Sample.world Sample.store) in
  let props := Sample.editing "tier-1" in
  let saved :=
    world_after (Editor.handleSubmit props)
      (Editor.setOverrides {[ "p1" := Sample.override "p1" true ]} (Editor.initialState props))
      created in
  let s' := db_after (Tiers.deleteTier Sample.allocation "tier-1") Tiers.initialState saved in
  answered 1 saved = true
  /\ length (Store.customer_tiers (db saved)) = 1%nat
  /\ length (Store.tier_product_overrides (db saved)) = 1%nat
  /\ Forall (fun r => CustomerTier.tier_id r ≠ "tier-1") (Store.customer_tiers s')
  /\ Forall (fun r => TierProductOverride.tier_id r ≠ "tier-1")
            (Store.tier_product_overrides s').
Proof.
  intros created props saved s'.
  assert (answered 1 saved = true) as Hanswered by reflexivity.
  pose proof (deleteTier_cascade Sample.allocation "tier-1" Tiers.initialState saved
                Hanswered) as (_ & _ & Hproducts & Hcustomers & _).
  repeat split; [exact Hcustomers | exact Hproducts].
Defined.

End ConsoleFacts.

(** ** AllocationTiers: more on the customer source selection *)

Module SelectionMore.
Import Tiers.

Lemma findIndex_absent (kind : CustomerSourceId) (l : list SelectedSource) :
  entries_of kind l = [] -> findIndex kind l = None.
Proof.
  unfold entries_of. induction l as [|s l IH]; [reflexivity |]. simpl.
  rewrite filter_cons. destruct (decide (sourceId s = kind)) as [Hs|Hs]; [discriminate |].
  intros Hnil. rewrite bool_decide_eq_false_2 by exact Hs. now rewrite IH.
Qed.

Lemma findIndex_insert (kind : CustomerSourceId) (l : list SelectedSource) (i : nat)
    (entry : SelectedSource) :
  findIndex kind l = Some i -> sourceId entry = kind ->
  findIndex kind (<[i := entry]> l) = Some i.
Proof.
  intros Hi Hentry. revert i Hi. induction l as [|s l IH]; intros i; [discriminate |].
  simpl. case_bool_decide as Hs.
  - intros [= <-]. simpl. now rewrite bool_decide_eq_true_2.
  - destruct (findIndex kind l) as [j|]; [| discriminate]. intros [= <-]. simpl.
    rewrite bool_decide_eq_false_2 by exact Hs. now rewrite (IH j).
Qed.

Lemma without_absent_kind (kind : CustomerSourceId) (l : list SelectedSource) :
  entries_of kind l = [] -> filter (fun s => sourceId s ≠ kind) l = l.
Proof.
  unfold entries_of. induction l as [|s l IH]; [reflexivity |].
  rewrite !filter_cons. destruct (decide (sourceId s = kind)) as [Hs|Hs]; [discriminate |].
  intros Hnil. destruct (decide (sourceId s ≠ kind)); [| contradiction]. now rewrite IH.
Qed.

Lemma deselected (id : string) (prev : list string) :
  id ∉ prev -> filter (fun i => i ≠ id) (prev ++ [id]) = prev.
Proof.
  intros Hnotin. rewrite filter_app, filter_cons, filter_nil.
  destruct (decide (id ≠ id)); [contradiction |]. rewrite app_nil_r.
  induction prev as [|x prev IH]; [reflexivity |].
  apply not_elem_of_cons in Hnotin as [Hne Hnotin].
  rewrite filter_cons. destruct (decide (x ≠ id)) as [_|Hn]; [now rewrite IH |].
  destruct Hn. congruence.
Qed.

(** X1: selecting an item that is not selected and selecting it again leaves the
    component as it was, when the summary is in step with the working list. *)
Theorem select_twice_restores (id : string) (st : State) :
  in_sync st -> id ∉ selectedItems st ->
  handleItemSelect id (handleItemSelect id st) = st.
Proof.
  intros Hsync Hnotin. destruct st as [form kind prev sources shown busy data].
  unfold in_sync in Hsync. cbn [selectedItems selectedSource selectedSources] in *.
  unfold handleItemSelect at 2. unfold setSelectedItems, setSelectedSources.
  cbn [selectedItems selectedSource selectedSources showTierForm tiers loading formData].
  rewrite bool_decide_eq_false_2 by exact Hnotin.
  assert ((length (prev ++ [id]) =? 0)%nat = false) as ->
    by (rewrite length_app; simpl; apply Nat.eqb_neq; lia).
  unfold handleItemSelect, setSelectedItems, setSelectedSources.
  cbn [selectedItems selectedSource selectedSources showTierForm tiers loading formData].
  rewrite bool_decide_eq_true_2 by (apply elem_of_app; right; apply list_elem_of_singleton;
                                    reflexivity).
  rewrite (deselected id prev Hnotin). f_equal.
  destruct prev as [|x prev]; cbn [length Nat.eqb].
  - rewrite (findIndex_absent kind sources Hsync).
    rewrite filter_app, filter_cons, filter_nil. cbn [sourceId].
    destruct (decide (kind ≠ kind)); [contradiction |].
    rewrite app_nil_r. now apply without_absent_kind.
  - destruct (findIndex kind sources) as [i|] eqn:Hi.
    + rewrite (findIndex_insert kind sources i
                 {| sourceId := kind; items := selectedSourceItems ((x :: prev) ++ [id]) |}
                 Hi eq_refl).
      rewrite list_insert_insert_eq. apply list_insert_id.
      destruct (SelectionFacts.findIndex_lookup kind sources i Hi) as (s & Hs & Hkind).
      rewrite Hs. f_equal.
      assert (s ∈ entries_of kind sources) as Hin
        by (apply list_elem_of_filter; split; [exact Hkind |];
            apply list_elem_of_lookup; eauto).
      rewrite Hsync in Hin. now apply list_elem_of_singleton in Hin.
    + apply SelectionFacts.findIndex_None in Hi. rewrite Hi in Hsync. discriminate.
Qed.

Lemma select_twice_restores_witness :
  let st := handleItemSelect "q1" initialState in
  in_sync st /\ ("q2" ∉ selectedItems st)
  /\ handleItemSelect "q2" (handleItemSelect "q2" st) = st.
Proof.
  intros st.
  assert (in_sync st) as Hsync by reflexivity.
  assert ("q2" ∉ selectedItems st) as Hnotin
    by (apply (bool_decide_unpack _); vm_compute; exact I).
  split; [exact Hsync |]. split; [exact Hnotin |].
  exact (select_twice_restores "q2" st Hsync Hnotin).
Defined.

(** X2: no operation of the selector puts an item twice into the working
    list. *)
Theorem working_list_distinct (st : State) (ops : list Selection) :
  NoDup (selectedItems st) -> NoDup (selectedItems (select_run st ops)).
Proof.
  revert st. induction ops as [|op ops IH]; intros st Hnodup; [exact Hnodup |].
  apply IH. destruct op as [source|id|source]; simpl.
  - apply NoDup_nil_2.
  - case_bool_decide as Hin; [now apply NoDup_filter |].
    apply NoDup_app. split; [exact Hnodup |]. split; [| apply NoDup_singleton].
    intros x Hx Hid. apply list_elem_of_singleton in Hid as ->. contradiction.
  - unfold removeSource. case_bool_decide; simpl; [apply NoDup_nil_2 | exact Hnodup].
Qed.

Lemma working_list_distinct_witness :
  NoDup (selectedItems initialState)
  /\ NoDup (selectedItems
              (select_run initialState [Select "q1"; Select "q2"; Select "q1"; Select "q1"])).
Proof.
  assert (NoDup (selectedItems initialState)) as Hnodup by apply NoDup_nil_2.
  split; [exact Hnodup |]. exact (working_list_distinct initialState _ Hnodup).
Defined.

(** *** What the summary holds *)

Lemma selectedSourceItems_from_mock (newItems : list string) :
  Forall from_mock (selectedSourceItems newItems).
Proof.
  unfold selectedSourceItems. induction newItems as [|id newItems IH]; [constructor |].
  simpl. destruct (mock_item id) as [[name count]|] eqn:Hid; simpl; [| exact IH].
  constructor; [exact Hid | exact IH].
Qed.

Lemma selectedSourceItems_ids (newItems : list string) :
  map Item.id (selectedSourceItems newItems)
  = filter (fun id => is_Some (mock_item id)) newItems.
Proof.
  unfold selectedSourceItems. induction newItems as [|id newItems IH]; [reflexivity |].
  rewrite filter_cons. cbn -[filter mock_item].
  destruct (mock_item id) as [[name count]|]; cbn -[filter mock_item].
  - destruct (decide (is_Some (Some (name, count)))) as [_|Hn]; [now rewrite IH |].
    destruct Hn. eauto.
  - destruct (decide (is_Some (@None (string * option Z)))) as [Hs|_]; [| exact IH].
    destruct Hs. discriminate.
Qed.

Lemma all_from_mock_filter (P : SelectedSource -> Prop) `{!forall s, Decision (P s)}
    (sources : list SelectedSource) :
  all_from_mock sources -> all_from_mock (filter P sources).
Proof.
  unfold all_from_mock. rewrite !Forall_forall. intros Hall s Hs.
  apply list_elem_of_filter in Hs as [_ Hs]. auto.
Qed.

(** X3: as long as the ids selected are plain, none of them a name every
    object inherits, the items of the summary are items of the mock data:
    a plain id the data does not list adds no item, and the entry of the
    active source lists the listed ids of the working list in its order. *)
Theorem summary_from_mock (st : State) (ops : list Selection) :
  all_from_mock (selectedSources st) ->
  Forall plain (selectedItems st) ->
  selects_plain ops ->
  all_from_mock (selectedSources (select_run st ops))
  /\ (forall newItems,
        Forall plain newItems ->
        map Item.id (selectedSourceItems newItems)
        = filter (fun id => is_Some (mock_item id)) newItems).
Proof.
  intros Hall _ _. split; [| intros newItems _; apply selectedSourceItems_ids].
  revert st Hall. induction ops as [|op ops IH]; intros st Hall; [exact Hall |].
  apply IH. destruct op as [source|id|source]; simpl.
  - exact Hall.
  - destruct (length _ =? 0)%nat; [now apply all_from_mock_filter |].
    assert (Forall from_mock
              (items {| sourceId := selectedSource st;
                        items := selectedSourceItems
                                   (if bool_decide (id ∈ selectedItems st)
                                    then filter (fun i => i ≠ id) (selectedItems st)
                                    else selectedItems st ++ [id]) |})) as Hentry
      by apply selectedSourceItems_from_mock.
    destruct (findIndex (selectedSource st) (selectedSources st)) as [i|].
    + unfold all_from_mock. apply Forall_insert; assumption.
    + unfold all_from_mock. apply Forall_app. split; [exact Hall |].
      constructor; [exact Hentry | constructor].
  - unfold removeSource. case_bool_decide; simpl; now apply all_from_mock_filter.
Qed.

Lemma summary_from_mock_witness :
  all_from_mock (selectedSources initialState)
  /\ selects_plain [Select "q1"; Select "nobody"; Switch tag; Select "t1"]
  /\ all_from_mock
       (selectedSources
          (select_run initialState [Select "q1"; Select "nobody"; Switch tag; Select "t1"])).
Proof.
  assert (all_from_mock (selectedSources initialState)) as Hall by constructor.
  assert (selects_plain [Select "q1"; Select "nobody"; Switch tag; Select "t1"]) as Hplain.
  { intros id Hin.
    repeat (apply elem_of_cons in Hin as [Heq | Hin];
            [try discriminate; injection Heq as ->;
             apply (bool_decide_unpack _); vm_compute; exact I |]).
    now apply elem_of_nil in Hin. }
  split; [exact Hall |]. split; [exact Hplain |].
  exact (proj1 (summary_from_mock initialState _ Hall (Forall_nil_2 _) Hplain)).
Defined.

(** *** Removing a source *)

(** X4: removing a source takes its entry out of the summary and leaves the
    entries of the other sources; the working list is emptied when the source
    is the active one and is kept otherwise, so that a summary in step with
    the working list stays in step. *)
Theorem removeSource_removes (source : CustomerSourceId) (st : State) :
  entries_of source (selectedSources (removeSource source st)) = []
  /\ (forall kind, kind ≠ source ->
        entries_of kind (selectedSources (removeSource source st))
        = entries_of kind (selectedSources st))
  /\ selectedItems (removeSource source st)
     = (if bool_decide (source = selectedSource st) then [] else selectedItems st)
  /\ selectedSource (removeSource source st) = selectedSource st
  /\ (source = selectedSource st \/ in_sync st -> in_sync (removeSource source st)).
Proof.
  assert (selectedSources (removeSource source st)
          = filter (fun s => sourceId s ≠ source) (selectedSources st)) as Hsources
    by (unfold removeSource; case_bool_decide; reflexivity).
  assert (selectedSource (removeSource source st) = selectedSource st) as Hactive
    by (unfold removeSource; case_bool_decide; reflexivity).
  assert (selectedItems (removeSource source st)
          = (if bool_decide (source = selectedSource st) then [] else selectedItems st))
    as Hitems by (unfold removeSource; case_bool_decide; reflexivity).
  split; [rewrite Hsources; apply SelectionFacts.entries_of_removed |].
  split; [intros kind Hkind; rewrite Hsources;
          now apply SelectionFacts.entries_of_other_removed |].
  split; [exact Hitems |]. split; [exact Hactive |].
  intros Hsync. unfold in_sync. rewrite Hactive, Hitems, Hsources.
  case_bool_decide as Hsource.
  - subst source. apply SelectionFacts.entries_of_removed.
  - destruct Hsync as [Heq | Hsync]; [contradiction |].
    rewrite SelectionFacts.entries_of_other_removed by exact Hsource. exact Hsync.
Qed.

Lemma removeSource_removes_witness :
  let st := select_run initialState [Select "q1"; Switch tag; Select "t1"] in
  in_sync st /\ in_sync (removeSource query st).
Proof.
  intros st. assert (in_sync st) as Hsync by reflexivity.
  split; [exact Hsync |].
  exact (proj2 (proj2 (proj2 (proj2 (removeSource_removes query st)))) (or_intror Hsync)).
Defined.

(** *** The estimate of customers *)

Lemma foldl_add {A} (f : A -> Z) (l : list A) (a : Z) :
  foldl (fun sum x => sum + f x) a l = a + foldl (fun sum x => sum + f x) 0 l.
Proof.
  revert a. induction l as [|x l IH]; intros a; simpl; [lia |].
  rewrite (IH (a + f x)), (IH (0 + f x)). lia.
Qed.

Lemma totalCustomers_cons (source : SelectedSource) (sources : list SelectedSource) :
  totalCustomers (source :: sources)
  = foldl (fun sum item => sum + count_or_1 item) 0 (items source) + totalCustomers sources.
Proof.
  unfold totalCustomers. simpl.
  rewrite (foldl_add (fun source => foldl (fun sum item => sum + count_or_1 item) 0
                                          (items source))).
  lia.
Qed.

Lemma from_mock_counts (item : Item.t) : from_mock item -> 1 <= count_or_1 item.
Proof.
  unfold from_mock, count_or_1, mock_item, MOCK_ITEM_DATA. simpl.
  repeat (case_bool_decide; [simpl; intros [= _ <-]; simpl; lia |]).
  discriminate.
Qed.

Lemma items_counted (l : list Item.t) :
  Forall from_mock l ->
  Z.of_nat (length l) <= foldl (fun sum item => sum + count_or_1 item) 0 l.
Proof.
  induction 1 as [|item l Hitem Hl IH]; simpl; [lia |].
  rewrite foldl_add. pose proof (from_mock_counts item Hitem). lia.
Qed.

(** X5: the estimate adds up over the sources of the summary, so that a customer
    selected under two sources is counted twice; and for a summary of items
    of the mock data it is at least the number of items selected, an item of
    unknown cardinality counting for one customer. *)
Theorem totalCustomers_estimate (sources more : list SelectedSource) :
  totalCustomers (sources ++ more) = totalCustomers sources + totalCustomers more
  /\ (all_from_mock sources ->
        Z.of_nat (selected_count sources) <= totalCustomers sources).
Proof.
  split.
  - induction sources as [|source sources IH]; [reflexivity |].
    rewrite <- app_comm_cons, !totalCustomers_cons, IH. lia.
  - induction 1 as [|source sources Hitems Hall IH]; [reflexivity |].
    rewrite totalCustomers_cons. unfold selected_count in *. simpl.
    pose proof (items_counted (items source) Hitems). lia.
Qed.

Lemma totalCustomers_estimate_witness :
  let sources := selectedSources
                   (select_run initialState
                      [Select "q1"; Switch search; Select "cust1"; Select "cust2"]) in
  all_from_mock sources /\ Z.of_nat (selected_count sources) <= totalCustomers sources.
Proof.
  intros sources.
  assert (all_from_mock sources) as Hall
    by (repeat constructor).
  split; [exact Hall |]. exact (proj2 (totalCustomers_estimate sources []) Hall).
Defined.

(** *** Expanding a tier *)

(** X6: expanding and collapsing a tier are one toggle: it flips the tier,
    leaves every other tier as it was, and twice it changes nothing. *)
Theorem toggleTierExpanded_flips (tierId : string) (expanded : gset string) :
  (tierId ∈ toggleTierExpanded tierId expanded <-> tierId ∉ expanded)
  /\ (forall other, other ≠ tierId ->
        (other ∈ toggleTierExpanded tierId expanded <-> other ∈ expanded))
  /\ toggleTierExpanded tierId (toggleTierExpanded tierId expanded) = expanded.
Proof.
  split; [unfold toggleTierExpanded; case_bool_decide; set_solver |].
  split; [intros other Hother; unfold toggleTierExpanded; case_bool_decide; set_solver |].
  destruct (decide (tierId ∈ expanded)) as [Hin|Hout].
  - unfold toggleTierExpanded at 2. rewrite bool_decide_eq_true_2 by exact Hin.
    unfold toggleTierExpanded. rewrite bool_decide_eq_false_2 by set_solver.
    apply set_eq. intros x. destruct (decide (x = tierId)); set_solver.
  - unfold toggleTierExpanded at 2. rewrite bool_decide_eq_false_2 by exact Hout.
    unfold toggleTierExpanded. rewrite bool_decide_eq_true_2 by set_solver.
    set_solver.
Qed.

Lemma toggleTierExpanded_flips_witness :
  "tier-2" ∈ toggleTierExpanded "tier-1" {[ "tier-2" ]}
  /\ "tier-1" ∈ toggleTierExpanded "tier-1" {[ "tier-2" ]}.
Proof.
  destruct (toggleTierExpanded_flips "tier-1" {[ "tier-2" ]}) as (Hflip & Hother & _).
  split.
  - apply (Hother "tier-2"); [discriminate | set_solver].
  - apply Hflip. set_solver.
Defined.

End SelectionMore.

(** ** Stepping through a handler *)

Module Steps.
Import Client.

#[global] Instance same_preorder {B} (f : Store.t -> B) : PreOrder (Frame.same f).
Proof.
  split; [intros s; reflexivity |].
  intros s1 s2 s3 H12 H23. unfold Frame.same in *. congruence.
Qed.

Lemma reads_same {S A B} (f : Store.t -> B) (m : M S A) :
  preserves eq m -> preserves (Frame.same f) m.
Proof. intros Hm st w. unfold Frame.same. now rewrite <- (Hm st w). Qed.

Lemma try_catch_bind_ret {S A B} (a : A) (k : A -> M S B) (h : error -> M S B)
    (st : S) (w : world) :
  try_catch (bind (ret a) k) h st w = try_catch (k a) h st w.
Proof. reflexivity. Qed.

Lemma try_catch_bind_set {S B} (f : S -> S) (k : unit -> M S B) (h : error -> M S B)
    (st : S) (w : world) :
  try_catch (bind (set f) k) h st w = try_catch (k tt) h (f st) w.
Proof. reflexivity. Qed.

Lemma try_catch_bind_throw {S A B} (e : error) (k : A -> M S B) (h : error -> M S B)
    (st : S) (w : world) :
  try_catch (bind (throw e) k) h st w = h e st w.
Proof. reflexivity. Qed.

Lemma try_catch_bind_bind {S A B C} (m : M S A) (f : A -> M S B) (k : B -> M S C)
    (h : error -> M S C) (st : S) (w : world) :
  try_catch (bind (bind m f) k) h st w
  = try_catch (bind m (fun a => bind (f a) k)) h st w.
Proof. unfold try_catch. now rewrite ClientFacts.bind_bind. Qed.

Lemma try_catch_bind_request_answered {S A B} (op : Store.t -> Store.t * response A)
    (k : response A -> M S B) (h : error -> M S B) (st : S) (w : world) :
  answered 1 w = true ->
  try_catch (bind (request op) k) h st w
  = try_catch (k (op (db w)).2) h st
      {| db := (op (db w)).1; faults := tail (faults w); console := console w |}.
Proof. intros H. unfold try_catch. now rewrite ClientFacts.bind_request_answered. Qed.

(** A refused request answers with the error of the store and changes
    nothing. *)
Lemma request_refused {S A} (op : Store.t -> Store.t * response A) (st : S) (w : world)
    (rest : list bool) :
  faults w = true :: rest ->
  request op st w
  = (st, {| db := db w; faults := rest; console := console w |},
     inr (Failed PostgrestError)).
Proof. intros H. unfold request. now rewrite H. Qed.

Lemma try_catch_bind_request_refused {S A B} (op : Store.t -> Store.t * response A)
    (k : response A -> M S B) (h : error -> M S B) (st : S) (w : world)
    (rest : list bool) :
  faults w = true :: rest ->
  try_catch (bind (request op) k) h st w
  = try_catch (k (Failed PostgrestError)) h st
      {| db := db w; faults := rest; console := console w |}.
Proof.
  intros H. unfold try_catch, bind. now rewrite (request_refused op st w rest H).
Qed.

Lemma answered_tail (n : nat) (w : world) (s : Store.t) (c : list error) :
  answered (S n) w = true ->
  answered n {| db := s; faults := tail (faults w); console := c |} = true.
Proof.
  unfold answered. simpl. destruct (faults w) as [|[] rest]; simpl; try discriminate; auto.
  intros _. now rewrite take_nil.
Qed.

Lemma answered_le (n m : nat) (w : world) :
  (n <= m)%nat -> answered m w = true -> answered n w = true.
Proof.
  unfold answered. revert m. generalize (faults w) as fs.
  induction n as [|n IH]; intros fs m Hle; [now destruct fs |].
  destruct m as [|m]; [lia |]. destruct fs as [|f fs]; [reflexivity |]. simpl.
  intros H. apply andb_true_iff in H as [-> H]. simpl. apply (IH fs m); [lia | exact H].
Qed.

Lemma answered_first (n : nat) (w : world) : answered (S n) w = true -> answered 1 w = true.
Proof. intros H. now apply ClientFacts.answered_S in H. Qed.

End Steps.

(** ** AllocationTiers: more on creating, deleting and listing tiers *)

Module TiersMore.
Import Client Tiers.

Section Handlers.
Variable uuid : nat -> string.
Variable toISOString : string -> option string.
Variable now : string.
Variable allocation : Allocation.t.

#[local] Abbreviation fetchTiers := (Tiers.fetchTiers allocation).
#[local] Abbreviation handleSubmit := (Tiers.handleSubmit uuid toISOString now allocation).
#[local] Abbreviation deleteTier := (Tiers.deleteTier allocation).

(** The tier row a submission inserts. *)
#[local] Abbreviation tier_row st access_start access_end :=
  (fun n : nat =>
     {| AllocationTier.id := uuid n;
        AllocationTier.allocation_id := Allocation.id allocation;
        AllocationTier.name := name (formData st);
        AllocationTier.level := default 0 (level (formData st));
        AllocationTier.access_start := access_start;
        AllocationTier.access_end := access_end;
        AllocationTier.customer_count := totalCustomers (selectedSources st) |}).

(** A form whose required fields are filled and whose dates read as dates. *)
#[local] Abbreviation complete st access_start access_end :=
  (truthy (name (formData st)) = true
   /\ truthy_int (level (formData st)) = true
   /\ truthy (accessStart (formData st)) = true
   /\ truthy (accessEnd (formData st)) = true
   /\ toISOString (accessStart (formData st)) = Some access_start
   /\ toISOString (accessEnd (formData st)) = Some access_end).

(** The submission of a complete form, up to its first request. *)
Lemma handleSubmit_complete (st : State) (w : world) (access_start access_end : string) :
  complete st access_start access_end ->
  exists k,
    handleSubmit st w
    = try_catch
        (let* tierResponse := request (insert_tier (tier_row st access_start access_end)) in
         k tierResponse)
        (fun error => console_error error) st w
    /\ k = (fun tierResponse =>
              let* tier := or_throw tierResponse in
              let* _ :=
                if (0 <? keys (overrides (formData st)))%nat then
                  let* overridesResponse :=
                    request (write (fun s =>
                      Store.with_tier_overrides
                        (Store.tier_overrides s ++
                           [ {| TierOverrides.tier_id := AllocationTier.id tier;
                                TierOverrides.requirements :=
                                  form_requirements (overrides (formData st));
                                TierOverrides.discounts :=
                                  form_discounts (overrides (formData st));
                                TierOverrides.shipping :=
                                  form_shipping (overrides (formData st));
                                TierOverrides.has_product_overrides :=
                                  default false (form_products (overrides (formData st))) |} ])
                        s)) in
                  or_throw overridesResponse
                else ret tt in
              let* _ :=
                if (0 <? length (selectedSources st))%nat then
                  let* assignmentResponse :=
                    request (write (fun s =>
                      Store.with_customer_tiers
                        (Store.customer_tiers s
                           ++ customerAssignments now allocation (AllocationTier.id tier)
                                (selectedSources st)) s)) in
                  or_throw assignmentResponse
                else ret tt in
              let* _ := fetchTiers in
              let* _ := set (setFormData emptyForm) in
              let* _ := set (setSelectedSources []) in
              let* _ := set (setSelectedItems []) in
              set (setShowTierForm false)).
Proof.
  intros (Hname & Hlevel & Hstart & Hend & Hiso_start & Hiso_end).
  eexists. split; [| reflexivity].
  unfold Tiers.handleSubmit. rewrite ClientFacts.bind_get.
  rewrite Hname, Hlevel, Hstart, Hend. simpl negb. simpl orb. cbv beta iota.
  rewrite Steps.try_catch_bind_ret. unfold date_iso. rewrite Hiso_start, Hiso_end.
  cbv beta iota. rewrite !Steps.try_catch_bind_ret. reflexivity.
Qed.

(** What the writes of a submission leave in the store and of the answers to
    come, when the store answers them. *)
#[local] Abbreviation bundle_row st tierId :=
  {| TierOverrides.tier_id := tierId;
     TierOverrides.requirements := form_requirements (overrides (formData st));
     TierOverrides.discounts := form_discounts (overrides (formData st));
     TierOverrides.shipping := form_shipping (overrides (formData st));
     TierOverrides.has_product_overrides :=
       default false (form_products (overrides (formData st))) |}.

Lemma handleSubmit_written (st : State) (w : world) (access_start access_end : string) :
  complete st access_start access_end ->
  answered 3 w = true ->
  let tier := tier_row st access_start access_end (Store.next_id (db w)) in
  let s1 := (insert_tier (tier_row st access_start access_end) (db w)).1 in
  let s2 := if (0 <? keys (overrides (formData st)))%nat
            then Store.with_tier_overrides
                   (Store.tier_overrides s1 ++ [bundle_row st (AllocationTier.id tier)]) s1
            else s1 in
  let s3 := if (0 <? length (selectedSources st))%nat
            then Store.with_customer_tiers
                   (Store.customer_tiers s2
                      ++ customerAssignments now allocation (AllocationTier.id tier)
                           (selectedSources st)) s2
            else s2 in
  let f1 := tail (faults w) in
  let f2 := if (0 <? keys (overrides (formData st)))%nat then tail f1 else f1 in
  let f3 := if (0 <? length (selectedSources st))%nat then tail f2 else f2 in
  handleSubmit st w
  = try_catch
      (let* _ := fetchTiers in
       let* _ := set (setFormData emptyForm) in
       let* _ := set (setSelectedSources []) in
       let* _ := set (setSelectedItems []) in
       set (setShowTierForm false))
      (fun error => console_error error) st
      {| db := s3; faults := f3; console := console w |}.
Proof.
  intros Hcomplete Hanswered tier s1 s2 s3 f1 f2 f3.
  destruct (handleSubmit_complete st w access_start access_end Hcomplete) as (k & -> & ->).
  apply ClientFacts.answered_S in Hanswered as [H1 Hanswered].
  apply ClientFacts.answered_S in Hanswered as [H2 Hanswered].
  apply ClientFacts.answered_S in Hanswered as [H3 _].
  unfold answered in H2, H3. simpl in H2, H3.
  rewrite Steps.try_catch_bind_request_answered by exact H1.
  unfold insert_tier at 1 2. cbn [fst snd or_throw]. rewrite Steps.try_catch_bind_ret.
  subst s3 f3 s2 f2 s1 f1 tier. unfold insert_tier. cbn [fst snd AllocationTier.id].
  destruct (0 <? keys (overrides (formData st)))%nat.
  - rewrite Steps.try_catch_bind_bind.
    rewrite Steps.try_catch_bind_request_answered by (unfold answered; simpl; assumption).
    unfold write at 1 2. cbn [fst snd or_throw]. rewrite Steps.try_catch_bind_ret.
    destruct (0 <? length (selectedSources st))%nat.
    + rewrite Steps.try_catch_bind_bind.
      rewrite Steps.try_catch_bind_request_answered by (unfold answered; simpl; assumption).
      unfold write at 1 2. cbn [fst snd or_throw]. rewrite Steps.try_catch_bind_ret.
      reflexivity.
    + rewrite Steps.try_catch_bind_ret. reflexivity.
  - rewrite Steps.try_catch_bind_ret.
    destruct (0 <? length (selectedSources st))%nat.
    + rewrite Steps.try_catch_bind_bind.
      rewrite Steps.try_catch_bind_request_answered by (unfold answered; simpl; assumption).
      unfold write at 1 2. cbn [fst snd or_throw]. rewrite Steps.try_catch_bind_ret.
      reflexivity.
    + rewrite Steps.try_catch_bind_ret. reflexivity.
Qed.

(** X7: a form that passes the check of the required fields but whose start or
    end does not read as a date is refused before any request: the store is
    as it was, the form stays, and the RangeError is what is logged. *)
Theorem handleSubmit_invalid_date (st : State) (w : world) :
  truthy (name (formData st)) = true ->
  truthy_int (level (formData st)) = true ->
  truthy (accessStart (formData st)) = true ->
  truthy (accessEnd (formData st)) = true ->
  toISOString (accessStart (formData st)) = None
  \/ toISOString (accessEnd (formData st)) = None ->
  handleSubmit st w
  = (st, {| db := db w; faults := faults w; console := console w ++ [RangeError] |}, inr tt).
Proof.
  intros Hname Hlevel Hstart Hend Hdate.
  unfold Tiers.handleSubmit. rewrite ClientFacts.bind_get.
  rewrite Hname, Hlevel, Hstart, Hend. simpl negb. simpl orb. cbv beta iota.
  rewrite Steps.try_catch_bind_ret. unfold date_iso.
  destruct (toISOString (accessStart (formData st))) as [access_start|].
  - destruct Hdate as [Hdate | Hdate]; [discriminate |]. rewrite Hdate.
    rewrite Steps.try_catch_bind_ret. reflexivity.
  - reflexivity.
Qed.

(** X8: creating a tier is not one transaction: once the store has answered the
    insert of the tier, the tier row is there, with the estimate of the
    summary as its customer count, whatever becomes of the requests that
    follow. *)
Theorem tier_row_committed (st : State) (w : world) (access_start access_end : string) :
  complete st access_start access_end ->
  answered 1 w = true ->
  Store.allocation_tiers (db_after handleSubmit st w)
  = Store.allocation_tiers (db w)
    ++ [ tier_row st access_start access_end (Store.next_id (db w)) ].
Proof.
  intros Hcomplete Hanswered.
  destruct (handleSubmit_complete st w access_start access_end Hcomplete) as (k & Hrun & ->).
  unfold db_after, world_after. rewrite Hrun.
  rewrite Steps.try_catch_bind_request_answered by exact Hanswered.
  unfold insert_tier at 1 2. cbn [fst snd or_throw]. rewrite Steps.try_catch_bind_ret.
  match goal with
  | |- context [try_catch ?K ?h st ?w1] =>
      assert (preserves (Frame.same Store.allocation_tiers) (try_catch K h)) as Hkeep;
      [| etransitivity; [exact (Hkeep st w1) | reflexivity]]
  end.
  repeat preserves_step;
    try (apply (ClientFacts.preserves_request (Frame.same _)); intros ?; reflexivity).
  apply Steps.reads_same, TiersFacts.fetchTiers_reads.
Qed.

(** X9: when the store refuses the bundle of a tier it has just inserted, the
    tier stays in the store without bundle and without assignments, the
    error is logged, the list is not refreshed and the form stays filled. *)
Theorem bundle_refused (st : State) (w : world) (access_start access_end : string)
    (rest : list bool) :
  complete st access_start access_end ->
  (0 < keys (overrides (formData st)))%nat ->
  faults w = false :: true :: rest ->
  handleSubmit st w
  = (st,
     {| db := (insert_tier (tier_row st access_start access_end) (db w)).1;
        faults := rest;
        console := console w ++ [PostgrestError] |},
     inr tt).
Proof.
  intros Hcomplete Hkeys Hfaults.
  destruct (handleSubmit_complete st w access_start access_end Hcomplete) as (k & -> & ->).
  rewrite Steps.try_catch_bind_request_answered
    by (unfold answered; rewrite Hfaults; reflexivity).
  unfold insert_tier. cbn [fst snd or_throw AllocationTier.id].
  rewrite Steps.try_catch_bind_ret.
  apply Nat.ltb_lt in Hkeys. rewrite Hkeys.
  rewrite Steps.try_catch_bind_bind.
  rewrite (Steps.try_catch_bind_request_refused _ _ _ _ _ rest)
    by (simpl; now rewrite Hfaults).
  reflexivity.
Qed.

(** X10: when the store refuses the assignments, the tier and its bundle are in
    the store and the tier has no assignment row, though its customer count
    is the estimate of the summary. *)
Theorem assignments_refused (st : State) (w : world) (access_start access_end : string)
    (rest : list bool) :
  complete st access_start access_end ->
  (0 < keys (overrides (formData st)))%nat ->
  selectedSources st ≠ [] ->
  faults w = false :: false :: true :: rest ->
  let s1 := (insert_tier (tier_row st access_start access_end) (db w)).1 in
  handleSubmit st w
  = (st,
     {| db := Store.with_tier_overrides
                (Store.tier_overrides s1
                   ++ [bundle_row st (uuid (Store.next_id (db w)))]) s1;
        faults := rest;
        console := console w ++ [PostgrestError] |},
     inr tt).
Proof.
  intros Hcomplete Hkeys Hsources Hfaults s1. subst s1.
  destruct (handleSubmit_complete st w access_start access_end Hcomplete) as (k & -> & ->).
  rewrite Steps.try_catch_bind_request_answered
    by (unfold answered; rewrite Hfaults; reflexivity).
  unfold insert_tier. cbn [fst snd or_throw AllocationTier.id].
  rewrite Steps.try_catch_bind_ret.
  apply Nat.ltb_lt in Hkeys. rewrite Hkeys.
  rewrite Steps.try_catch_bind_bind.
  rewrite Steps.try_catch_bind_request_answered
    by (unfold answered; simpl; rewrite Hfaults; reflexivity).
  unfold write at 1 2. cbn [fst snd or_throw]. rewrite Steps.try_catch_bind_ret.
  assert ((0 <? length (selectedSources st))%nat = true) as ->
    by (destruct (selectedSources st); [contradiction | reflexivity]).
  rewrite Steps.try_catch_bind_bind.
  rewrite (Steps.try_catch_bind_request_refused _ _ _ _ _ rest)
    by (simpl; now rewrite Hfaults).
  reflexivity.
Qed.

(** X11: a bundle is written for the new tier exactly when the form has an
    override key, and with the flag of the product overrides the form has,
    false when it has none. *)
Theorem bundle_written_iff_overrides (st : State) (w : world)
    (access_start access_end : string) :
  complete st access_start access_end ->
  answered 3 w = true ->
  Store.tier_overrides (db_after handleSubmit st w)
  = Store.tier_overrides (db w)
    ++ (if (0 <? keys (overrides (formData st)))%nat
        then [bundle_row st (uuid (Store.next_id (db w)))]
        else []).
Proof.
  intros Hcomplete Hanswered. unfold db_after, world_after.
  rewrite (handleSubmit_written st w access_start access_end Hcomplete Hanswered).
  match goal with
  | |- context [try_catch ?K ?h st ?w3] =>
      assert (preserves (Frame.same Store.tier_overrides) (try_catch K h)) as Hkeep;
      [| etransitivity; [exact (Hkeep st w3) |]]
  end.
  { repeat preserves_step. apply Steps.reads_same, TiersFacts.fetchTiers_reads. }
  cbn [db]. unfold insert_tier. cbn [fst AllocationTier.id].
  destruct (0 <? length (selectedSources st))%nat,
           (0 <? keys (overrides (formData st)))%nat; cbn; now rewrite ?app_nil_r.
Qed.

(** X12: creating a tier writes no product override and no product, whatever the
    form holds and whatever the store answers: the product overrides the
    editor hands back in creation mode are not stored. *)
Theorem creation_writes_no_product_override (st : State) (w : world) :
  Store.tier_product_overrides (db_after handleSubmit st w)
  = Store.tier_product_overrides (db w)
  /\ Store.allocation_products (db_after handleSubmit st w)
     = Store.allocation_products (db w).
Proof.
  split.
  - assert (preserves (Frame.same Store.tier_product_overrides) handleSubmit) as Hkeep;
      [| exact (Hkeep st w)].
    unfold Tiers.handleSubmit, date_iso. repeat preserves_step;
      try (apply (ClientFacts.preserves_request (Frame.same _)); intros ?; reflexivity).
    apply Steps.reads_same, TiersFacts.fetchTiers_reads.
  - assert (preserves (Frame.same Store.allocation_products) handleSubmit) as Hkeep;
      [| exact (Hkeep st w)].
    unfold Tiers.handleSubmit, date_iso. repeat preserves_step;
      try (apply (ClientFacts.preserves_request (Frame.same _)); intros ?; reflexivity).
    apply Steps.reads_same, TiersFacts.fetchTiers_reads.
Qed.

(** X13: a complete form whose requests the store answers, the listing that
    follows included, leaves the form empty and closed, the summary and the
    working list empty, and the new tier among the tiers shown. *)
Theorem creation_resets_form (st : State) (w : world) (access_start access_end : string) :
  complete st access_start access_end ->
  answered 4 w = true ->
  let st' := state_after handleSubmit st w in
  formData st' = emptyForm
  /\ selectedSources st' = []
  /\ selectedItems st' = []
  /\ showTierForm st' = false
  /\ loading st' = false
  /\ selectedSource st' = selectedSource st
  /\ uuid (Store.next_id (db w)) ∈ map TierData.id (tiers st').
Proof.
  intros Hcomplete Hanswered st'. subst st'. unfold state_after.
  pose proof (handleSubmit_written st w access_start access_end Hcomplete
                (Steps.answered_le 3 4 w ltac:(lia) Hanswered)) as Hrun.
  cbv zeta in Hrun.
  match type of Hrun with
  | _ = try_catch _ _ _ {| db := ?s3; faults := ?f3; console := _ |} =>
      set (written := s3) in *; set (left := f3) in *
  end.
  assert (Store.allocation_tiers written
          = Store.allocation_tiers (db w)
            ++ [tier_row st access_start access_end (Store.next_id (db w))]) as Htiers.
  { subst written. destruct (0 <? length (selectedSources st))%nat,
                            (0 <? keys (overrides (formData st)))%nat; reflexivity. }
  assert (answered 1 {| db := written; faults := left; console := console w |} = true)
    as Hlisting.
  { subst left. unfold answered in *. cbn [faults].
    destruct (faults w) as [|[] [|[] [|[] [|[] rest]]]]; simpl in Hanswered;
      try discriminate;
      destruct (0 <? length (selectedSources st))%nat,
               (0 <? keys (overrides (formData st)))%nat; reflexivity. }
  clearbody written left.
  destruct (TiersFacts.fetchTiers_answered allocation st _ Hlisting)
    as (bundles & w' & Hfetch & Hlen).
  cbn [db] in Hfetch, Hlen.
  remember (zip_with with_overrides
              (Store.select_tiers (Allocation.id allocation) written) bundles)
    as shown eqn:Hshown.
  assert (handleSubmit st w
          = (setShowTierForm false
               (setSelectedItems []
                  (setSelectedSources []
                     (setFormData emptyForm
                        (setLoading false (setTiers shown (setLoading true st)))))),
             w', inr tt)) as ->.
  { rewrite Hrun. unfold try_catch. unfold bind at 1. rewrite Hfetch. reflexivity. }
  cbn. repeat (split; [reflexivity |]). subst shown.
  rewrite (proj1 (TiersFacts.with_overrides_ids _ _ Hlen)).
  apply list_elem_of_fmap.
  exists (tier_row st access_start access_end (Store.next_id (db w))).
  split; [reflexivity |].
  rewrite StoreFacts.select_tiers_perm. apply list_elem_of_filter.
  split; [reflexivity |]. rewrite Htiers. apply elem_of_app. right.
  apply list_elem_of_singleton. reflexivity.
Qed.

(** *** Deleting *)

(** X14: when the store refuses the delete, nothing is deleted, the error is
    logged, and the list is not refreshed. *)
Theorem deleteTier_refused (tierId : string) (st : State) (w : world) (rest : list bool) :
  faults w = true :: rest ->
  deleteTier tierId st w
  = (st, {| db := db w; faults := rest; console := console w ++ [PostgrestError] |}, inr tt).
Proof.
  intros Hfaults. unfold Tiers.deleteTier.
  rewrite (Steps.try_catch_bind_request_refused _ _ _ _ _ rest) by exact Hfaults.
  reflexivity.
Qed.

(** X15: when the store answers the delete and the listing that follows, the
    deleted tier is no longer shown, and every other tier of the allocation
    still is. *)
Theorem deleted_tier_not_listed (tierId : string) (st : State) (w : world) :
  answered 2 w = true ->
  let shown := map TierData.id (tiers (state_after (deleteTier tierId) st w)) in
  (tierId ∉ shown)
  /\ (forall row,
        row ∈ Store.allocation_tiers (db w) ->
        AllocationTier.allocation_id row = Allocation.id allocation ->
        AllocationTier.id row ≠ tierId ->
        AllocationTier.id row ∈ shown).
Proof.
  intros Hanswered shown. subst shown.
  pose proof (Steps.answered_first 1 w Hanswered) as H1.
  pose proof (Steps.answered_tail 1 w (Store.delete_tier tierId (db w)) (console w) Hanswered)
    as H2.
  destruct (TiersFacts.fetchTiers_answered allocation st _ H2)
    as (bundles & w' & Hfetch & Hlen).
  cbn [db] in Hfetch, Hlen.
  assert (state_after (deleteTier tierId) st w
          = setLoading false
              (setTiers (zip_with with_overrides
                           (Store.select_tiers (Allocation.id allocation)
                              (Store.delete_tier tierId (db w))) bundles)
                 (setLoading true st))) as ->.
  { unfold state_after, Tiers.deleteTier.
    rewrite Steps.try_catch_bind_request_answered by exact H1.
    unfold write. cbn [fst snd or_throw]. rewrite Steps.try_catch_bind_ret.
    unfold try_catch. rewrite Hfetch. reflexivity. }
  cbn [tiers setLoading setTiers].
  rewrite (proj1 (TiersFacts.with_overrides_ids _ _ Hlen)).
  split.
  - intros Hin. apply list_elem_of_fmap in Hin as (row & Hid & Hrow).
    rewrite StoreFacts.select_tiers_perm in Hrow.
    apply list_elem_of_filter in Hrow as [_ Hrow]. cbn in Hrow.
    apply list_elem_of_filter in Hrow as [Hne _]. congruence.
  - intros row Hrow Hallocation Hne. apply list_elem_of_fmap. exists row.
    split; [reflexivity |]. rewrite StoreFacts.select_tiers_perm.
    apply list_elem_of_filter. split; [exact Hallocation |]. cbn.
    apply list_elem_of_filter. split; [exact Hne | exact Hrow].
Qed.

(** *** Listing *)

(** When the store refuses the select of the tiers, the tiers shown stay as
    they were and the error is logged. *)
Lemma fetchTiers_refused (st : State) (w : world) (rest : list bool) :
  faults w = true :: rest ->
  fetchTiers st w
  = (setLoading false (setLoading true st),
     {| db := db w; faults := rest; console := console w ++ [PostgrestError] |}, inr tt).
Proof.
  intros Hfaults. unfold Tiers.fetchTiers, try_finally.
  rewrite Steps.try_catch_bind_set.
  rewrite (Steps.try_catch_bind_request_refused _ _ _ _ _ rest) by exact Hfaults.
  reflexivity.
Qed.

(** X16: listing ends with the component no longer loading and touches nothing of
    the selection or the form, whatever the store answers; a refused select
    leaves the tiers shown as they were and logs the error. *)
Theorem fetchTiers_settles (st : State) (w : world) :
  let st' := state_after fetchTiers st w in
  loading st' = false
  /\ selectedSource st' = selectedSource st
  /\ selectedItems st' = selectedItems st
  /\ selectedSources st' = selectedSources st
  /\ formData st' = formData st
  /\ showTierForm st' = showTierForm st
  /\ (forall rest, faults w = true :: rest ->
        tiers st' = tiers st
        /\ console (world_after fetchTiers st w) = console w ++ [PostgrestError]).
Proof.
  intros st'. subst st'. unfold state_after, world_after.
  destruct (faults w) as [|[] rest] eqn:Hfaults.
  - destruct (TiersFacts.fetchTiers_answered allocation st w) as (bundles & w' & -> & _);
      [unfold answered; now rewrite Hfaults |].
    cbn. do 6 (split; [reflexivity |]). intros rest [=].
  - rewrite (fetchTiers_refused st w rest Hfaults). cbn.
    do 6 (split; [reflexivity |]). intros rest' [= <-]. split; reflexivity.
  - destruct (TiersFacts.fetchTiers_answered allocation st w) as (bundles & w' & -> & _);
      [unfold answered; now rewrite Hfaults |].
    cbn. do 6 (split; [reflexivity |]). intros rest' [=].
Qed.

(** The bundle shown with a tier, when the store answers. *)
#[local] Abbreviation bundle_of s tier :=
  (default None
     (Store.maybeSingle
        (filter (fun r => TierOverrides.tier_id r = AllocationTier.id tier)
                (Store.tier_overrides s)))).

Lemma attach_overrides_answered (tiersData : list AllocationTier.t) (st : State) (w : world) :
  faults w = [] ->
  mapM (fun tier =>
          let* overridesResponse := request (select_overrides (AllocationTier.id tier)) in
          ret (with_overrides tier (data_or None overridesResponse)))
       tiersData st w
  = (st, w, inr (map (fun tier => with_overrides tier (bundle_of (db w) tier)) tiersData)).
Proof.
  intros Hfaults. induction tiersData as [|tier rest IH]; [reflexivity |].
  cbn [mapM map]. rewrite ClientFacts.bind_bind.
  rewrite ClientFacts.bind_request_answered by (unfold answered; now rewrite Hfaults).
  rewrite ClientFacts.bind_ret.
  assert ({| db := (select_overrides (AllocationTier.id tier) (db w)).1;
             faults := tail (faults w); console := console w |} = w) as ->
    by (destruct w; simpl in *; now rewrite Hfaults).
  unfold bind at 1. rewrite IH. cbn [ret]. do 3 f_equal.
  unfold select_overrides. cbn [snd].
  destruct (Store.maybeSingle _); reflexivity.
Qed.

(** X17: when the store answers every request, each tier is shown with its
    bundle if it has exactly one, and without overrides if it has none or
    several; nothing is logged in either case. *)
Theorem fetchTiers_attaches_bundles (st : State) (w : world) :
  faults w = [] ->
  fetchTiers st w
  = (setLoading false
       (setTiers
          (map (fun tier => with_overrides tier (bundle_of (db w) tier))
               (Store.select_tiers (Allocation.id allocation) (db w)))
          (setLoading true st)),
     w, inr tt).
Proof.
  intros Hfaults. unfold Tiers.fetchTiers, try_finally.
  rewrite Steps.try_catch_bind_set.
  rewrite Steps.try_catch_bind_request_answered by (unfold answered; now rewrite Hfaults).
  unfold read. cbn [fst snd or_throw]. rewrite Steps.try_catch_bind_ret.
  assert ({| db := db w; faults := tail (faults w); console := console w |} = w) as ->
    by (destruct w; simpl in *; now rewrite Hfaults).
  unfold try_catch. unfold bind at 1.
  rewrite attach_overrides_answered by exact Hfaults. reflexivity.
Qed.

End Handlers.

Lemma handleSubmit_invalid_date_witness :
  let reads := fun s : string => if decide (s = "soon") then None else Some s in
  let st := setFormData
              {| name := "Gold"; level := Some 1; accessStart := "2024-01-01T00:00";
                 accessEnd := "soon"; overrides := overrides emptyForm |} initialState in
  let w := Sample.world Sample.store in
  Tiers.handleSubmit Sample.uuid reads Sample.now Sample.allocation st w
  = (st, {| db := Sample.store; faults := []; console := [RangeError] |}, inr tt).
Proof.
  intros reads st w.
  exact (handleSubmit_invalid_date Sample.uuid reads Sample.now Sample.allocation st w
           eq_refl eq_refl eq_refl eq_refl (or_intror eq_refl)).
Defined.

Lemma tier_row_committed_witness :
  let st := setFormData (Sample.form "Gold" 1) initialState in
  let w := Sample.world_with [false; true] Sample.store in
  map AllocationTier.name (Store.allocation_tiers (db_after Sample.handleSubmit st w))
  = ["Gold"].
Proof.
  intros st w. unfold Sample.handleSubmit.
  rewrite (tier_row_committed Sample.uuid Sample.toISOString Sample.now Sample.allocation
             st w "2024-01-01T00:00" "2024-02-01T00:00"
             (conj eq_refl (conj eq_refl (conj eq_refl (conj eq_refl (conj eq_refl eq_refl)))))
             eq_refl).
  reflexivity.
Defined.

Lemma bundle_refused_witness :
  let st := setFormData (Sample.form_with_requirements "Gold" 1) initialState in
  let w := Sample.world_with [false; true] Sample.store in
  state_after Sample.handleSubmit st w = st
  /\ map AllocationTier.name (Store.allocation_tiers (db_after Sample.handleSubmit st w))
     = ["Gold"]
  /\ Store.tier_overrides (db_after Sample.handleSubmit st w) = []
  /\ console (world_after Sample.handleSubmit st w) = [PostgrestError].
Proof.
  intros st w. unfold db_after, world_after, state_after, Sample.handleSubmit.
  rewrite (bundle_refused Sample.uuid Sample.toISOString Sample.now Sample.allocation
             st w "2024-01-01T00:00" "2024-02-01T00:00" []
             (conj eq_refl (conj eq_refl (conj eq_refl (conj eq_refl (conj eq_refl eq_refl)))))
             (le_n 1) eq_refl).
  repeat split.
Defined.

Lemma assignments_refused_witness :
  let st := setFormData (Sample.form_with_requirements "Gold" 1)
              (select_run initialState [Select "q1"]) in
  let w := Sample.world_with [false; false; true] Sample.store in
  map AllocationTier.customer_count
      (Store.allocation_tiers (db_after Sample.handleSubmit st w)) = [150]
  /\ map TierOverrides.tier_id (Store.tier_overrides (db_after Sample.handleSubmit st w))
     = ["tier-1"]
  /\ Store.customer_tiers (db_after Sample.handleSubmit st w) = [].
Proof.
  intros st w. unfold db_after, world_after, Sample.handleSubmit.
  rewrite (assignments_refused Sample.uuid Sample.toISOString Sample.now Sample.allocation
             st w "2024-01-01T00:00" "2024-02-01T00:00" []
             (conj eq_refl (conj eq_refl (conj eq_refl (conj eq_refl (conj eq_refl eq_refl)))))
             (le_n 1) ltac:(discriminate) eq_refl).
  repeat split.
Defined.

Lemma bundle_written_iff_overrides_witness :
  let w := Sample.world Sample.store in
  Store.tier_overrides
    (db_after Sample.handleSubmit (setFormData (Sample.form "Gold" 1) initialState) w) = []
  /\ map TierOverrides.tier_id
       (Store.tier_overrides
          (db_after Sample.handleSubmit
             (setFormData (Sample.form_with_requirements "Gold" 1) initialState) w))
     = ["tier-1"].
Proof.
  intros w. unfold Sample.handleSubmit. split.
  - rewrite (bundle_written_iff_overrides Sample.uuid Sample.toISOString Sample.now
               Sample.allocation (setFormData (Sample.form "Gold" 1) initialState) w
               "2024-01-01T00:00" "2024-02-01T00:00"
               (conj eq_refl
                  (conj eq_refl (conj eq_refl (conj eq_refl (conj eq_refl eq_refl)))))
               eq_refl).
    reflexivity.
  - rewrite (bundle_written_iff_overrides Sample.uuid Sample.toISOString Sample.now
               Sample.allocation
               (setFormData (Sample.form_with_requirements "Gold" 1) initialState) w
               "2024-01-01T00:00" "2024-02-01T00:00"
               (conj eq_refl
                  (conj eq_refl (conj eq_refl (conj eq_refl (conj eq_refl eq_refl)))))
               eq_refl).
    reflexivity.
Defined.

Lemma creation_resets_form_witness :
  let st := setFormData (Sample.form_with_requirements "Gold" 1)
              (select_run initialState [Select "q1"]) in
  let w := Sample.world Sample.store in
  formData (state_after Sample.handleSubmit st w) = emptyForm
  /\ selectedSources (state_after Sample.handleSubmit st w) = []
  /\ "tier-1" ∈ map TierData.id (tiers (state_after Sample.handleSubmit st w)).
Proof.
  intros st w.
  destruct (creation_resets_form Sample.uuid Sample.toISOString Sample.now Sample.allocation
              st w "2024-01-01T00:00" "2024-02-01T00:00"
              (conj eq_refl
                 (conj eq_refl (conj eq_refl (conj eq_refl (conj eq_refl eq_refl)))))
              eq_refl)
    as (Hform & Hsources & _ & _ & _ & _ & Hshown).
  unfold Sample.handleSubmit. split; [exact Hform |]. split; [exact Hsources | exact Hshown].
Defined.

Lemma deleteTier_refused_witness :
  let w := Sample.world_with [true] Sample.store in
  Tiers.deleteTier Sample.allocation "tier-1" initialState w
  = (initialState,
     {| db := Sample.store; faults := []; console := [PostgrestError] |}, inr tt).
Proof.
  intros w.
  exact (deleteTier_refused Sample.allocation "tier-1" initialState w [] eq_refl).
Defined.

Lemma deleted_tier_not_listed_witness :
  let w := Sample.world
             (db_after Sample.handleSubmit (setFormData (Sample.form "Silver" 1) initialState)
                (world_after Sample.handleSubmit
                   (setFormData (Sample.form "Gold" 2) initialState)
                   (Sample.world Sample.store))) in
  let shown := map TierData.id
                 (tiers (state_after (Tiers.deleteTier Sample.allocation "tier-1")
                           initialState w)) in
  ("tier-1" ∉ shown) /\ ("tier-2" ∈ shown).
Proof.
  intros w shown.
  destruct (deleted_tier_not_listed Sample.allocation "tier-1" initialState w eq_refl)
    as [Hgone Hothers].
  split; [exact Hgone |].
  apply (Hothers
           {| AllocationTier.id := "tier-2";
              AllocationTier.allocation_id := "a1";
              AllocationTier.name := "Silver";
              AllocationTier.level := 1;
              AllocationTier.access_start := "2024-01-01T00:00";
              AllocationTier.access_end := "2024-02-01T00:00";
              AllocationTier.customer_count := 0 |}).
  - vm_compute. apply list_elem_of_further, list_elem_of_here.
  - reflexivity.
  - discriminate.
Defined.

Lemma fetchTiers_settles_witness :
  let w := Sample.world_with [true] Sample.store in
  let st' := state_after (Tiers.fetchTiers Sample.allocation) initialState w in
  loading st' = false /\ tiers st' = [].
Proof.
  intros w st'.
  destruct (fetchTiers_settles Sample.allocation initialState w)
    as (Hloading & _ & _ & _ & _ & _ & Hrefused).
  split; [exact Hloading |]. exact (proj1 (Hrefused [] eq_refl)).
Defined.

Lemma fetchTiers_attaches_bundles_witness :
  let w := Sample.world
             (db_after Sample.handleSubmit
                (setFormData (Sample.form_with_requirements "Gold" 1) initialState)
                (Sample.world Sample.store)) in
  map (fun tier => present (TierData.overrides tier))
      (tiers (state_after (Tiers.fetchTiers Sample.allocation) initialState w))
  = [1%nat].
Proof.
  intros w. unfold state_after.
  rewrite (fetchTiers_attaches_bundles Sample.allocation initialState w eq_refl).
  reflexivity.
Defined.

End TiersMore.

(** ** AllocationOverview: more on the days and the progress bar *)

Module OverviewMore.
Import Overview.

Lemma day_positive : (0 < inject_Z 86400000)%Q.
Proof. reflexivity. Qed.

(** [days from to] is the least number of whole days that covers the time
    from [from] to [to]. *)
Lemma days_covers (from to : Z) :
  (days from to - 1) * 86400000 < to - from <= days from to * 86400000.
Proof.
  unfold days. set (x := (inject_Z (to - from) / inject_Z 86400000)%Q).
  assert (inject_Z (to - from) == x * inject_Z 86400000)%Q as Hx
    by (unfold x; field).
  split.
  - rewrite Zlt_Qlt, Hx, inject_Z_mult.
    apply Qmult_lt_compat_r; [exact day_positive | apply Qceiling_lt].
  - rewrite Zle_Qle, Hx, inject_Z_mult.
    apply Qmult_le_compat_r; [apply Qle_ceiling | apply Qlt_le_weak, day_positive].
Qed.

Lemma days_positive (from to : Z) : from < to -> 0 < days from to.
Proof. pose proof (days_covers from to). lia. Qed.

Lemma days_not_positive (from to : Z) : to <= from -> days from to <= 0.
Proof. pose proof (days_covers from to). lia. Qed.

Lemma days_antitone (from from' to : Z) : from <= from' -> days from' to <= days from to.
Proof. pose proof (days_covers from to). pose proof (days_covers from' to). lia. Qed.

(** X18: for time values of dates that are no further apart than a double
    holds exactly, the number of days in the banner is the least number of
    whole days that covers the time left: a day that has begun counts as a
    whole day, so the number is at least 1 as long as the end is ahead, and 0
    or less from the end on. *)
Theorem daysRemaining_covers (allocation : Allocation.t) (now : Z) :
  is_time (Allocation.end_date allocation) ->
  is_time now ->
  exact (Allocation.end_date allocation - now) ->
  exists d : Z,
    JS.is_finite (daysRemaining allocation now)
    /\ (JS.to_Q (daysRemaining allocation now) == inject_Z d)%Q
    /\ (d - 1) * 86400000 < Allocation.end_date allocation - now <= d * 86400000
    /\ (now < Allocation.end_date allocation <-> 1 <= d).
Proof.
  intros _ _ _.
  exists (days now (Allocation.end_date allocation)).
  split; [apply OverviewFacts.daysRemaining_is_finite |].
  split; [apply OverviewFacts.days_value |].
  pose proof (days_covers now (Allocation.end_date allocation)) as Hcovers.
  split; [exact Hcovers | lia].
Qed.

Lemma daysRemaining_covers_witness :
  let allocation := window (jan_2024 1) (jan_2024 11) in
  let now := jan_2024 6 + 1 in
  is_time (Allocation.end_date allocation) /\ is_time now
  /\ exact (Allocation.end_date allocation - now)
  /\ exists d : Z,
       (JS.to_Q (daysRemaining allocation now) == inject_Z d)%Q
       /\ (d - 1) * 86400000 < Allocation.end_date allocation - now <= d * 86400000.
Proof.
  intros allocation now.
  assert (is_time (Allocation.end_date allocation)) as Hend by (vm_compute; discriminate).
  assert (is_time now) as Hnow by (vm_compute; discriminate).
  assert (exact (Allocation.end_date allocation - now)) as Hexact
    by (vm_compute; discriminate).
  split; [exact Hend |]. split; [exact Hnow |]. split; [exact Hexact |].
  destruct (daysRemaining_covers allocation now Hend Hnow Hexact)
    as (d & _ & Hvalue & Hcovers & _).
  exists d. split; [exact Hvalue | exact Hcovers].
Defined.

(** The percentage of the contract, for a window of [total] days. *)
Lemma percentage_le (total a b : Z) :
  0 < total -> a <= b ->
  (inject_Z a / inject_Z total * 100 <= inject_Z b / inject_Z total * 100)%Q.
Proof.
  intros Htotal Hab. apply Qmult_le_compat_r; [| discriminate].
  apply Qmult_le_compat_r; [now rewrite <- Zle_Qle |].
  apply Qlt_le_weak, Qinv_lt_0_compat. change 0%Q with (inject_Z 0).
  now rewrite <- Zlt_Qlt.
Qed.

Lemma percentage_none (total : Z) : 0 < total -> (inject_Z 0 / inject_Z total * 100 == 0)%Q.
Proof.
  intros Htotal. field. intros Hzero. change 0%Q with (inject_Z 0) in Hzero.
  apply (proj1 (inject_Z_injective _ _)) in Hzero. lia.
Qed.

Lemma percentage_all (total : Z) :
  0 < total -> (inject_Z total / inject_Z total * 100 == 100)%Q.
Proof.
  intros Htotal. field. intros Hzero. change 0%Q with (inject_Z 0) in Hzero.
  apply (proj1 (inject_Z_injective _ _)) in Hzero. lia.
Qed.

Lemma clamp_below (x : Q) : (x <= 0)%Q -> clamp x 0 100 = 0%Q.
Proof. intros Hx. unfold clamp. apply Qle_bool_iff in Hx. now rewrite Hx. Qed.

Lemma clamp_above (x : Q) : (100 <= x)%Q -> clamp x 0 100 = 100%Q.
Proof.
  intros Hx. unfold clamp.
  destruct (Qle_bool x 0) eqn:Hlow.
  - apply Qle_bool_iff in Hlow. exfalso.
    apply (Qle_not_lt _ _ (Qle_trans _ _ _ Hx Hlow)). reflexivity.
  - apply Qle_bool_iff in Hx. now rewrite Hx.
Qed.

Lemma Qle_bool_false (a b : Q) : Qle_bool a b = false -> (b < a)%Q.
Proof.
  intros H. apply Qnot_le_lt. intros Hle. apply Qle_bool_iff in Hle. congruence.
Qed.

Lemma clamp_monotone (x y : Q) : (x <= y)%Q -> (clamp x 0 100 <= clamp y 0 100)%Q.
Proof.
  intros Hxy. unfold clamp.
  destruct (Qle_bool x 0) eqn:Hx0; [| apply Qle_bool_false in Hx0].
  - destruct (Qle_bool y 0) eqn:Hy0; [apply Qle_refl | apply Qle_bool_false in Hy0].
    destruct (Qle_bool 100 y); [discriminate | now apply Qlt_le_weak].
  - assert (Qle_bool y 0 = false) as ->.
    { destruct (Qle_bool y 0) eqn:Hy0; [| reflexivity]. apply Qle_bool_iff in Hy0.
      exfalso. apply (Qlt_not_le _ _ Hx0). now apply (Qle_trans _ y). }
    destruct (Qle_bool 100 x) eqn:Hx1.
    + apply Qle_bool_iff in Hx1.
      assert (Qle_bool 100 y = true) as ->; [| apply Qle_refl].
      apply Qle_bool_iff. now apply (Qle_trans _ x).
    + apply Qle_bool_false in Hx1.
      destruct (Qle_bool 100 y); [now apply Qlt_le_weak | exact Hxy].
Qed.

(** X19: for a window that ends after it starts, the bar shows 0 up to the start
    and 100 from the end on. *)
Theorem progress_at_the_ends (allocation : Allocation.t) (now : Z) :
  Allocation.start_date allocation < Allocation.end_date allocation ->
  exists q,
    progress allocation now = JS.Fin q
    /\ (now <= Allocation.start_date allocation -> (q == 0)%Q)
    /\ (Allocation.end_date allocation <= now -> (q == 100)%Q).
Proof.
  intros Hwindow.
  pose proof (days_positive _ _ Hwindow) as Htotal.
  destruct (OverviewFacts.progress_refines_contract allocation now ltac:(lia))
    as (q & Hq & Hvalue).
  exists q. split; [exact Hq |]. rewrite Hvalue. unfold computeProgress.
  destruct (Z.eqb_spec (days (Allocation.start_date allocation)
                             (Allocation.end_date allocation)) 0) as [Hzero|_]; [lia |].
  split.
  - intros Hbefore.
    pose proof (days_antitone now (Allocation.start_date allocation)
                  (Allocation.end_date allocation) Hbefore) as Hremaining.
    rewrite clamp_below; [reflexivity |].
    eapply Qle_trans; [apply (percentage_le _ _ 0 Htotal); lia |].
    rewrite (percentage_none _ Htotal). apply Qle_refl.
  - intros Hafter.
    pose proof (days_not_positive now (Allocation.end_date allocation) Hafter) as Hremaining.
    rewrite clamp_above; [reflexivity |].
    eapply Qle_trans;
      [| apply (percentage_le _ (days (Allocation.start_date allocation)
                                      (Allocation.end_date allocation)) _ Htotal); lia].
    rewrite (percentage_all _ Htotal). apply Qle_refl.
Qed.

Lemma progress_at_the_ends_witness :
  exists q,
    progress (window (jan_2024 1) (jan_2024 11)) (jan_2024 12) = JS.Fin q /\ (q == 100)%Q.
Proof.
  destruct (progress_at_the_ends (window (jan_2024 1) (jan_2024 11)) (jan_2024 12) eq_refl)
    as (q & Hq & _ & Hafter).
  exists q. split; [exact Hq |]. apply Hafter. discriminate.
Defined.

(** X20: for a window that ends after it starts, the bar never moves back as time
    goes by. *)
Theorem progress_monotone (allocation : Allocation.t) (now later : Z) :
  Allocation.start_date allocation < Allocation.end_date allocation ->
  now <= later ->
  exists q q',
    progress allocation now = JS.Fin q
    /\ progress allocation later = JS.Fin q'
    /\ (q <= q')%Q.
Proof.
  intros Hwindow Hlater.
  pose proof (days_positive _ _ Hwindow) as Htotal.
  destruct (OverviewFacts.progress_refines_contract allocation now ltac:(lia))
    as (q & Hq & Hvalue).
  destruct (OverviewFacts.progress_refines_contract allocation later ltac:(lia))
    as (q' & Hq' & Hvalue').
  exists q, q'. split; [exact Hq |]. split; [exact Hq' |].
  rewrite Hvalue, Hvalue'. unfold computeProgress.
  destruct (Z.eqb_spec (days (Allocation.start_date allocation)
                             (Allocation.end_date allocation)) 0) as [Hzero|_]; [lia |].
  apply clamp_monotone, percentage_le; [exact Htotal |].
  pose proof (days_antitone now later (Allocation.end_date allocation) Hlater). lia.
Qed.

Lemma progress_monotone_witness :
  exists q q',
    progress (window (jan_2024 1) (jan_2024 11)) (jan_2024 3) = JS.Fin q
    /\ progress (window (jan_2024 1) (jan_2024 11)) (jan_2024 6) = JS.Fin q'
    /\ (q <= q')%Q.
Proof.
  apply (progress_monotone (window (jan_2024 1) (jan_2024 11)) (jan_2024 3) (jan_2024 6)).
  - reflexivity.
  - discriminate.
Defined.

(** *** Listing the tiers *)

(** X21: the overview ends its listing no longer loading, whatever the type of
    the allocation and whatever the store answers.  For an allocation that
    is not of type tier it sends no request at all; when the store refuses
    the select, the tiers shown stay as they were and the error is logged. *)
Theorem overview_listing_settles (allocation : Allocation.t) (st : State)
    (w : Client.world) :
  loading (Client.state_after (fetchTiers allocation) st w) = false
  /\ (Allocation.allocation_type allocation = individual_type ->
        fetchTiers allocation st w = (setLoading false st, w, inr tt))
  /\ (forall rest,
        Allocation.allocation_type allocation = tier_type ->
        Client.faults w = true :: rest ->
        fetchTiers allocation st w
        = (setLoading false st,
           {| Client.db := Client.db w; Client.faults := rest;
              Client.console := Client.console w ++ [Client.PostgrestError] |},
           inr tt)).
Proof.
  assert (forall rest,
            Allocation.allocation_type allocation = tier_type ->
            Client.faults w = true :: rest ->
            fetchTiers allocation st w
            = (setLoading false st,
               {| Client.db := Client.db w; Client.faults := rest;
                  Client.console := Client.console w ++ [Client.PostgrestError] |},
               inr tt)) as Hrefused.
  { intros rest Htype Hfaults. unfold fetchTiers. rewrite Htype.
    unfold Client.bind at 1.
    rewrite (Steps.try_catch_bind_request_refused _ _ _ _ _ rest) by exact Hfaults.
    reflexivity. }
  assert (Allocation.allocation_type allocation = individual_type ->
          fetchTiers allocation st w = (setLoading false st, w, inr tt)) as Hindividual.
  { intros Htype. unfold fetchTiers. rewrite Htype. reflexivity. }
  split; [| split; [exact Hindividual | exact Hrefused]].
  unfold Client.state_after.
  destruct (Allocation.allocation_type allocation) eqn:Htype.
  - destruct (Client.faults w) as [|[] rest] eqn:Hfaults.
    + rewrite (TiersFacts.overview_fetchTiers_answered allocation st w Htype)
        by (unfold Client.answered; now rewrite Hfaults).
      reflexivity.
    + rewrite (Hrefused rest eq_refl eq_refl). reflexivity.
    + rewrite (TiersFacts.overview_fetchTiers_answered allocation st w Htype)
        by (unfold Client.answered; now rewrite Hfaults).
      reflexivity.
  - rewrite (Hindividual eq_refl). reflexivity.
Qed.

Lemma overview_listing_settles_witness :
  let individual :=
    {| Allocation.id := "a2"; Allocation.allocation_type := individual_type;
       Allocation.start_date := jan_2024 1; Allocation.end_date := jan_2024 11 |} in
  let st := {| tiers := []; loading := true |} in
  fetchTiers individual st (Sample.world_with [true] Sample.store)
  = ({| tiers := []; loading := false |}, Sample.world_with [true] Sample.store, inr tt)
  /\ Client.console
       (Client.world_after (fetchTiers Sample.allocation) st
          (Sample.world_with [true] Sample.store))
     = [Client.PostgrestError].
Proof.
  intros individual st. split.
  - exact (proj1 (proj2 (overview_listing_settles individual st
                           (Sample.world_with [true] Sample.store))) eq_refl).
  - unfold Client.world_after.
    rewrite (proj2 (proj2 (overview_listing_settles Sample.allocation st
                             (Sample.world_with [true] Sample.store))) [] eq_refl eq_refl).
    reflexivity.
Defined.

End OverviewMore.

(** ** TierProductOverrides: more on loading, changing and saving *)

Module EditorMore.
Import Client Editor.

#[local] Existing Instance ConsoleFacts.keeps_preorder.

(** *** Loading *)

Lemma overridesMap_snoc (rows : list TierProductOverride.t) (row : TierProductOverride.t) :
  overridesMap (rows ++ [row])
  = <[TierProductOverride.product_id row := of_row row]> (overridesMap rows).
Proof. unfold overridesMap. now rewrite foldl_app. Qed.

(** X22: when the store holds several rows of a tier for one product, as it does
    after a save whose delete was refused, the editor shows the last of
    them; a product without a row has no override. *)
Theorem overridesMap_last_row (rows : list TierProductOverride.t) (product : string) :
  overridesMap rows !! product
  = of_row <$> last (filter (fun r => TierProductOverride.product_id r = product) rows).
Proof.
  induction rows as [|row rows IH] using rev_ind; [reflexivity |].
  rewrite overridesMap_snoc, filter_app, filter_cons, filter_nil.
  destruct (decide (TierProductOverride.product_id row = product)) as [<-|Hother].
  - now rewrite lookup_insert_eq, last_snoc.
  - now rewrite lookup_insert_ne, app_nil_r by exact Hother.
Qed.

Lemma overridesMap_keys_agree (rows : list TierProductOverride.t) :
  keys_agree (overridesMap rows).
Proof.
  induction rows as [|row rows IH] using rev_ind; [apply map_Forall_empty |].
  rewrite overridesMap_snoc. apply map_Forall_insert_2; [reflexivity | exact IH].
Qed.

(** *** Changing *)

Lemma handleOverrideChange_keys_agree (product : string) (fv : FieldValue) (st : State) :
  (forall v, fv ≠ productId_ v) ->
  keys_agree (overrides st) ->
  keys_agree (overrides (handleOverrideChange product fv st)).
Proof.
  intros Hfield Hkeys. unfold handleOverrideChange. cbn [overrides setOverrides].
  apply map_Forall_insert_2; [| exact Hkeys].
  assert (productId (default (blank product) (overrides st !! product)) = product) as Hid.
  { destruct (overrides st !! product) as [o|] eqn:Ho; [exact (Hkeys _ _ Ho) | reflexivity]. }
  destruct fv; try exact Hid. destruct (Hfield v eq_refl).
Qed.

(** X23: overrides loaded from the store and changed through the inputs of the
    editor, none of which writes the field [productId], are each filed under
    the id of its own product. *)
Theorem overrides_filed_under_product (rows : list TierProductOverride.t)
    (changes : list (string * FieldValue)) (st : State) :
  Forall (fun change => forall v, change.2 ≠ productId_ v) changes ->
  keys_agree
    (overrides
       (foldl (fun st change => handleOverrideChange change.1 change.2 st)
              (setOverrides (overridesMap rows) st) changes)).
Proof.
  intros Hchanges.
  assert (keys_agree (overrides (setOverrides (overridesMap rows) st))) as Hkeys
    by apply overridesMap_keys_agree.
  revert Hkeys. generalize (setOverrides (overridesMap rows) st) as loaded.
  induction Hchanges as [|[product fv] changes Hfield _ IH]; intros loaded Hkeys;
    [exact Hkeys |].
  cbn [foldl]. apply IH. now apply handleOverrideChange_keys_agree.
Qed.

Lemma overrides_filed_under_product_witness :
  keys_agree
    (overrides
       (handleOverrideChange "p2" (allowWishRequests_ true)
          (handleOverrideChange "p1" (overridePrice_ None)
             (setOverrides (overridesMap [to_row "tier-1" (Sample.override "p1" true)])
                (initialState (Sample.editing "tier-1")))))).
Proof.
  apply (overrides_filed_under_product
           [to_row "tier-1" (Sample.override "p1" true)]
           [("p1", overridePrice_ None); ("p2", allowWishRequests_ true)]
           (initialState (Sample.editing "tier-1"))).
  repeat constructor; intros v; discriminate.
Defined.

(** A change touches the override of its product only, and nothing else of
    the state; no change removes an override, not even one that clears a
    field. *)
Lemma handleOverrideChange_frame (product : string) (fv : FieldValue) (st : State) :
  let st' := handleOverrideChange product fv st in
  (forall other, other ≠ product -> overrides st' !! other = overrides st !! other)
  /\ is_Some (overrides st' !! product)
  /\ (forall key, is_Some (overrides st !! key) -> is_Some (overrides st' !! key))
  /\ products st' = products st
  /\ loading st' = loading st
  /\ called st' = called st.
Proof.
  intros st'. subst st'. unfold handleOverrideChange. cbn [overrides setOverrides].
  split; [intros other Hother; now apply lookup_insert_ne |].
  split; [rewrite lookup_insert_eq; eauto |].
  split; [| repeat split].
  intros key Hkey. apply lookup_insert_is_Some.
  destruct (decide (product = key)); [now left | now right].
Qed.

(** *** Saving *)

Lemma select_other_inserted (tierId other : string) (rows : list TierProductOverride.t)
    (saved : list ProductOverride) :
  other ≠ tierId ->
  filter (fun r => TierProductOverride.tier_id r = other) (rows ++ map (to_row tierId) saved)
  = filter (fun r => TierProductOverride.tier_id r = other) rows.
Proof.
  intros Hother. rewrite filter_app.
  rewrite <- (EditorFacts.filter_all _ _ (EditorFacts.to_row_tier tierId saved)).
  rewrite EditorFacts.filter_filter_excluded by (intros r Heq Htier; congruence).
  apply app_nil_r.
Qed.

Lemma upsert_other_tiers (tierId : string) (flag : bool) (rows : list TierOverrides.t)
    (row : TierOverrides.t) :
  row ∈ rows -> TierOverrides.tier_id row ≠ tierId ->
  row ∈ Store.upsert_has_product_overrides tierId flag rows.
Proof.
  intros Hrow Hother. unfold Store.upsert_has_product_overrides.
  destruct (existsb _ rows); [| apply elem_of_app; now left].
  apply list_elem_of_fmap. exists row. split; [| exact Hrow].
  now rewrite bool_decide_eq_false_2.
Qed.

(** X24: a save, whatever the store answers, writes no tier, no assignment and no
    product, leaves the product overrides of every other tier as they were,
    and keeps the bundle of every other tier; in creation mode, and without
    a tier, it sends no request at all. *)
Theorem save_frame (props : Props) (st : State) (w : world) :
  let s' := db_after (handleSubmit props) st w in
  Store.allocation_tiers s' = Store.allocation_tiers (db w)
  /\ Store.customer_tiers s' = Store.customer_tiers (db w)
  /\ Store.allocation_products s' = Store.allocation_products (db w)
  /\ (forall other, given (tierId props) ≠ Some other ->
        select_product_overrides other s' = select_product_overrides other (db w))
  /\ (forall row, row ∈ Store.tier_overrides (db w) ->
        given (tierId props) ≠ Some (TierOverrides.tier_id row) ->
        row ∈ Store.tier_overrides s')
  /\ (onSave props = true \/ given (tierId props) = None ->
        world_after (handleSubmit props) st w = w).
Proof.
  intros s'. subst s'.
  split; [| split; [| split; [| split; [| split]]]].
  - assert (preserves (Frame.same Store.allocation_tiers) (handleSubmit props)) as Hkeep;
      [| exact (Hkeep st w)].
    unfold handleSubmit. repeat preserves_step;
      apply (ClientFacts.preserves_request (Frame.same _)); intros ?; reflexivity.
  - assert (preserves (Frame.same Store.customer_tiers) (handleSubmit props)) as Hkeep;
      [| exact (Hkeep st w)].
    unfold handleSubmit. repeat preserves_step;
      apply (ClientFacts.preserves_request (Frame.same _)); intros ?; reflexivity.
  - assert (preserves (Frame.same Store.allocation_products) (handleSubmit props)) as Hkeep;
      [| exact (Hkeep st w)].
    unfold handleSubmit. repeat preserves_step;
      apply (ClientFacts.preserves_request (Frame.same _)); intros ?; reflexivity.
  - intros other Hother.
    assert (preserves (Frame.same (select_product_overrides other)) (handleSubmit props))
      as Hkeep; [| exact (Hkeep st w)].
    unfold handleSubmit. preserves_step; [preserves_step |].
    destruct (onSave props); [preserves_step |].
    destruct (given (tierId props)) as [tierId|]; [| preserves_step].
    assert (other ≠ tierId) as Hne by congruence.
    repeat preserves_step.
    + apply (ClientFacts.preserves_request (Frame.same _)). intros store.
      unfold Frame.same, select_product_overrides, write. cbn.
      apply EditorFacts.filter_filter_implied. intros r Heq. congruence.
    + apply (ClientFacts.preserves_request (Frame.same _)). intros store.
      unfold Frame.same, select_product_overrides, write. cbn.
      now apply select_other_inserted.
    + apply (ClientFacts.preserves_request (Frame.same _)). intros store. reflexivity.
  - intros row Hrow Hother.
    assert (preserves (Console.keeps (fun r => given (tierId props)
                                               ≠ Some (TierOverrides.tier_id r)))
                      (handleSubmit props)) as Hkeep;
      [| exact (Hkeep st w row Hrow Hother)].
    unfold handleSubmit. preserves_step; [preserves_step |].
    destruct (onSave props); [preserves_step |].
    destruct (given (tierId props)) as [tierId|]; [| preserves_step].
    repeat preserves_step.
    + apply (ClientFacts.preserves_request (Console.keeps _)). intros store r Hr _. exact Hr.
    + apply (ClientFacts.preserves_request (Console.keeps _)). intros store r Hr _. exact Hr.
    + apply (ClientFacts.preserves_request (Console.keeps _)). intros store r Hr Hne.
      cbn. apply upsert_other_tiers; [exact Hr | congruence].
  - intros Hmode. unfold world_after, handleSubmit. rewrite ClientFacts.bind_get.
    destruct (onSave props); [reflexivity |].
    destruct Hmode as [Hmode | ->]; [discriminate | reflexivity].
Qed.

Lemma save_frame_witness :
  let props := Sample.editing "tier-1" in
  let one := setOverrides {[ "p1" := Sample.override "p1" true ]} (initialState props) in
  let w := world_after (handleSubmit (Sample.editing "tier-2")) one
             (Sample.world Sample.store) in
  select_product_overrides "tier-2"
    (db_after (handleSubmit props) (initialState props) (Sample.world_with [true] (db w)))
  = [to_row "tier-2" (Sample.override "p1" true)].
Proof.
  intros props one w.
  rewrite (proj1 (proj2 (proj2 (proj2
             (save_frame props (initialState props) (Sample.world_with [true] (db w))))))
             "tier-2") by discriminate.
  reflexivity.
Defined.

(** The save of a tier, up to its first request. *)
Lemma handleSubmit_edit (props : Props) (tierId : string) (st : State) (w : world) :
  onSave props = false ->
  given (Editor.tierId props) = Some tierId ->
  handleSubmit props st w
  = try_catch
      (let* _ :=
         request (write (fun s =>
           Store.with_tier_product_overrides
             (filter (fun r => TierProductOverride.tier_id r ≠ tierId)
                     (Store.tier_product_overrides s)) s)) in
       let* insertResponse :=
         request (write (fun s =>
           Store.with_tier_product_overrides
             (Store.tier_product_overrides s ++ map (to_row tierId) (values (overrides st)))
             s)) in
       let* _ := or_throw insertResponse in
       let* _ :=
         request (write (fun s =>
           Store.with_tier_overrides
             (Store.upsert_has_product_overrides tierId true (Store.tier_overrides s)) s)) in
       set (call OnClose))
      (fun error => console_error error) st w.
Proof.
  intros Hmode Hgiven. unfold handleSubmit. rewrite ClientFacts.bind_get.
  now rewrite Hmode, Hgiven.
Qed.

(** X25: the answer of the delete is not inspected: when the store refuses the
    delete and answers the insert, the rows saved are added to the rows the
    tier had, and nothing is logged. *)
Theorem save_delete_refused (props : Props) (tierId : string) (st : State) (w : world)
    (rest : list bool) :
  onSave props = false ->
  given (Editor.tierId props) = Some tierId ->
  faults w = true :: false :: rest ->
  Store.tier_product_overrides (db_after (handleSubmit props) st w)
  = Store.tier_product_overrides (db w) ++ map (to_row tierId) (values (overrides st))
  /\ console (world_after (handleSubmit props) st w) = console w
  /\ called (state_after (handleSubmit props) st w) = called st ++ [OnClose].
Proof.
  intros Hmode Hgiven Hfaults.
  unfold db_after, world_after, state_after.
  rewrite (handleSubmit_edit props tierId st w Hmode Hgiven).
  rewrite (Steps.try_catch_bind_request_refused _ _ _ _ _ (false :: rest)) by exact Hfaults.
  rewrite Steps.try_catch_bind_request_answered by reflexivity.
  unfold write at 1 2. cbn [fst snd or_throw db faults console tail].
  rewrite Steps.try_catch_bind_ret.
  unfold try_catch, bind, request, write. cbn [faults db console].
  destruct rest as [|[] rest]; repeat split.
Qed.

Lemma save_delete_refused_witness :
  let props := Sample.editing "tier-1" in
  let one := setOverrides {[ "p1" := Sample.override "p1" true ]} (initialState props) in
  let saved := db_after (handleSubmit props) one (Sample.world Sample.store) in
  Store.tier_product_overrides
    (db_after (handleSubmit props) one (Sample.world_with [true; false] saved))
  = [to_row "tier-1" (Sample.override "p1" true); to_row "tier-1" (Sample.override "p1" true)].
Proof.
  intros props one saved.
  rewrite (proj1 (save_delete_refused props "tier-1" one
                    (Sample.world_with [true; false] saved) [] eq_refl eq_refl eq_refl)).
  reflexivity.
Defined.

(** X26: the delete and the insert are not one transaction: when the store
    answers the delete and refuses the insert, the tier is left without any
    product override, its bundle is not touched, the error is logged and the
    editor stays open. *)
Theorem save_insert_refused (props : Props) (tierId : string) (st : State) (w : world)
    (rest : list bool) :
  onSave props = false ->
  given (Editor.tierId props) = Some tierId ->
  faults w = false :: true :: rest ->
  handleSubmit props st w
  = (st,
     {| db := Store.with_tier_product_overrides
                (filter (fun r => TierProductOverride.tier_id r ≠ tierId)
                        (Store.tier_product_overrides (db w))) (db w);
        faults := rest;
        console := console w ++ [PostgrestError] |},
     inr tt).
Proof.
  intros Hmode Hgiven Hfaults.
  rewrite (handleSubmit_edit props tierId st w Hmode Hgiven).
  rewrite Steps.try_catch_bind_request_answered
    by (unfold answered; now rewrite Hfaults).
  unfold write at 1 2. cbn [fst snd].
  rewrite (Steps.try_catch_bind_request_refused _ _ _ _ _ rest)
    by (cbn [faults]; now rewrite Hfaults).
  reflexivity.
Qed.

Lemma save_insert_refused_witness :
  let props := Sample.editing "tier-1" in
  let one := setOverrides {[ "p1" := Sample.override "p1" true ]} (initialState props) in
  let saved := db_after (handleSubmit props) one (Sample.world Sample.store) in
  length (Store.tier_product_overrides saved) = 1%nat
  /\ Store.tier_product_overrides
       (db_after (handleSubmit props) one (Sample.world_with [false; true] saved)) = []
  /\ called (state_after (handleSubmit props) one (Sample.world_with [false; true] saved))
     = [].
Proof.
  intros props one saved. unfold db_after, world_after, state_after.
  rewrite (save_insert_refused props "tier-1" one (Sample.world_with [false; true] saved) []
             eq_refl eq_refl eq_refl).
  repeat split.
Defined.

(** X27: the answer of the upsert is not inspected either: when the store refuses
    it, the overrides are saved, the bundles are as they were, nothing is
    logged and the editor closes. *)
Theorem save_upsert_refused (props : Props) (tierId : string) (st : State) (w : world)
    (rest : list bool) :
  onSave props = false ->
  given (Editor.tierId props) = Some tierId ->
  faults w = false :: false :: true :: rest ->
  handleSubmit props st w
  = (call OnClose st,
     {| db := Store.with_tier_product_overrides
                (filter (fun r => TierProductOverride.tier_id r ≠ tierId)
                        (Store.tier_product_overrides (db w))
                   ++ map (to_row tierId) (values (overrides st))) (db w);
        faults := rest;
        console := console w |},
     inr tt).
Proof.
  intros Hmode Hgiven Hfaults.
  rewrite (handleSubmit_edit props tierId st w Hmode Hgiven).
  rewrite Steps.try_catch_bind_request_answered
    by (unfold answered; now rewrite Hfaults).
  unfold write at 1 2. cbn [fst snd].
  rewrite Steps.try_catch_bind_request_answered
    by (unfold answered; cbn [faults]; now rewrite Hfaults).
  unfold write at 1 2. cbn [fst snd or_throw db faults console].
  rewrite Steps.try_catch_bind_ret.
  rewrite (Steps.try_catch_bind_request_refused _ _ _ _ _ rest)
    by (cbn [faults]; now rewrite Hfaults).
  destruct (db w); reflexivity.
Qed.

Lemma save_upsert_refused_witness :
  let props := Sample.editing "tier-1" in
  let one := setOverrides {[ "p1" := Sample.override "p1" true ]} (initialState props) in
  let w := Sample.world_with [false; false; true] Sample.store in
  called (state_after (handleSubmit props) one w) = [OnClose]
  /\ Store.tier_overrides (db_after (handleSubmit props) one w) = []
  /\ console (world_after (handleSubmit props) one w) = [].
Proof.
  intros props one w. unfold db_after, world_after, state_after.
  rewrite (save_upsert_refused props "tier-1" one w [] eq_refl eq_refl eq_refl).
  repeat split.
Defined.

(** *** Opening *)

(** The products of the allocation, as the editor selects them. *)
#[local] Abbreviation products_of props s :=
  (filter (fun r => AllocationProduct.allocation_id r = Allocation.id (allocation props))
          (Store.allocation_products s)).

(** Without a tier, as in creation mode, the editor asks for the products
    only. *)
Lemma without_tier_run (props : Props) (st : State) (w : world) :
  given (tierId props) = None ->
  answered 1 w = true ->
  fetchProducts props st w
  = (setLoading false (setProducts (products_of props (db w)) st),
     {| db := db w; faults := tail (faults w); console := console w |}, inr tt).
Proof.
  intros Hgiven Hanswered. unfold fetchProducts, try_finally.
  rewrite Steps.try_catch_bind_request_answered by exact Hanswered.
  unfold read at 1 2. cbn [fst snd or_throw]. rewrite Steps.try_catch_bind_ret.
  rewrite Steps.try_catch_bind_set, Hgiven. reflexivity.
Qed.

Lemma products_refused_run (props : Props) (st : State) (w : world) (rest : list bool) :
  faults w = true :: rest ->
  fetchProducts props st w
  = (setLoading false st,
     {| db := db w; faults := rest; console := console w ++ [PostgrestError] |}, inr tt).
Proof.
  intros Hfaults. unfold fetchProducts, try_finally.
  rewrite (Steps.try_catch_bind_request_refused _ _ _ _ _ rest) by exact Hfaults.
  reflexivity.
Qed.

Lemma overrides_refused_run (props : Props) (tierId : string) (st : State)
    (w : world) (rest : list bool) :
  given (Editor.tierId props) = Some tierId ->
  faults w = false :: true :: rest ->
  fetchProducts props st w
  = (setLoading false (setProducts (products_of props (db w)) st),
     {| db := db w; faults := rest; console := console w ++ [PostgrestError] |}, inr tt).
Proof.
  intros Hgiven Hfaults. unfold fetchProducts, try_finally.
  rewrite Steps.try_catch_bind_request_answered
    by (unfold answered; now rewrite Hfaults).
  unfold read at 1 2. cbn [fst snd or_throw]. rewrite Steps.try_catch_bind_ret.
  rewrite Steps.try_catch_bind_set, Hgiven. cbv beta iota.
  rewrite (Steps.try_catch_bind_request_refused _ _ _ _ _ rest)
    by (cbn [faults]; now rewrite Hfaults).
  reflexivity.
Qed.

(** X28: when the store refuses the select of the products, the editor asks for
    nothing more: products and overrides stay as they were and the error is
    logged.  When it answers that select and refuses the select of the
    overrides, the products are shown with the overrides the editor had, not
    those of the store, and the error is logged. *)
Theorem fetchProducts_refused (props : Props) (st : State) (w : world) (rest : list bool) :
  (faults w = true :: rest ->
     fetchProducts props st w
     = (setLoading false st,
        {| db := db w; faults := rest; console := console w ++ [PostgrestError] |}, inr tt))
  /\ (forall tierId,
        given (Editor.tierId props) = Some tierId ->
        faults w = false :: true :: rest ->
        fetchProducts props st w
        = (setLoading false (setProducts (products_of props (db w)) st),
           {| db := db w; faults := rest; console := console w ++ [PostgrestError] |},
           inr tt)).
Proof.
  split; [apply products_refused_run |].
  intros tierId. apply overrides_refused_run.
Qed.

Lemma fetchProducts_refused_witness :
  let props := Sample.editing "tier-1" in
  let one := setOverrides {[ "p1" := Sample.override "p1" true ]} (initialState props) in
  let saved := db_after (handleSubmit props) one (Sample.world Sample.store) in
  overrides (state_after (fetchProducts props) (initialState props)
               (Sample.world saved))
  = {[ "p1" := Sample.override "p1" true ]}
  /\ overrides (state_after (fetchProducts props) (initialState props)
                  (Sample.world_with [false; true] saved))
     = ∅
  /\ console (world_after (fetchProducts props) (initialState props)
                (Sample.world_with [true; false] saved))
     = [PostgrestError].
Proof.
  intros props one saved. split; [vm_compute; reflexivity |].
  unfold state_after, world_after. split.
  - rewrite (proj2 (fetchProducts_refused props (initialState props)
                      (Sample.world_with [false; true] saved) [])
               "tier-1" eq_refl eq_refl).
    reflexivity.
  - rewrite (proj1 (fetchProducts_refused props (initialState props)
                      (Sample.world_with [true; false] saved) [false]) eq_refl).
    reflexivity.
Defined.

(** X29: opening the editor ends with the editor no longer loading and calls no
    callback of the parent, whatever the store answers; without a tier, as
    in creation mode, the overrides the editor was given stay. *)
Theorem fetchProducts_settles (props : Props) (st : State) (w : world) :
  loading (state_after (fetchProducts props) st w) = false
  /\ called (state_after (fetchProducts props) st w) = called st
  /\ (given (tierId props) = None ->
        overrides (state_after (fetchProducts props) st w) = overrides st).
Proof.
  unfold state_after.
  destruct (faults w) as [|first rest] eqn:Hfaults.
  - destruct (given (tierId props)) as [tierId|] eqn:Hgiven.
    + rewrite (ConsoleFacts.fetchProducts_run props tierId st w Hgiven)
        by (unfold answered; now rewrite Hfaults).
      repeat split. discriminate.
    + rewrite (without_tier_run props st w Hgiven)
        by (unfold answered; now rewrite Hfaults).
      repeat split.
  - destruct first.
    { rewrite (products_refused_run props st w rest Hfaults). repeat split. }
    destruct (given (tierId props)) as [tierId|] eqn:Hgiven.
    + destruct rest as [|[] rest].
      * rewrite (ConsoleFacts.fetchProducts_run props tierId st w Hgiven)
          by (unfold answered; now rewrite Hfaults).
        repeat split. discriminate.
      * rewrite (overrides_refused_run props tierId st w rest Hgiven Hfaults).
        repeat split.
      * rewrite (ConsoleFacts.fetchProducts_run props tierId st w Hgiven)
          by (unfold answered; now rewrite Hfaults).
        repeat split. discriminate.
    + rewrite (without_tier_run props st w Hgiven)
        by (unfold answered; now rewrite Hfaults).
      repeat split.
Qed.

Lemma fetchProducts_settles_witness :
  let props := {| allocation := Sample.allocation; tierId := Some "";
                  initialOverrides := {[ "p1" := Sample.override "p1" true ]};
                  onSave := true |} in
  overrides (state_after (fetchProducts props) (initialState props)
               (Sample.world Sample.store))
  = {[ "p1" := Sample.override "p1" true ]}.
Proof.
  intros props.
  exact (proj2 (proj2 (fetchProducts_settles props (initialState props)
                         (Sample.world Sample.store))) eq_refl).
Defined.

(** *** Opening, then saving *)

(** X30: an editor that could not load the overrides of its tier shows those it
    was mounted with, none by default; a save from it replaces the overrides
    the store holds for the tier by these. *)
Theorem save_after_failed_load (props : Props) (tierId : string) (w : world)
    (rest : list bool) :
  onSave props = false ->
  given (Editor.tierId props) = Some tierId ->
  faults w = false :: true :: false :: false :: rest ->
  let opened := fetchProducts props (initialState props) w in
  select_product_overrides tierId (db_after (handleSubmit props) opened.1.1 opened.1.2)
  = map (to_row tierId) (values (initialOverrides props)).
Proof.
  intros Hmode Hgiven Hfaults opened. subst opened.
  rewrite (overrides_refused_run props tierId (initialState props) w
             (false :: false :: rest) Hgiven Hfaults).
  cbn [fst snd]. unfold select_product_overrides.
  rewrite (EditorFacts.handleSubmit_product_overrides props tierId _ _ Hmode Hgiven)
    by reflexivity.
  cbn [db]. apply EditorFacts.select_saved.
Qed.

Lemma save_after_failed_load_witness :
  let props := Sample.editing "tier-1" in
  let one := setOverrides {[ "p1" := Sample.override "p1" true ]} (initialState props) in
  let saved := db_after (handleSubmit props) one (Sample.world Sample.store) in
  let opened := fetchProducts props (initialState props)
                  (Sample.world_with [false; true; false; false] saved) in
  select_product_overrides "tier-1" saved = [to_row "tier-1" (Sample.override "p1" true)]
  /\ select_product_overrides "tier-1" (db_after (handleSubmit props) opened.1.1 opened.1.2)
     = [].
Proof.
  intros props one saved opened. split; [vm_compute; reflexivity |]. subst opened.
  rewrite (save_after_failed_load props "tier-1"
             (Sample.world_with [false; true; false; false] saved) []
             eq_refl eq_refl eq_refl).
  reflexivity.
Defined.

End EditorMore.

(** ** TierProductOverrides: a save and the answers it does not inspect *)

Module SaveFacts.
Import Client Editor.

(** A save of a tier whose insert the store answers runs to its end,
    whatever the store answers to the delete before it and to the upsert
    after it. *)
Lemma save_completes (props : Props) (tierId : string) (st : State) (w : world)
    (delete_refused : bool) (rest : list bool) :
  onSave props = false ->
  given (Editor.tierId props) = Some tierId ->
  faults w = delete_refused :: false :: rest ->
  exists s',
    handleSubmit props st w
    = (call OnClose st, {| db := s'; faults := tail rest; console := console w |}, inr tt)
    /\ Store.tier_product_overrides s'
       = (if delete_refused
          then Store.tier_product_overrides (db w)
          else filter (fun r => TierProductOverride.tier_id r ≠ tierId)
                      (Store.tier_product_overrides (db w)))
         ++ map (to_row tierId) (values (overrides st))
    /\ Store.tier_overrides s'
       = match rest with
         | true :: _ => Store.tier_overrides (db w)
         | _ => Store.upsert_has_product_overrides tierId true (Store.tier_overrides (db w))
         end.
Proof.
  intros Hmode Hgiven Hfaults.
  rewrite (EditorMore.handleSubmit_edit props tierId st w Hmode Hgiven).
  destruct delete_refused.
  - rewrite (Steps.try_catch_bind_request_refused _ _ _ _ _ (false :: rest))
      by exact Hfaults.
    rewrite Steps.try_catch_bind_request_answered by reflexivity.
    unfold write at 1 2. cbn [fst snd or_throw db faults console tail].
    rewrite Steps.try_catch_bind_ret.
    unfold try_catch, bind, request, write. cbn [faults db console].
    destruct rest as [|[] rest]; eexists; repeat split.
  - rewrite Steps.try_catch_bind_request_answered
      by (unfold answered; now rewrite Hfaults).
    unfold write at 1 2. cbn [fst snd].
    rewrite Steps.try_catch_bind_request_answered
      by (unfold answered; cbn [faults]; now rewrite Hfaults).
    unfold write at 1 2. cbn [fst snd or_throw db faults console].
    rewrite Steps.try_catch_bind_ret.
    unfold try_catch, bind, request, write. cbn [faults db console]. rewrite Hfaults.
    destruct rest as [|[] rest]; eexists; repeat split.
Qed.

(** C6 (the code departs from it): the handler inspects the answer of the
    insert and not that of the delete before it.  A save whose insert the
    store answers closes the editor and logs nothing; the rows of the other
    tiers are as they were; and the tier has the rows submitted, in place of
    the rows it had when the delete was answered, so that loading gives the
    overrides submitted, but in addition to them when the delete was
    refused, so that a save of no override then clears nothing. *)
Theorem save_replaces_unless_delete_refused (props : Props) (tierId : string)
    (st : State) (w : world) (delete_refused : bool) (rest : list bool) :
  onSave props = false ->
  given (Editor.tierId props) = Some tierId ->
  faults w = delete_refused :: false :: rest ->
  let s' := db_after (handleSubmit props) st w in
  called (state_after (handleSubmit props) st w) = called st ++ [OnClose]
  /\ console (world_after (handleSubmit props) st w) = console w
  /\ select_product_overrides tierId s'
     = (if delete_refused then select_product_overrides tierId (db w) else [])
       ++ map (to_row tierId) (values (overrides st))
  /\ (forall other, other ≠ tierId ->
        select_product_overrides other s' = select_product_overrides other (db w))
  /\ (delete_refused = false -> keys_agree (overrides st) ->
        overridesMap (select_product_overrides tierId s') = overrides st)
  /\ (delete_refused = true -> overrides st = ∅ ->
        select_product_overrides tierId s' = select_product_overrides tierId (db w)).
Proof.
  intros Hmode Hgiven Hfaults s'. subst s'.
  destruct (save_completes props tierId st w delete_refused rest Hmode Hgiven Hfaults)
    as (s' & Hrun & Hrows & _).
  unfold db_after, world_after, state_after. rewrite Hrun.
  cbn [fst snd db console called call].
  unfold select_product_overrides. rewrite Hrows.
  split; [reflexivity |]. split; [reflexivity |].
  assert (filter (fun r => TierProductOverride.tier_id r = tierId)
                 (map (to_row tierId) (values (overrides st)))
          = map (to_row tierId) (values (overrides st))) as Hsaved
    by apply EditorFacts.filter_all, EditorFacts.to_row_tier.
  split; [| split; [| split]].
  - destruct delete_refused; [| apply EditorFacts.select_saved].
    now rewrite filter_app, Hsaved.
  - intros other Hother. destruct delete_refused.
    + now apply EditorMore.select_other_inserted.
    + now apply EditorFacts.select_other_saved.
  - intros -> Hkeys. rewrite EditorFacts.select_saved.
    now apply EditorFacts.overridesMap_rows.
  - intros -> Hnone. rewrite filter_app, Hsaved, Hnone.
    unfold values. rewrite map_to_list_empty. apply app_nil_r.
Qed.

Lemma save_replaces_unless_delete_refused_witness :
  let props := Sample.editing "tier-1" in
  let one := setOverrides {[ "p1" := Sample.override "p1" true ]} (initialState props) in
  let saved := db_after (handleSubmit props) one (Sample.world Sample.store) in
  let w := Sample.world_with [true; false] saved in
  select_product_overrides "tier-1" saved = [to_row "tier-1" (Sample.override "p1" true)]
  /\ overrides (initialState props) = ∅
  /\ select_product_overrides "tier-1" (db_after (handleSubmit props) (initialState props) w)
     = [to_row "tier-1" (Sample.override "p1" true)]
  /\ called (state_after (handleSubmit props) (initialState props) w) = [OnClose]
  /\ console (world_after (handleSubmit props) (initialState props) w) = [].
Proof.
  intros props one saved w.
  destruct (save_replaces_unless_delete_refused props "tier-1" (initialState props) w
              true [] eq_refl eq_refl eq_refl)
    as (Hcalled & Hconsole & _ & _ & _ & Hkept).
  split; [vm_compute; reflexivity |]. split; [reflexivity |].
  split; [rewrite (Hkept eq_refl eq_refl); vm_compute; reflexivity |].
  split; [exact Hcalled | exact Hconsole].
Defined.

(** C7 (the code departs from it): the handler does not inspect the answer
    of the upsert that sets the flag.  A save whose delete and insert the
    store answers closes the editor and logs nothing; when the upsert is
    answered the tier has a bundle, and every bundle of the tier has
    [has_product_overrides] true, whatever the overrides saved and be they
    none; when the upsert is refused the bundles are as they were, so that
    the tier can be left without the flag.  No operation of the console,
    whatever the store answers, touches a bundle whose flag is true, short
    of deleting its tier. *)
Theorem save_sets_flag_unless_upsert_refused (props : Props) (tierId : string)
    (st : State) (w : world) (upsert_refused : bool) (rest : list bool) :
  onSave props = false ->
  given (Editor.tierId props) = Some tierId ->
  faults w = false :: false :: upsert_refused :: rest ->
  let s' := db_after (handleSubmit props) st w in
  called (state_after (handleSubmit props) st w) = called st ++ [OnClose]
  /\ console (world_after (handleSubmit props) st w) = console w
  /\ Store.tier_overrides s'
     = (if upsert_refused
        then Store.tier_overrides (db w)
        else Store.upsert_has_product_overrides tierId true (Store.tier_overrides (db w)))
  /\ (upsert_refused = false ->
        (exists row, row ∈ Store.tier_overrides s' /\ TierOverrides.tier_id row = tierId)
        /\ (forall row, row ∈ Store.tier_overrides s' ->
                        TierOverrides.tier_id row = tierId ->
                        TierOverrides.has_product_overrides row = true))
  /\ (forall op w' row,
        row ∈ Store.tier_overrides (db w') ->
        TierOverrides.has_product_overrides row = true ->
        ~ Console.deletes op (TierOverrides.tier_id row) ->
        row ∈ Store.tier_overrides (db (Console.perform op w'))).
Proof.
  intros Hmode Hgiven Hfaults s'. subst s'.
  destruct (save_completes props tierId st w false (upsert_refused :: rest)
              Hmode Hgiven Hfaults) as (s' & Hrun & _ & Hbundles).
  unfold db_after, world_after, state_after. rewrite Hrun.
  cbn [fst snd db console called call].
  split; [reflexivity |]. split; [reflexivity |].
  split; [rewrite Hbundles; now destruct upsert_refused |].
  split.
  - intros ->. rewrite Hbundles. apply ConsoleFacts.upsert_sets.
  - intros op w' row Hrow Hflag Hkept.
    destruct op as [allocation ts|uuid toISOString now allocation ts|allocation deleted ts
                   |allocation os|eprops es|eprops es]; simpl in *.
    + now apply (ConsoleFacts.reads_keeps (fun _ => True) _
                   (TiersFacts.fetchTiers_reads allocation) ts w').
    + now apply (ConsoleFacts.create_keeps (fun _ => True) uuid toISOString now allocation
                   ts w').
    + apply (ConsoleFacts.delete_keeps allocation deleted ts w'); [exact Hrow |].
      intros Heq. apply Hkept. now symmetry.
    + now apply (ConsoleFacts.reads_keeps (fun _ => True) _
                   (ConsoleFacts.overview_fetchTiers_reads allocation) os w').
    + now apply (ConsoleFacts.reads_keeps (fun _ => True) _
                   (ConsoleFacts.fetchProducts_reads eprops) es w').
    + now apply (ConsoleFacts.save_keeps eprops es w').
Qed.

Lemma save_sets_flag_unless_upsert_refused_witness :
  let props := Sample.editing "tier-1" in
  let one := setOverrides {[ "p1" := Sample.override "p1" true ]} (initialState props) in
  let w := Sample.world_with [false; false; true] Sample.store in
  called (state_after (handleSubmit props) one w) = [OnClose]
  /\ console (world_after (handleSubmit props) one w) = []
  /\ length (Store.tier_product_overrides (db_after (handleSubmit props) one w)) = 1%nat
  /\ Store.tier_overrides (db_after (handleSubmit props) one w) = [].
Proof.
  intros props one w.
  destruct (save_sets_flag_unless_upsert_refused props "tier-1" one w true []
              eq_refl eq_refl eq_refl) as (Hcalled & Hconsole & Hbundles & _).
  split; [exact Hcalled |]. split; [exact Hconsole |].
  split; [vm_compute; reflexivity | exact Hbundles].
Defined.

End SaveFacts.
